(* ===== verification/_CoqProject ===== *)
-Q . S2P
Prelude.v
Normalizer.v
Progress.v
Viewer.v
Render.v
Merger.v
Paths.v
Pipeline.v
Invariant.v
LoopSpec.v
Script.v
Console.v
