(* ===== verification/Prelude.v ===== *)
(** * A verification of the PDF/image transcriber [GeminiOCR] (src/main.py)

    ** The program

    [src/main.py] holds one class, [GeminiOCR].  [process_document] picks
    the mode by the file extension.  A PDF goes to [_process_pdf], which
    rasterizes each page, sends it to the Gemini model with a fixed prompt
    ([_process_page_content]), cleans the reply ([_clean_text]), wraps it
    in an HTML fragment with a header, a [data-page] body and a footer, and
    after each page rewrites a progress file [{base}_progresso.json]
    ([_update_progress_file]) and the whole output document
    [{base}_processado.html] ([_save_html_file], with the index of
    [_generate_index_links]).  A later run resumes: it reads the progress
    file, starts after [last_page] and re-uses the fragments it finds in
    the old output by a regular expression ([_extract_existing_content]).
    Any other file is transcribed once as an image by [_process_technical].
    The output document carries a script: accessibility buttons (themes,
    font size, line height) and a [DOMContentLoaded] handler that
    completes the index.  The module-level script (lines 638-642) runs
    [process_document] on a placeholder path.

    ** The development, file by file (library root: this directory)

    - [Prelude] (this file): Python strings as lists of code points
      ([pystr]); [str.replace], [str.startswith], [str(int)], [int(str)],
      the character classes [\s], [\d] (the Unicode 14 Nd table of
      Python 3.11) and hexadecimal digits; Python exceptions ([py_exc]) and
      the [result] type of fallible code; the hint database [ocr] and the
      generic lemmas on these operations.
    - [Normalizer] ([Module Normalizer]): [_clean_text] (lines 582-624):
      the replacement table in its source order, [str.replace] for each
      entry, then the three [re.sub] passes, each as a left-to-right
      scanner.
    - [Progress] ([Module Progress]): the record of
      [_update_progress_file] (lines 192-204) and the percentage
      [round(n * 100 / total, 2)] computed as CPython computes it (the
      double nearest to the quotient, then exact rounding to two decimals,
      ties to even), kept as a number of hundredths.
    - [Render] ([Module Render]): the page fragment of
      [_process_page_content] (lines 571-580), the index of
      [_generate_index_links] (530-538) and the document of
      [_save_html_file] (206-528), the template text copied verbatim.
    - [Merger] ([Module Merger]): [_extract_existing_content] (171-190):
      [re.findall] of the page pattern with [re.DOTALL], a lazy [(.*?)]
      and leftmost non-overlapping matches, then the dictionary keyed by
      [int(page) - 1] (a [gmap]).
    - [Paths] ([Module Paths]): [os.path.dirname], [os.path.basename],
      [os.path.join], [str.rsplit] and [str.split] as the source uses them
      (lines 28-30, 54, 57, 629).
    - [Pipeline] ([Module Pipeline]): the class state ([GeminiOCR]: the
      fields [current_page], [total_pages], [processed_pages]), a file
      system ([gmap] from paths to files: text, progress record, PDF with
      its page count, image), the recognition service as a type class
      [Recognizer] (the one call [generate_content]), and
      [process_document], [_process_pdf], [_process_technical] with
      explicit state passing.  A run is an [outcome]: the value returned,
      the final object and files, the trace of service calls and writes in
      order, and how it ended ([Completed], [Interrupted] with the resume
      hint it prints, [Aborted] with the exception swallowed by the outer
      [except]).  The loop of [_process_pdf] is [pdf_loop] over
      [range(current_page, total_pages)], one [pdf_page] per iteration,
      stopping at the first exception.
    - [Invariant] ([Module Invariant]): the states reachable from a fresh
      object by any sequence of calls of [process_document]
      ([reachable], an inductive relation) and the well-formedness of
      every progress file in them.
    - [LoopSpec] ([Module LoopSpec]): an abstract, page-by-page
      specification of the loop of [_process_pdf] ([loop_spec]: each page
      contributes a reused or a fresh piece, up to the first exception)
      and the refinement theorem relating [pdf_loop] and [process_pdf] to
      it, files included.
    - [Viewer] ([Module Viewer]): the script of the output document
      (lines 441-514): the state of the six accessibility handlers (two
      body classes, two JavaScript numbers as IEEE binary64 doubles, with
      the product rounded to nearest, ties to even, and [Math.min] /
      [Math.max]) as a step function, and the index completion of
      [DOMContentLoaded] on the lists of header ids and index links.
    - [Script] ([Module Script]): the module-level script (lines 638-642).
    - [Console] ([Module Console]): what the program prints.  A writer
      ([logged]: a value and the lines printed, with stdpp's monad
      notation) carries the [print] calls of [process_document],
      [_process_pdf] and [_extract_existing_content] beside the runs of
      [Pipeline]: [pdf_page_log], [pdf_loop_log], [process_pdf_log] and
      [process_document_log]; [str(e)] of an exception is a parameter.

    ** What is proved

    - Refinement (LoopSpec): a call of [_process_pdf] completes exactly
      when no page raises; after it the output file holds the document of
      the pieces up to the last page sent to the service, so pages reused
      after it are never written, and only pages from the resolved start
      page on, each the piece the code computes for its own page, so a
      resumed run never writes the pages before its start while the
      processed list (and the index) keeps them; after an interruption
      with content it holds all the pieces.  Idempotence (spec, section
      8): once a run that found no progress file has completed, running
      again sends nothing and changes no file.  Liveness: a first run
      whose every page is answered with a text completes, and the output
      it writes gives back every page in range, cleaned, under its 0-based
      index, and nothing else.
    - Invariant (Invariant): in every reachable state every progress file
      lists its pages strictly increasing, without duplicates, and
      contains its [last_page], and records the percentage of its own
      page list (rule induction on [reachable]); and every file is the
      original one, an HTML text whose name ends in [.html] or a progress
      record whose name ends in [_progresso.json] (the kinds of the files
      written).
    - Resuming (Pipeline): the pages sent to the service are strictly
      increasing and lie in [[start, total)]; a resumed run starts at
      [last_page + 1]; the list of processed pages only grows; the resume
      hint printed on a failure names the page after the one that failed,
      so following it skips that page (unless it is the last).
    - Round trips (Merger, with Render): the document written for the
      fragments of a run (with a non-zero page count) is extracted back,
      page by page, under the page number minus one; a single rendered
      fragment gives its body and footer, without its header and
      [data-page] wrapper.
    - Cleaning (Normalizer): a reply without backslashes loses every line
      break; three table entries can never fire (the table equals a
      shorter one); in any plain text the entry for U+2212 followed by
      [1] deletes the digit; the cleaning halves every even run of
      backslashes, so it is not idempotent.
    - Progress (Progress): a complete document is at exactly 100.0; any
      document of fewer than [2^40] pages with fewer than one page in
      20000 missing is reported at 100.0 too.
    - Image mode (Pipeline): on a freshly created object it always fails
      with [ZeroDivisionError] after calling the service, since
      [total_pages] is 0 when the document is rendered.
    - Console (Console): the
      [Processando página N de T...] lines are exactly the pages sent to
      the service, in order; an interrupted run prints the page it
      stopped at and the resume command with the same number, 1-based in
      the first and 0-based in the second; the module-level script
      prints one error line.
    - Files (Paths): a PDF run writes two distinct files, and the
      transcript of an image never overwrites the image.
    - Script (Script): the module-level script always fails, whatever
      the files and the service: its path has extension [pdf ou png].
    - Viewer (Viewer): whatever buttons are clicked, the two themes are
      never on together, the font size stays in [[12, 32]] and the line
      height in [[1.2, 2.5]] (as doubles); the load handler keeps the
      links present, adds none twice and links every page header.

    ** Bounds and fuel

    [findall] scans with fuel [length s]: each match and each skipped
    position consumes at least one character, and [findall_go_fuel] shows
    that any fuel at least this large gives the same result.  [str_of_Z]
    produces digits with fuel [1 + log2 n], enough since [n < 2 ^ (1 +
    log2 n)] and each digit divides by 10 >= 2 ([digits_rev_spec]).
    Integers are Python integers, unbounded, so [Z] carries no width.
    JavaScript numbers are doubles: [Viewer.fl_mul] keeps 53 bits of
    mantissa, and the clamps are proved on that rounding, not on reals.
    [Progress.percentage_incomplete_shows_100] assumes fewer than [2^40]
    pages: the quotient is a double of exponent 6, within [2^-47] of the
    exact value, which keeps [100 n / total] above [99.995] as long as
    [100 * total < 2^46]; no PDF comes near it.

    ** Not modelled

    The PyMuPDF rasterization ([fitz.open], [get_pixmap]) and the Gemini
    client ([genai.configure], [GenerativeModel]) are libraries the code
    only calls: a PDF is its page count, a page image is its path and
    index, and the service is any [Recognizer].  [json.dump] / [json.load]
    are abstracted to storing the record (a malformed progress file is the
    [JSONDecodeError] of [json_load]); failures of [open] during a write,
    the text of the abstracted exceptions in the console ([str(e)] of a
    service error or of [OSError]), the CSS of the page (kept as text,
    its rendering is the browser's), [refreshMathJax], [setProperty] and
    the scroll to the URL hash (they only render the state) are not
    modelled, nor the [ImportError] branch of lines 164-166 (the model
    assumes PyMuPDF is installed). *)

(** Prelude: Python strings, the string operations of [src/main.py], and
    the automation shared by the components.

    A Python [str] is a sequence of Unicode code points; it is modelled as
    [pystr], a [list Z] of code points.  Literals are written as Rocq
    strings holding UTF-8 and decoded by [u] (through [lit], at elaboration); because a Rocq string cannot
    hold a lone double quote, the character [~] (which never occurs in
    [src/main.py]) stands for the double-quote character inside a literal.

    Holds: [str_replace] (Python [str.replace]), [starts_with]
    ([str.startswith]), [str_of_Z] / [int_of_digits] ([str(int)] and
    [int(str)] on decimal digits), the character classes the regular
    expressions of the source use, the hint database [ocr] and the
    generic lemmas on these operations. *)

From Stdlib Require Import ZArith String Ascii Lia Sorted.
From stdpp Require Import base list.

Declare Scope py_scope.
Delimit Scope py_scope with py.
Open Scope Z_scope.

(** Code points and Python strings. *)
Abbreviation pychar := Z (only parsing).
Abbreviation pystr := (list Z).

(** ** Literals *)

(** UTF-8 decoding of the bytes of a Rocq literal; [~] (byte 126) is read
    as the double quote (code point 34). *)
Fixpoint utf8_decode (bs : list Z) : pystr :=
  match bs with
  | [] => []
  | b :: rest =>
      if b <? 128 then (if b =? 126 then 34 else b) :: utf8_decode rest
      else if b <? 224 then
        match rest with
        | b2 :: r => (Z.land b 31 * 64 + Z.land b2 63) :: utf8_decode r
        | [] => []
        end
      else if b <? 240 then
        match rest with
        | b2 :: b3 :: r =>
            (Z.land b 15 * 4096 + Z.land b2 63 * 64 + Z.land b3 63)
              :: utf8_decode r
        | _ => []
        end
      else
        match rest with
        | b2 :: b3 :: b4 :: r =>
            (Z.land b 7 * 262144 + Z.land b2 63 * 4096 + Z.land b3 63 * 64
             + Z.land b4 63) :: utf8_decode r
        | _ => []
        end
  end.

Definition u (s : string) : pystr :=
  utf8_decode (map (fun a => Z.of_nat (nat_of_ascii a)) (list_ascii_of_string s)).

(** A literal of the model: the string decoded when the definition is
    elaborated, so that the stored term is the list of code points. *)
Abbreviation lit s := (ltac:(let v := eval vm_compute in (u s%string) in exact v))
  (only parsing).


(** Single characters used by the source. *)
Definition c_nl : pychar := 10.
Definition c_space : pychar := 32.
Definition c_backslash : pychar := 92.
Definition c_dot : pychar := 46.
Definition c_slash : pychar := 47.

(** A run of [n] spaces (Python: a space times n). *)
Definition spaces (n : nat) : pystr := repeat c_space n.

(** ** Character classes of Python's [re] on [str] patterns *)

(** [\s]: the characters for which [str.isspace] holds. *)
Definition is_space (c : pychar) : bool :=
  ((9 <=? c) && (c <=? 13)) || ((28 <=? c) && (c <=? 32)) || (c =? 133)
  || (c =? 160) || (c =? 5760) || ((8192 <=? c) && (c <=? 8202))
  || (c =? 8232) || (c =? 8233) || (c =? 8239) || (c =? 8287) || (c =? 12288).

(** [[0-9a-fA-F]] *)
Definition is_hex (c : pychar) : bool :=
  ((48 <=? c) && (c <=? 57)) || ((97 <=? c) && (c <=? 102))
  || ((65 <=? c) && (c <=? 70)).

(** The first code point of each block of ten Unicode decimal digits
    (general category Nd, Unicode 14.0 as in Python 3.11): [\d] matches
    exactly these 660 characters and [int()] reads them. *)
Definition nd_zeros : list Z :=
  [ 48; 1632; 1776; 1984; 2406; 2534; 2662; 2790; 2918; 3046;
    3174; 3302; 3430; 3558; 3664; 3792; 3872; 4160; 4240; 6112;
    6160; 6470; 6608; 6784; 6800; 6992; 7088; 7232; 7248; 42528;
    43216; 43264; 43472; 43504; 43600; 44016; 65296; 66720; 68912; 69734;
    69872; 69942; 70096; 70384; 70736; 70864; 71248; 71360; 71472; 71904;
    72016; 72784; 73040; 73120; 92768; 92864; 93008; 120782; 120792; 120802;
    120812; 120822; 123200; 123632; 125264; 130032 ].

(** The zero of the block of [c], when [c] is a decimal digit. *)
Definition digit_zero (c : pychar) : option Z :=
  find (fun z => (z <=? c) && (c <? z + 10)) nd_zeros.

(** [\d] *)
Definition is_digit (c : pychar) : bool :=
  match digit_zero c with Some _ => true | None => false end.

(** The value of a decimal digit, as [unicodedata.decimal]. *)
Definition digit_value (c : pychar) : Z :=
  match digit_zero c with Some z => c - z | None => 0 end.

(** ** [str.startswith] and [str.replace] *)

Fixpoint starts_with (p s : pystr) : bool :=
  match p, s with
  | [], _ => true
  | a :: p', b :: s' => (a =? b) && starts_with p' s'
  | _ :: _, [] => false
  end.

(** Left-to-right substitution of a pattern of fixed length [n]: [m]
    tells whether the pattern matches at the head of the remaining string
    and [skip] counts the characters of a match already replaced.  This is
    the scan of Python's [str.replace] and of [re.sub] with a pattern that
    always matches [n] characters. *)
Fixpoint scan_sub (m : pystr -> bool) (n : nat) (rep : pystr) (skip : nat)
    (s : pystr) : pystr :=
  match s with
  | [] => []
  | c :: t =>
      match skip with
      | S k => scan_sub m n rep k t
      | O =>
          if m (c :: t)
          then rep ++ scan_sub m n rep (pred n) t
          else c :: scan_sub m n rep O t
      end
  end.

(** [s.replace(old, new)]; with an empty [old] Python inserts [new] before
    every character and at the end. *)
Definition str_replace (old new s : pystr) : pystr :=
  match old with
  | [] => new ++ concat (map (fun c => c :: new) s)
  | _ :: _ => scan_sub (starts_with old) (List.length old) new O s
  end.

(** [sub] occurs in [s] at some position. *)
Fixpoint occurs (sub s : pystr) : bool :=
  starts_with sub s ||
  match s with
  | [] => false
  | _ :: t => occurs sub t
  end.

(** ** Decimal numerals: [str(n)] and [int(digits)] *)

Definition digit_char (d : Z) : pychar := 48 + d.

(** Digits of [n >= 0], least significant first; [fuel] bounds the number
    of divisions. *)
Fixpoint digits_rev (fuel : nat) (n : Z) : pystr :=
  match fuel with
  | O => []
  | S f => digit_char (n mod 10) :: (if n <? 10 then [] else digits_rev f (n / 10))
  end.

Definition nat_digits_fuel (n : Z) : nat := S (Z.to_nat (Z.log2 n)).

(** [str(n)] for a Python [int]. *)
Definition str_of_Z (n : Z) : pystr :=
  if n <? 0 then 45 :: rev (digits_rev (nat_digits_fuel (- n)) (- n))
  else rev (digits_rev (nat_digits_fuel n) n).

(** [int(s)] for a non-empty string of decimal digits. *)
Fixpoint int_of_digits_acc (acc : Z) (s : pystr) : Z :=
  match s with
  | [] => acc
  | c :: t => int_of_digits_acc (acc * 10 + digit_value c) t
  end.
Definition int_of_digits (s : pystr) : Z := int_of_digits_acc 0 s.

(** [a] and [b] differ at a position below both lengths: then no
    extension of [a] starts with [b]. *)
Fixpoint disagree (a b : pystr) : bool :=
  match a, b with
  | x :: a', y :: b' => negb (x =? y) || disagree a' b'
  | _, _ => false
  end.

(** No occurrence of [pat] starts inside [p], whatever follows [p]. *)
Fixpoint clear_of (pat p : pystr) : bool :=
  match p with
  | [] => true
  | c :: t => disagree (c :: t) pat && clear_of pat t
  end.

(** ** Exceptions and results *)

(** The Python exceptions the modelled code raises or lets through. *)
Inductive py_exc :=
  | ValueError (msg : pystr)
  | ZeroDivisionError
  (** anything raised by rasterising a page or by the recognition call *)
  | ServiceError
  (** [json.load] on a file that is not a JSON object *)
  | JSONDecodeError
  (** opening a file that is missing or of the wrong kind ([fitz.open],
      [Image.open]) *)
  | OSError.

(** A computation that returns a value or raises. *)
Inductive result (A : Type) := Ok (a : A) | Raise (e : py_exc).
Arguments Ok {A} a.
Arguments Raise {A} e.

Definition bind {A B} (r : result A) (k : A -> result B) : result B :=
  match r with Ok a => k a | Raise e => Raise e end.

Declare Scope result_scope.
Delimit Scope result_scope with result.
Notation "x <- c ;; k" := (bind c (fun x => k))
  (at level 100, c at next level, right associativity) : result_scope.

(** ** Automation *)

Create HintDb ocr.

Ltac bool_to_prop :=
  repeat match goal with
  | H : (_ && _)%bool = true |- _ => apply andb_prop in H as [? ?]
  | H : (_ =? _) = true |- _ => apply Z.eqb_eq in H
  | H : (_ <=? _) = true |- _ => apply Z.leb_le in H
  | H : (_ <? _) = true |- _ => apply Z.ltb_lt in H
  | H : (_ <? _) = false |- _ => apply Z.ltb_ge in H
  | H : (_ =? _) = false |- _ => apply Z.eqb_neq in H
  end.

(** ** Lemmas on [starts_with] *)

Lemma starts_with_spec (p s : pystr) :
  starts_with p s = true <-> exists r, s = p ++ r.
Proof.
  revert s; induction p as [|a p IH]; intros [|b s]; simpl.
  - split; eauto.
  - split; eauto.
  - split; [discriminate | intros [r Hr]; discriminate].
  - rewrite andb_true_iff, IH, Z.eqb_eq. split.
    + intros [-> [r ->]]. eauto.
    + intros [r Hr]. injection Hr as -> ->. eauto.
Qed.

Lemma starts_with_app (p r : pystr) : starts_with p (p ++ r) = true.
Proof. apply starts_with_spec. eauto. Qed.

Lemma starts_with_refl (p : pystr) : starts_with p p = true.
Proof. rewrite <- (app_nil_r p) at 2. apply starts_with_app. Qed.

#[export] Hint Resolve starts_with_app starts_with_refl : ocr.

Lemma starts_with_app_l (p s r : pystr) :
  starts_with p s = true -> starts_with p (s ++ r) = true.
Proof.
  rewrite !starts_with_spec. intros [x ->]. exists (x ++ r).
  by rewrite app_assoc.
Qed.

(** ** Lemmas on [occurs] *)

Lemma occurs_spec (sub s : pystr) :
  occurs sub s = true <-> exists x y, s = x ++ sub ++ y.
Proof.
  induction s as [|c s IH]; simpl; rewrite orb_true_iff, starts_with_spec.
  - split.
    + intros [[r Hr]|H]; [exists [], r; exact Hr | discriminate].
    + intros [[|x xs] [y Hy]]; simpl in Hy; [left; eauto | discriminate].
  - rewrite IH. split.
    + intros [[r Hr]|[x [y ->]]].
      * exists [], r. exact Hr.
      * exists (c :: x), y. reflexivity.
    + intros [[|x xs] [y Hy]]; simpl in Hy.
      * left. eauto.
      * injection Hy as -> ->. right. eauto.
Qed.

Lemma occurs_app (sub s t : pystr) :
  occurs sub s = true -> occurs sub (s ++ t) = true.
Proof.
  rewrite !occurs_spec. intros (x & y & ->). exists x, (y ++ t).
  by rewrite <- !app_assoc.
Qed.

Lemma occurs_false_suffix (sub s x y : pystr) :
  occurs sub s = false -> s = x ++ y -> starts_with sub y = false.
Proof.
  intros Hocc ->. destruct (starts_with sub y) eqn:E; [|done].
  apply starts_with_spec in E as [r ->].
  assert (occurs sub (x ++ sub ++ r) = true) as Ht
    by (apply occurs_spec; eauto).
  congruence.
Qed.

(** ** Lemmas on [scan_sub] and [str_replace] *)

Section ScanSub.
Context (m : pystr -> bool) (n : nat) (rep : pystr).

(** A property of every character survives the substitution when the
    replacement satisfies it. *)
Lemma scan_sub_Forall (P : Z -> Prop) k s :
  Forall P rep -> Forall P s -> Forall P (scan_sub m n rep k s).
Proof.
  intros Hrep. revert k. induction s as [|c t IH]; intros k Hs; simpl; [done|].
  apply Forall_cons in Hs as [Hc Ht].
  destruct k; [destruct (m (c :: t))|]; auto using Forall_app_2.
Qed.

(** Where the pattern matches nowhere, nothing changes. *)
Lemma scan_sub_nomatch s :
  (forall x y, s = x ++ y -> y <> [] -> m y = false) ->
  scan_sub m n rep O s = s.
Proof.
  induction s as [|c t IH]; intros Hno; simpl; [done|].
  rewrite (Hno [] (c :: t)); [|done|done]. f_equal. apply IH.
  intros x y -> Hy. apply (Hno (c :: x) y); done.
Qed.
End ScanSub.

Lemma str_replace_Forall (P : Z -> Prop) old new s :
  old <> [] -> Forall P new -> Forall P s -> Forall P (str_replace old new s).
Proof. destruct old; [done|]. intros _. apply scan_sub_Forall. Qed.

Lemma str_replace_absent old new s :
  old <> [] -> occurs old s = false -> str_replace old new s = s.
Proof.
  destruct old as [|a old]; [done|]. intros _ Hocc. apply scan_sub_nomatch.
  intros x y Hs _. eapply occurs_false_suffix; eauto.
Qed.

(** A pattern whose first character [a] is absent from the string never
    occurs in it. *)
Lemma occurs_head_absent a old s :
  Forall (fun c => c <> a) s -> occurs (a :: old) s = false.
Proof.
  induction s as [|c t IH]; intros Hs; simpl; [done|].
  apply Forall_cons in Hs as [Hc Ht]. rewrite IH by done.
  destruct (Z.eqb_spec a c); [congruence|done].
Qed.

#[export] Hint Resolve scan_sub_Forall str_replace_Forall occurs_head_absent : ocr.

(** Replacing a single character by a string without it removes it. *)
Lemma str_replace_char_removes c new s :
  Forall (fun x => x <> c) new ->
  Forall (fun x => x <> c) (str_replace [c] new s).
Proof.
  intros Hnew. simpl. induction s as [|x t IH]; simpl; [done|].
  rewrite andb_true_r. destruct (Z.eqb_spec c x) as [<-|Hne].
  - by apply Forall_app_2.
  - by constructor.
Qed.

#[export] Hint Resolve str_replace_char_removes : ocr.

(** ** Lemmas on [disagree] and [clear_of] *)

Lemma disagree_starts_with a b y :
  disagree a b = true -> starts_with b (a ++ y) = false.
Proof.
  revert b; induction a as [|x a IH]; intros [|z b] H; simpl in *; try done.
  apply orb_true_iff in H as [H|H].
  - apply negb_true_iff in H. by rewrite Z.eqb_sym, H.
  - by rewrite IH, andb_false_r.
Qed.

Lemma disagree_app a b z : disagree a b = true -> disagree (a ++ z) b = true.
Proof.
  revert b; induction a as [|x a IH]; intros [|y b] H; simpl in *; try done.
  apply orb_true_iff in H as [H|H].
  - by rewrite H.
  - by rewrite IH, orb_true_r.
Qed.

(** Two strings differ at a common position or one is a prefix of the other. *)
Lemma disagree_cases a b :
  disagree a b = true \/ starts_with a b = true \/ starts_with b a = true.
Proof.
  revert b; induction a as [|x a IH]; intros [|y b]; simpl; auto.
  destruct (Z.eqb_spec x y) as [->|Hne]; simpl.
  - rewrite Z.eqb_refl. simpl. apply IH.
  - left. done.
Qed.

Lemma starts_with_snoc pat s d :
  starts_with pat (s ++ [d]) = true -> starts_with pat s = true \/ In d pat.
Proof.
  rewrite !starts_with_spec. intros [r Hr].
  destruct r as [|r0 r] using rev_ind.
  - right. rewrite app_nil_r in Hr. rewrite <- Hr. apply in_or_app. simpl. auto.
  - left. exists r. rewrite app_assoc in Hr. by apply app_inj_tail in Hr as [-> _].
Qed.

Lemma starts_with_in a b d :
  starts_with (a ++ [d]) b = true -> In d b.
Proof.
  rewrite starts_with_spec. intros [r ->]. apply in_or_app. left.
  apply in_or_app. simpl. auto.
Qed.

Lemma clear_of_app pat p q :
  clear_of pat p = true -> clear_of pat q = true -> clear_of pat (p ++ q) = true.
Proof.
  induction p as [|c p IH]; intros Hp Hq; cbn [clear_of app] in *; [done|].
  apply andb_prop in Hp as [Hd Hp]. rewrite IH by done.
  pose proof (disagree_app (c :: p) pat q Hd) as H. cbn [app] in H. by rewrite H.
Qed.

(** A string without the first character of the pattern is clear of it. *)
Lemma clear_of_head pat a p :
  Forall (fun c => c <> a) p -> clear_of (a :: pat) p = true.
Proof.
  induction p as [|c p IH]; intros Hp; simpl; [done|].
  apply Forall_cons in Hp as [Hc Hp]. rewrite IH by done.
  destruct (Z.eqb_spec c a); [congruence|done].
Qed.

(** A string in which the pattern does not occur, followed by a character
    the pattern lacks, is clear of it. *)
Lemma clear_of_occurs pat c d :
  occurs pat c = false -> ~ In d pat -> clear_of pat (c ++ [d]) = true.
Proof.
  induction c as [|x c IH]; intros Hocc Hd.
  - destruct pat as [|y pat]; [done|]. simpl.
    destruct (Z.eqb_spec d y) as [->|]; [exfalso; apply Hd; simpl; auto|done].
  - cbn [occurs] in Hocc. apply orb_false_iff in Hocc as [Hsw Hocc].
    cbn [clear_of app]. rewrite IH by done. rewrite andb_true_r.
    change (x :: c ++ [d]) with ((x :: c) ++ [d]).
    destruct (disagree_cases ((x :: c) ++ [d]) pat) as [H|[H|H]]; [done| |].
    + exfalso. apply Hd. by apply starts_with_in in H.
    + apply starts_with_snoc in H as [H|H]; [congruence|contradiction].
Qed.

#[export] Hint Resolve clear_of_app clear_of_head clear_of_occurs : ocr.

(** ** Lemmas on decimal numerals *)

Lemma digit_value_ascii d : 0 <= d < 10 -> digit_value (digit_char d) = d.
Proof.
  intros Hd. unfold digit_value, digit_zero, digit_char. simpl.
  destruct (Z.leb_spec 48 (48 + d)); [|lia].
  destruct (Z.ltb_spec (48 + d) (48 + 10)); [|lia]. simpl. lia.
Qed.

Lemma is_digit_ascii d : 0 <= d < 10 -> is_digit (digit_char d) = true.
Proof.
  intros Hd. unfold is_digit, digit_zero, digit_char. simpl.
  destruct (Z.leb_spec 48 (48 + d)); [|lia].
  destruct (Z.ltb_spec (48 + d) (48 + 10)); [|lia]. done.
Qed.

Lemma int_of_digits_acc_snoc acc s c :
  int_of_digits_acc acc (s ++ [c]) = int_of_digits_acc acc s * 10 + digit_value c.
Proof. revert acc; induction s as [|x s IH]; intros acc; simpl; auto. Qed.

Lemma digits_rev_spec fuel n :
  fuel <> O -> 0 <= n < 2 ^ Z.of_nat fuel ->
  int_of_digits (rev (digits_rev fuel n)) = n
  /\ Forall (fun c => exists d, 0 <= d < 10 /\ c = digit_char d) (digits_rev fuel n)
  /\ digits_rev fuel n <> [].
Proof.
  revert n; induction fuel as [|f IH]; intros n H0 Hn; [done|].
  - cbn [digits_rev rev]. assert (0 <= n mod 10 < 10) as Hm by (apply Z.mod_pos_bound; lia).
    destruct (Z.ltb_spec n 10) as [Hlt|Hge].
    + unfold int_of_digits. cbn [rev app int_of_digits_acc].
      rewrite digit_value_ascii by done. rewrite Z.mod_small by lia.
      split; [lia|]. split; [|done]. constructor; [|done]. exists n. split; [lia|done].
    + destruct (IH (n / 10)) as (Hv & Hf & Hne).
      { destruct f; [simpl in Hn; lia|done]. }
      { split; [apply Z.div_pos; lia|].
        rewrite Nat2Z.inj_succ, Z.pow_succ_r in Hn by lia.
        apply Z.div_lt_upper_bound; lia. }
      unfold int_of_digits in *. rewrite int_of_digits_acc_snoc, Hv, digit_value_ascii by done.
      split; [pose proof (Z.div_mod n 10); lia|]. split; [|done].
      constructor; [eauto|done].
Qed.

Lemma digits_rev_fuel n : 0 <= n -> 0 <= n < 2 ^ Z.of_nat (nat_digits_fuel n).
Proof.
  intros Hn. unfold nat_digits_fuel. rewrite Nat2Z.inj_succ, Z2Nat.id by apply Z.log2_nonneg.
  split; [done|]. destruct (Z.eq_dec n 0) as [->|]; [simpl; lia|].
  apply Z.log2_spec. lia.
Qed.

(** [int(str(n)) = n] for [n >= 0]. *)
Lemma int_of_digits_str_of_Z n : 0 <= n -> int_of_digits (str_of_Z n) = n.
Proof.
  intros Hn. unfold str_of_Z. destruct (Z.ltb_spec n 0); [lia|].
  apply digits_rev_spec; [done|]. by apply digits_rev_fuel.
Qed.

(** [str(n)] of [n >= 0] is a non-empty string of ASCII digits. *)
Lemma str_of_Z_digits n :
  0 <= n ->
  Forall (fun c => exists d, 0 <= d < 10 /\ c = digit_char d) (str_of_Z n)
  /\ str_of_Z n <> [].
Proof.
  intros Hn. unfold str_of_Z. destruct (Z.ltb_spec n 0); [lia|].
  destruct (digits_rev_spec (nat_digits_fuel n) n ltac:(done) (digits_rev_fuel n Hn)) as (_ & Hf & Hne).
  split; [by apply Forall_rev|]. intros Hr. apply Hne.
  by apply (f_equal (@rev Z)) in Hr; rewrite rev_involutive in Hr.
Qed.

(** [str(n)] contains no character other than digits and the minus sign:
    in particular no angle bracket and no double quote. *)
Lemma str_of_Z_no_char n a :
  a <> 45 -> ~ (48 <= a < 58) -> Forall (fun c => c <> a) (str_of_Z n).
Proof.
  intros Ha Hd.
  assert (forall m, 0 <= m -> Forall (fun c => c <> a) (str_of_Z m)) as Hpos.
  { intros m Hm. eapply Forall_impl; [apply (str_of_Z_digits m Hm)|].
    intros c (d & Hdr & ->). unfold digit_char. lia. }
  destruct (Z.ltb_spec n 0) as [Hlt|Hge]; [|by apply Hpos].
  unfold str_of_Z. destruct (Z.ltb_spec n 0); [|lia]. constructor; [done|].
  pose proof (Hpos (- n) ltac:(lia)) as Hneg. unfold str_of_Z in Hneg.
  destruct (Z.ltb_spec (- n) 0); [lia|done].
Qed.

(** ** Lemmas on sub-sequences and ranges *)

Lemma sublist_Forall {A} (P : A -> Prop) (l1 l2 : list A) :
  l1 `sublist_of` l2 -> Forall P l2 -> Forall P l1.
Proof.
  induction 1 as [|x l1 l2 _ IH|x l1 l2 _ IH]; intros H; [done| |].
  - apply Forall_cons in H as [? ?]. constructor; auto.
  - apply Forall_cons in H as [? ?]. auto.
Qed.

Lemma sublist_StronglySorted {A} (R : A -> A -> Prop) (l1 l2 : list A) :
  l1 `sublist_of` l2 -> StronglySorted R l2 -> StronglySorted R l1.
Proof.
  induction 1 as [|x l1 l2 Hs IH|x l1 l2 _ IH]; intros H; [constructor| |].
  - apply StronglySorted_inv in H as [H1 H2]. constructor; [auto|].
    by apply (sublist_Forall _ _ _ Hs).
  - apply StronglySorted_inv in H as [H1 _]. auto.
Qed.

(** [seqZ m n] is strictly increasing. *)
Lemma seqZ_StronglySorted m n : StronglySorted Z.lt (seqZ m n).
Proof.
  remember (Z.to_nat n) as k eqn:Hk. revert m n Hk.
  induction k as [|k IH]; intros m n Hk.
  - rewrite seqZ_nil by lia. constructor.
  - rewrite seqZ_cons by lia. constructor.
    + apply IH. lia.
    + apply Forall_seqZ. lia.
Qed.

#[export] Hint Resolve sublist_Forall sublist_StronglySorted seqZ_StronglySorted : ocr.
