(* ===== verification/Normalizer.v ===== *)
(** * Text Normalizer: [GeminiOCR._clean_text] (src/main.py, lines 582-624).

    The response of the recognition service is reduced to its text (or
    [ValueError] when it has none), then four passes run in the source's
    order: the seventeen literal replacements of the [replacements] dict,
    in insertion order; [re.sub(r'\\u[0-9a-fA-F]{4}', '', ...)];
    [re.sub(r'\s+', ' ', ...)]; [re.sub(r'\\n', newline, ...)].

    Theorems: every line break of a backslash-free response is lost, three
    table entries can never fire (the table equals a shorter one), the
    minus-sign entry deletes the digit 1 after it in any plain text, and
    the cleaning halves every even run of backslashes, so it is not
    idempotent. *)

From Stdlib Require Import ZArith String Lia.
From stdpp Require Import base list.
From S2P Require Import Prelude.

Open Scope Z_scope.

Module Normalizer.

(** The response object of [generate_content]: it has a [text] attribute
    or it has not. *)
Inductive response :=
  | RespText (text : pystr)
  | RespNoText.

(** The [replacements] dict, in insertion order.  Keys written with [r]
    in the source are six literal characters (backslash, [u], four hex
    digits); the others are real characters ([–] is U+2013, [—] U+2014,
    [−] U+2212). *)
Definition replacements : list (pystr * pystr) :=
  [ (lit "\u00e7", lit "ç");
    (lit "\u00f5", lit "õ");
    (lit "\u00e3", lit "ã");
    (lit "\n", [c_nl]);
    (lit "\t", lit "    ");
    (lit "–", lit "-");
    (lit "—", lit "-");
    (lit "\u00ed", lit "í");
    (lit "\u00e1", lit "á");
    (lit "\u00e9", lit "é");
    (lit "\u00fa", lit "ú");
    (lit "\u00f3", lit "ó");
    (lit "\\", lit "\");
    (lit "–4", lit "-");
    (lit "−1", lit "-");
    (lit "–2", lit "-");
    (lit "–3", lit "-") ].

(** [for old, new in replacements.items(): cleaned_text = cleaned_text.replace(old, new)] *)
Definition apply_replacements (table : list (pystr * pystr)) (s : pystr) : pystr :=
  fold_left (fun acc '(old, new) => str_replace old new acc) table s.

(** [\\u[0-9a-fA-F]{4}] matches at the head of [s]. *)
Definition is_uescape (s : pystr) : bool :=
  match s with
  | b :: x :: h1 :: h2 :: h3 :: h4 :: _ =>
      (b =? c_backslash) && (x =? 117)
      && is_hex h1 && is_hex h2 && is_hex h3 && is_hex h4
  | _ => false
  end.

(** [re.sub(r'\\u[0-9a-fA-F]{4}', '', s)] *)
Definition sub_uescape (s : pystr) : pystr := scan_sub is_uescape 6 [] O s.

(** [re.sub(r'\s+', ' ', s)]: every maximal run of whitespace becomes one
    space; [in_run] says that the previous character was whitespace. *)
Fixpoint sub_ws_go (in_run : bool) (s : pystr) : pystr :=
  match s with
  | [] => []
  | c :: t =>
      if is_space c
      then (if in_run then sub_ws_go true t else c_space :: sub_ws_go true t)
      else c :: sub_ws_go false t
  end.
Definition sub_ws (s : pystr) : pystr := sub_ws_go false s.

(** [re.sub(r'\\n', newline, s)]: the pattern is the two characters
    backslash and [n]. *)
Definition sub_newline (s : pystr) : pystr :=
  scan_sub (starts_with (lit "\n")) 2 [c_nl] O s.

(** The four passes on the text of the response. *)
Definition clean_str (text : pystr) : pystr :=
  sub_newline (sub_ws (sub_uescape (apply_replacements replacements text))).

(** [_clean_text(response)] *)
Definition clean_text (r : response) : result pystr :=
  match r with
  | RespText text => Ok (clean_str text)
  | RespNoText => Raise (ValueError (lit "Resposta do Gemini não contém texto"))
  end.

(** A character no entry of the table and no pass of [_clean_text]
    acts on: not a backslash, not whitespace, not U+2013, U+2014, U+2212. *)
Definition plain (c : Z) : Prop :=
  c <> c_backslash /\ is_space c = false /\ c <> 8211 /\ c <> 8212 /\ c <> 8722.

(** The table without the three entries whose key starts with U+2013. *)
Definition replacements_live : list (pystr * pystr) :=
  take 13 replacements ++ [(lit "−1", lit "-")].

(** Every whitespace character is a plain space and none follows another
    whitespace character; [prev] says the previous one was whitespace. *)
Fixpoint collapsed (prev : bool) (s : pystr) : bool :=
  match s with
  | [] => true
  | c :: t =>
      if is_space c then (c =? c_space) && negb prev && collapsed true t
      else collapsed false t
  end.

(** ** Lemmas *)

Lemma apply_replacements_app t1 t2 s :
  apply_replacements (t1 ++ t2) s = apply_replacements t2 (apply_replacements t1 s).
Proof. apply fold_left_app. Qed.

Lemma apply_replacements_Forall (P : Z -> Prop) table s :
  Forall (fun '((old, new) : pystr * pystr) => old <> [] /\
            (Forall P new \/ exists a rest, old = a :: rest /\ ~ P a)) table ->
  Forall P s -> Forall P (apply_replacements table s).
Proof.
  unfold apply_replacements. revert s.
  induction table as [|[old new] table IH]; intros s Ht Hs; simpl; [done|].
  apply Forall_cons in Ht as [[Hold Hcase] Ht]. apply IH; [done|].
  destruct Hcase as [Hnew | (a & rest & -> & Ha)].
  - by apply str_replace_Forall.
  - rewrite str_replace_absent; [done|done|]. apply occurs_head_absent.
    eapply Forall_impl; [exact Hs|]. intros x Hx ->. contradiction.
Qed.

Ltac table_entries :=
  vm_compute; repeat apply Forall_cons_2; try apply Forall_nil_2;
  (split; [discriminate|]);
  first [ left; repeat constructor; discriminate
        | right; eexists _, _; split; [reflexivity | congruence] ].

Lemma replacements_no_backslash s :
  Forall (fun c => c <> c_backslash) s ->
  Forall (fun c => c <> c_backslash) (apply_replacements replacements s).
Proof. intros Hs. apply apply_replacements_Forall; [table_entries | done]. Qed.

Lemma sub_ws_go_Forall (P : Z -> Prop) b s :
  P c_space -> Forall P s -> Forall P (sub_ws_go b s).
Proof.
  intros Hsp. revert b. induction s as [|c t IH]; intros b Hs; simpl; [done|].
  apply Forall_cons in Hs as [Hc Ht].
  destruct (is_space c), b; auto.
Qed.

Lemma sub_ws_go_collapsed b s : collapsed b (sub_ws_go b s) = true.
Proof.
  revert b. induction s as [|c t IH]; intros b; simpl; [done|].
  destruct (is_space c) eqn:Hc, b; simpl; rewrite ?Hc, ?IH; try done.
Qed.

Lemma collapsed_spaces b s :
  collapsed b s = true -> Forall (fun c => is_space c = true -> c = c_space) s.
Proof.
  revert b. induction s as [|c t IH]; intros b H; simpl in *; [done|].
  constructor.
  - intros Hc. rewrite Hc in H. bool_to_prop. done.
  - destruct (is_space c); bool_to_prop; eauto.
Qed.

Lemma no_backslash_no_match (m : pystr -> bool) s :
  (forall c t, c <> c_backslash -> m (c :: t) = false) ->
  Forall (fun c => c <> c_backslash) s ->
  forall x y, s = x ++ y -> y <> [] -> m y = false.
Proof.
  intros Hm Hs x [|c t] -> Hy; [done|].
  apply Hm. apply Forall_app in Hs as [_ Hs]. by apply Forall_cons in Hs as [? _].
Qed.

Lemma sub_uescape_id s :
  Forall (fun c => c <> c_backslash) s -> sub_uescape s = s.
Proof.
  intros Hs. apply scan_sub_nomatch. apply (no_backslash_no_match _ _); [|done].
  intros c t Hc. unfold is_uescape.
  destruct t as [|? [|? [|? [|? [|? t]]]]]; try reflexivity.
  destruct (Z.eqb_spec c c_backslash); [contradiction | reflexivity].
Qed.

Lemma sub_newline_id s :
  Forall (fun c => c <> c_backslash) s -> sub_newline s = s.
Proof.
  intros Hs. apply scan_sub_nomatch. apply (no_backslash_no_match _ _); [|done].
  intros c t Hc. change (lit "\n") with [92; 110]. cbn [starts_with].
  destruct (Z.eqb_spec 92 c); [|reflexivity].
  subst. contradiction.
Qed.

(** Entries 1 to 13 of the table leave no U+2013 behind: entry 6 replaces
    it, and no later replacement value contains it. *)
Lemma first13_no_endash s :
  Forall (fun c => c <> 8211) (apply_replacements (take 13 replacements) s).
Proof.
  assert (take 13 replacements = take 5 replacements ++ [(lit "–", lit "-")]
            ++ drop 6 (take 13 replacements)) as -> by reflexivity.
  rewrite !apply_replacements_app.
  apply apply_replacements_Forall; [table_entries|].
  apply (str_replace_char_removes 8211). repeat constructor; discriminate.
Qed.

Lemma no_endash_replace_absent d new x :
  Forall (fun c => c <> 8211) x -> str_replace (8211 :: d) new x = x.
Proof. intros Hx. apply str_replace_absent; [done|]. by apply occurs_head_absent. Qed.

(** A table whose keys all start with a character absent from the text
    leaves it unchanged. *)
Lemma apply_replacements_heads_absent table s :
  Forall (fun '((old, _) : pystr * pystr) =>
            match old with a :: _ => Forall (fun c => c <> a) s | [] => False end) table ->
  apply_replacements table s = s.
Proof.
  unfold apply_replacements. induction table as [|[[|a old] new] table IH]; intros Ht;
    [done| by inversion Ht |].
  apply Forall_cons in Ht as [Ha Ht]. cbn [fold_left].
  rewrite str_replace_absent by (done || by apply occurs_head_absent). by apply IH.
Qed.

(** Skipping the rest of a match. *)
Lemma scan_sub_skip (m : pystr -> bool) n rep l y :
  scan_sub m n rep (length l) (l ++ y) = scan_sub m n rep O y.
Proof. induction l as [|c l IH]; [done|]. exact IH. Qed.

(** [str.replace] of a pattern that occurs once, after a text without its
    first character. *)
Lemma str_replace_once a rest new x y :
  Forall (fun c => c <> a) x -> occurs (a :: rest) y = false ->
  str_replace (a :: rest) new (x ++ (a :: rest) ++ y) = x ++ new ++ y.
Proof.
  intros Hx Hy. unfold str_replace. induction x as [|c x IH].
  - assert (Hm : starts_with (a :: rest) (a :: rest ++ y) = true)
      by apply (starts_with_app (a :: rest) y).
    cbn [app scan_sub]. rewrite Hm. cbn [Nat.pred length]. rewrite scan_sub_skip. f_equal.
    apply (str_replace_absent (a :: rest) new y); [done | exact Hy].
  - apply Forall_cons in Hx as [Hc Hx]. cbn [app scan_sub starts_with].
    destruct (Z.eqb_spec a c); [congruence|]. cbn [andb]. f_equal. exact (IH Hx).
Qed.

(** [re.sub(r'\s+', ' ')] leaves a text without whitespace unchanged. *)
Lemma sub_ws_go_id b s : Forall (fun c => is_space c = false) s -> sub_ws_go b s = s.
Proof.
  revert b. induction s as [|c t IH]; intros b Hs; [done|].
  apply Forall_cons in Hs as [Hc Ht]. cbn. rewrite Hc. by rewrite IH.
Qed.

(** ** A run of backslashes *)

(** A pattern with a character other than a backslash never starts a run
    of backslashes. *)
Lemma starts_with_backslashes old s :
  Forall (fun c => c = c_backslash) s -> existsb (fun c => negb (c =? c_backslash)) old = true ->
  starts_with old s = false.
Proof.
  revert s. induction old as [|a old IH]; intros s Hs Hold; [done|].
  destruct s as [|c s]; [done|]. apply Forall_cons in Hs as [-> Hs]. cbn in Hold |- *.
  destruct (Z.eqb_spec a c_backslash) as [->|]; cbn in Hold.
  - by apply IH.
  - by destruct (Z.eqb_spec a c_backslash).
Qed.

Lemma occurs_backslashes old s :
  Forall (fun c => c = c_backslash) s -> existsb (fun c => negb (c =? c_backslash)) old = true ->
  occurs old s = false.
Proof.
  induction s as [|c s IH]; intros Hs Hold.
  - change (occurs old []) with (starts_with old [] || false).
    by rewrite (starts_with_backslashes old []).
  - change (occurs old (c :: s)) with (starts_with old (c :: s) || occurs old s).
    rewrite (starts_with_backslashes old (c :: s)) by done.
    apply Forall_cons in Hs as [_ Hs]. by apply IH.
Qed.

(** Entries whose keys are not made of backslashes alone leave a run of
    backslashes unchanged. *)
Lemma apply_replacements_backslashes table s :
  Forall (fun c => c = c_backslash) s ->
  forallb (fun '((old, _) : pystr * pystr) =>
             existsb (fun c => negb (c =? c_backslash)) old) table = true ->
  apply_replacements table s = s.
Proof.
  unfold apply_replacements. induction table as [|[old new] table IH]; intros Hs Ht; [done|].
  cbn in Ht. apply andb_prop in Ht as [Hold Ht]. cbn [fold_left].
  rewrite str_replace_absent; [by apply IH| |by apply occurs_backslashes].
  by destruct old.
Qed.

(** The entry [\\ -> \] halves an even run. *)
Lemma str_replace_halves n :
  str_replace [c_backslash; c_backslash] [c_backslash] (replicate (2 * n) c_backslash)
  = replicate n c_backslash.
Proof.
  unfold str_replace. induction n as [|n IH]; [done|].
  replace (2 * S n)%nat with (S (S (2 * n))) by lia.
  cbn [replicate scan_sub starts_with]. rewrite Z.eqb_refl.
  cbn [andb app length Nat.pred scan_sub]. f_equal. exact IH.
Qed.

(** A pattern matcher that fails on every run of backslashes. *)
Lemma scan_sub_backslashes (m : pystr -> bool) n rep s :
  (forall y, y <> [] -> Forall (fun c => c = c_backslash) y -> m y = false) ->
  Forall (fun c => c = c_backslash) s -> scan_sub m n rep O s = s.
Proof.
  intros Hm Hs. apply scan_sub_nomatch. intros x y -> Hy.
  apply Hm; [done|]. by apply Forall_app in Hs as [_ ?].
Qed.

Lemma is_uescape_backslashes y :
  Forall (fun c => c = c_backslash) y -> is_uescape y = false.
Proof.
  intros H. destruct y as [|b y]; [done|]. apply Forall_cons in H as [-> H].
  destruct y as [|x y]; [done|]. apply Forall_cons in H as [-> _].
  by destruct y as [|h1 [|h2 [|h3 [|h4 t]]]].
Qed.

Lemma starts_with_nl_backslashes y :
  Forall (fun c => c = c_backslash) y -> starts_with (lit "\n") y = false.
Proof.
  intros H. destruct y as [|b y]; [done|]. apply Forall_cons in H as [-> H].
  destruct y as [|x y]; [done|]. by apply Forall_cons in H as [-> _].
Qed.

Lemma Forall_replicate_backslash n : Forall (fun c => c = c_backslash) (replicate n c_backslash).
Proof. by apply Forall_replicate. Qed.

(** ** Theorems *)

(** C18: A response text without backslashes comes out of [_clean_text]
    without a single line break: the real newlines are collapsed with the
    other whitespace into spaces, and the later newline restoration finds
    nothing to restore (the spec says line breaks are preserved). *)
Theorem clean_str_drops_line_breaks t :
  Forall (fun c => c <> c_backslash) t ->
  Forall (fun c => c <> c_nl) (clean_str t).
Proof.
  intros Ht. unfold clean_str.
  pose proof (replacements_no_backslash t Ht) as Hx.
  rewrite sub_uescape_id by done.
  rewrite sub_newline_id by (apply sub_ws_go_Forall; [discriminate | done]).
  eapply Forall_impl; [apply (collapsed_spaces false), sub_ws_go_collapsed|].
  intros c Hc ->. specialize (Hc eq_refl). discriminate.
Qed.

Lemma clean_str_drops_line_breaks_witness :
  Forall (fun c => c <> c_backslash) [97; c_nl; 98] /\
  Forall (fun c => c <> c_nl) (clean_str [97; c_nl; 98]).
Proof.
  split.
  - repeat constructor; discriminate.
  - apply clean_str_drops_line_breaks. repeat constructor; discriminate.
Defined.

(** C19: The three table entries whose key is U+2013 followed by a digit
    never fire: after entry 6 has replaced every U+2013 the keys cannot
    occur, so the table minus these entries computes the same function. *)
Theorem apply_replacements_dead_entries s :
  apply_replacements replacements s = apply_replacements replacements_live s.
Proof.
  unfold replacements_live.
  assert (replacements = take 13 replacements ++
            [(lit "–4", lit "-"); (lit "−1", lit "-"); (lit "–2", lit "-"); (lit "–3", lit "-")])
    as Hsplit by reflexivity.
  rewrite Hsplit at 1. rewrite !apply_replacements_app.
  generalize (first13_no_endash s).
  generalize (apply_replacements (take 13 replacements) s) as x. intros x Hx.
  unfold apply_replacements.
  change (lit "–4") with [8211; 52]; change (lit "–2") with [8211; 50];
  change (lit "–3") with [8211; 51]. cbn [fold_left].
  rewrite (no_endash_replace_absent [52] _ x Hx).
  assert (Forall (fun c => c <> 8211) (str_replace (lit "−1") (lit "-") x)) as Hy
    by (apply str_replace_Forall; [discriminate | repeat constructor; discriminate | done]).
  by rewrite !(no_endash_replace_absent _ _ _ Hy).
Qed.

(** C20: The entry keyed by U+2212 followed by the digit 1 replaces the
    digit too: for all texts [x] and [y] of plain characters (no
    backslash, no whitespace, no U+2013, U+2014 or U+2212), cleaning
    [x ++ "−1" ++ y] gives [x ++ "-" ++ y], so [x−12] becomes [x-2]. *)
Theorem clean_str_minus_sign_eats_digit x y :
  Forall plain x -> Forall plain y ->
  clean_str (x ++ lit "−1" ++ y) = x ++ lit "-" ++ y.
Proof.
  intros Hx Hy. unfold plain in *.
  assert (replacements = take 14 replacements ++ [(lit "−1", lit "-")] ++ drop 15 replacements)
    as Hsplit by reflexivity.
  unfold clean_str. rewrite Hsplit, !apply_replacements_app.
  assert (Hxy : forall P : Z -> Prop, P 8722 -> P 49 -> (forall c, plain c -> P c) ->
            Forall P (x ++ lit "−1" ++ y)).
  { intros P H1 H2 H. apply Forall_app; split; [by eapply Forall_impl|].
    repeat constructor; [done|done|]. by eapply Forall_impl. }
  rewrite (apply_replacements_heads_absent (take 14 replacements) (x ++ lit "−1" ++ y)).
  2:{ unfold replacements; cbn [take];
      repeat (apply Forall_cons_2; [cbv beta iota; apply Hxy; unfold plain, c_backslash; intros; lia|]);
      apply Forall_nil_2. }
  unfold apply_replacements at 2. cbn [fold_left].
  rewrite str_replace_once.
  2:{ eapply Forall_impl; [exact Hx|]. unfold plain, c_backslash. intros; lia. }
  2:{ apply occurs_head_absent. eapply Forall_impl; [exact Hy|]. unfold plain, c_backslash. intros; lia. }
  assert (Hz : forall P : Z -> Prop, P 45 -> (forall c, plain c -> P c) ->
            Forall P (x ++ lit "-" ++ y)).
  { intros P H1 H. apply Forall_app; split; [by eapply Forall_impl|].
    constructor; [done|]. by eapply Forall_impl. }
  rewrite (apply_replacements_heads_absent (drop 15 replacements)).
  2:{ unfold replacements; cbn [drop];
      repeat (apply Forall_cons_2; [cbv beta iota; apply Hz; unfold plain, c_backslash; intros; lia|]);
      apply Forall_nil_2. }
  rewrite sub_uescape_id by (apply Hz; [discriminate | unfold plain, c_backslash; intros; lia]).
  unfold sub_ws. rewrite sub_ws_go_id by (apply Hz; [reflexivity | unfold plain; intros; tauto]).
  apply sub_newline_id. apply Hz; [discriminate | unfold plain, c_backslash; intros; lia].
Qed.

Lemma clean_str_minus_sign_eats_digit_witness :
  (Forall plain (lit "x") /\ Forall plain (lit "2"))
  /\ clean_str (lit "x" ++ lit "−1" ++ lit "2") = lit "x" ++ lit "-" ++ lit "2".
Proof.
  assert (H1 : Forall plain (lit "x"))
    by (apply Forall_cons_2; [unfold plain, c_backslash; split_and!; try reflexivity; lia | apply Forall_nil_2]).
  assert (H2 : Forall plain (lit "2"))
    by (apply Forall_cons_2; [unfold plain, c_backslash; split_and!; try reflexivity; lia | apply Forall_nil_2]).
  split; [split; [exact H1 | exact H2]|]. exact (clean_str_minus_sign_eats_digit _ _ H1 H2).
Defined.

(** C21: [_clean_text] halves every even run of backslashes (the entry
    [\\ -> \] replaces each pair, and no other pass touches them), so
    it is not idempotent: a second pass on the cleaned text of [4 (n + 1)]
    backslashes halves it again. *)
Theorem clean_str_not_idempotent n :
  clean_str (replicate (2 * n) c_backslash) = replicate n c_backslash
  /\ clean_str (clean_str (replicate (4 * S n) c_backslash))
     <> clean_str (replicate (4 * S n) c_backslash).
Proof.
  assert (Hrun : forall k, clean_str (replicate (2 * k) c_backslash) = replicate k c_backslash).
  { intros k. unfold clean_str.
    assert (replacements = take 12 replacements ++ [(lit "\\", lit "\")] ++ drop 13 replacements)
      as -> by reflexivity.
    rewrite !apply_replacements_app.
    rewrite (apply_replacements_backslashes _ (replicate (2 * k) c_backslash))
      by (apply Forall_replicate_backslash || reflexivity).
    unfold apply_replacements at 2. cbn [fold_left].
    change (lit "\\") with [c_backslash; c_backslash]. change (lit "\") with [c_backslash].
    rewrite str_replace_halves.
    rewrite apply_replacements_backslashes by (apply Forall_replicate_backslash || reflexivity).
    unfold sub_newline, sub_uescape, sub_ws.
    rewrite (scan_sub_backslashes is_uescape)
      by (intros; by apply is_uescape_backslashes || apply Forall_replicate_backslash).
    rewrite sub_ws_go_id by (eapply Forall_impl; [apply Forall_replicate_backslash|]; by intros ? ->).
    apply scan_sub_backslashes; [|apply Forall_replicate_backslash].
    intros; by apply starts_with_nl_backslashes. }
  split; [apply Hrun|].
  replace (4 * S n)%nat with (2 * (2 * S n))%nat by lia. rewrite !Hrun.
  intros Heq. apply (f_equal length) in Heq. rewrite !length_replicate in Heq. lia.
Qed.

End Normalizer.
