(* ===== verification/Progress.v ===== *)
(** * Progress Store: the record of [GeminiOCR._update_progress_file]
    (src/main.py, lines 192-204) and the percentage it holds.

    [round(len(self.processed_pages) * 100 / self.total_pages, 2)] is
    computed as CPython computes it: [int / int] is the double nearest to
    the exact quotient (ties to even), and [round(x, 2)] rounds the exact
    binary value of [x] to two decimals, ties to even.  The percentage is
    kept as that number of hundredths; [pct_repr] is the [repr] of the
    resulting float, as [json.dump] and the f-strings print it.  A zero
    page count raises [ZeroDivisionError], as Python does.

    Theorems: a complete document is at 100.0, and any document with fewer
    than one page in 20000 missing is reported at 100.0 too. *)

From Stdlib Require Import ZArith Lia.
From stdpp Require Import base list sorting.
From S2P Require Import Prelude.

Open Scope Z_scope.

Module Progress.

(** [a / b] rounded to the nearest integer, ties to even ([b > 0]). *)
Definition div_round_half_even (a b : Z) : Z :=
  let q := a / b in
  let r := a mod b in
  if 2 * r <? b then q
  else if b <? 2 * r then q + 1
  else if Z.even q then q else q + 1.

(** The double nearest to [p / q] for [p, q > 0], as [(m, e)] with value
    [m * 2^e] and [2^52 <= m <= 2^53]: first the binary exponent of the
    quotient, then the 53-bit mantissa rounded to even. *)
Definition fl_div (p q : Z) : Z * Z :=
  let e0 := Z.log2 p - Z.log2 q in
  let e := if p * 2 ^ (Z.max 0 (- e0)) <? q * 2 ^ (Z.max 0 e0) then e0 - 1 else e0 in
  let m := div_round_half_even (p * 2 ^ (Z.max 0 (52 - e)))
                               (q * 2 ^ (Z.max 0 (e - 52))) in
  (m, e - 52).

(** [round(p / q, 2)] as a number of hundredths, for [p >= 0], [q > 0]. *)
Definition round2_div (p q : Z) : Z :=
  if p =? 0 then 0
  else
    let '(m, e) := fl_div p q in
    div_round_half_even (m * 100 * 2 ^ (Z.max 0 e)) (2 ^ (Z.max 0 (- e))).

(** [round(n * 100 / total, 2)] *)
Definition percentage (n total : Z) : result Z :=
  if total =? 0 then Raise ZeroDivisionError else Ok (round2_div (n * 100) total).

(** [repr] of the float [k / 100] for [0 <= k]: the shortest decimal,
    with at least one digit after the point. *)
Definition pct_repr (k : Z) : pystr :=
  let i := k / 100 in
  let f := k mod 100 in
  str_of_Z i ++ [c_dot]
    ++ (if f mod 10 =? 0 then [digit_char (f / 10)]
        else [digit_char (f / 10); digit_char (f mod 10)]).

(** The JSON object written to [{base}_progresso.json]. *)
Record ProgressRecord := {
  total_pages : Z;
  processed_pages : list Z;
  last_page : option Z;
  progress_percentage : Z  (** hundredths *)
}.

(** [sorted(self.processed_pages)] *)
Definition sorted_pages (l : list Z) : list Z := merge_sort Z.le l.

(** The [progress_data] dict of [_update_progress_file]. *)
Definition progress_data (total : Z) (processed : list Z) (last_processed : option Z)
    : result ProgressRecord :=
  match percentage (Z.of_nat (List.length processed)) total with
  | Raise e => Raise e
  | Ok pct =>
      Ok {| total_pages := total;
            processed_pages := sorted_pages processed;
            last_page := last_processed;
            progress_percentage := pct |}
  end.

(** ** Lemmas *)

Lemma div_round_half_even_exact q b : 0 < b -> div_round_half_even (q * b) b = q.
Proof.
  intros Hb. unfold div_round_half_even.
  rewrite Z.div_mul, Z.mod_mul by lia.
  destruct (Z.ltb_spec (2 * 0) b); lia.
Qed.

(** Rounding to nearest is within half a unit of the quotient. *)
Lemma div_round_half_even_near a b :
  0 < b -> 2 * a - b <= 2 * b * div_round_half_even a b <= 2 * a + b.
Proof.
  intros Hb. pose proof (Z.div_mod a b ltac:(lia)). pose proof (Z.mod_pos_bound a b Hb).
  unfold div_round_half_even. repeat case_match; bool_to_prop; nia.
Qed.

(** Strictly within half a unit of [k], the rounding is [k]. *)
Lemma div_round_half_even_unique a b k :
  0 < b -> b * (2 * k - 1) < 2 * a < b * (2 * k + 1) -> div_round_half_even a b = k.
Proof.
  intros Hb Hk. pose proof (div_round_half_even_near a b Hb).
  assert (b * (2 * div_round_half_even a b - 1) < b * (2 * k + 1)) by lia.
  assert (b * (2 * k - 1) < b * (2 * div_round_half_even a b + 1)) by lia.
  nia.
Qed.

(** A quotient in [[64, 128)] has the binary exponent 6: its double is
    [m * 2^-46] with [m] the quotient scaled by [2^46] and rounded. *)
Lemma fl_div_exp6 p q :
  0 < q -> 64 * q <= p < 128 * q ->
  fl_div p q = (div_round_half_even (p * 2 ^ 46) q, -46).
Proof.
  intros Hq Hp. unfold fl_div.
  assert (Hl : Z.log2 q + 6 <= Z.log2 p <= Z.log2 q + 7).
  { pose proof (Z.log2_mul_pow2 q 6 Hq ltac:(lia)) as H6.
    pose proof (Z.log2_mul_pow2 q 7 Hq ltac:(lia)) as H7.
    change (2 ^ 6) with 64 in H6. change (2 ^ 7) with 128 in H7.
    assert (Z.log2 (q * 64) <= Z.log2 p) by (apply Z.log2_le_mono; lia).
    assert (Z.log2 p <= Z.log2 (q * 128)) by (apply Z.log2_le_mono; lia).
    lia. }
  remember (Z.log2 p - Z.log2 q) as e0 eqn:He.
  assert ((if p * 2 ^ Z.max 0 (- e0) <? q * 2 ^ Z.max 0 e0 then e0 - 1 else e0) = 6) as ->.
  { rewrite (Z.max_l 0 (- e0)), (Z.max_r 0 e0), Z.pow_0_r, Z.mul_1_r by lia.
    assert (e0 = 6 \/ e0 = 7) as [-> | ->] by lia.
    - change (2 ^ 6) with 64. destruct (Z.ltb_spec p (q * 64)); simpl; lia.
    - change (2 ^ 7) with 128. destruct (Z.ltb_spec p (q * 128)); simpl; lia. }
  change (Z.max 0 (52 - 6)) with 46. change (Z.max 0 (6 - 52)) with 0.
  change (6 - 52) with (-46). by rewrite Z.pow_0_r, Z.mul_1_r.
Qed.

Lemma fl_div_hundred n : 0 < n -> fl_div (n * 100) n = (100 * 2 ^ 46, -46).
Proof.
  intros Hn. rewrite fl_div_exp6 by lia.
  replace (n * 100 * 2 ^ 46) with ((100 * 2 ^ 46) * n) by lia.
  by rewrite div_round_half_even_exact.
Qed.

(** ** Theorems *)

(** C22: A document whose every page is processed is reported at exactly
    100.0 percent, whatever its page count: the double nearest to
    [n * 100 / n] is 100 and rounds to 10000 hundredths. *)
Theorem percentage_complete n : 0 < n -> percentage n n = Ok 10000.
Proof.
  intros Hn. unfold percentage, round2_div.
  destruct (Z.eqb_spec n 0); [lia|]. destruct (Z.eqb_spec (n * 100) 0); [lia|].
  rewrite fl_div_hundred by done.
  replace (Z.max 0 (-46)) with 0 by reflexivity.
  replace (Z.max 0 (- -46)) with 46 by reflexivity.
  replace (100 * 2 ^ 46 * 100 * 2 ^ 0) with (10000 * 2 ^ 46) by reflexivity.
  rewrite div_round_half_even_exact by lia. reflexivity.
Qed.

Lemma percentage_complete_witness : 0 < 7 /\ percentage 7 7 = Ok 10000.
Proof. split; [lia | apply percentage_complete; lia]. Defined.

(** C23: The rounding to two decimals reports an incomplete document at
    100.0 percent as soon as fewer than one page in 20000 is missing
    ([20000 * (total - n) < total]), for every page count below [2^40]:
    the progress banner and the progress file cannot tell such a document
    from a complete one (a document of 20001 pages with one page missing
    is the smallest case). *)
Theorem percentage_incomplete_shows_100 n total :
  0 <= n < total -> 20000 * (total - n) < total -> total < 2 ^ 40 ->
  percentage n total = Ok 10000.
Proof.
  intros Hn Hmiss Hbig. unfold percentage, round2_div.
  destruct (Z.eqb_spec total 0); [lia|]. destruct (Z.eqb_spec (n * 100) 0); [lia|].
  rewrite fl_div_exp6 by lia.
  change (Z.max 0 (-46)) with 0. change (Z.max 0 (- -46)) with 46.
  set (m := div_round_half_even (n * 100 * 2 ^ 46) total).
  assert (Hm : 2 * (n * 100 * 2 ^ 46) - total <= 2 * total * m <= 2 * (n * 100 * 2 ^ 46) + total)
    by (apply div_round_half_even_near; lia).
  f_equal. apply div_round_half_even_unique; [lia|].
  rewrite Z.mul_1_r. change (2 ^ 46) with 70368744177664 in *.
  change (2 ^ 40) with 1099511627776 in Hbig. split; nia.
Qed.

Lemma percentage_incomplete_shows_100_witness :
  (0 <= 20000 < 20001 /\ 20000 * (20001 - 20000) < 20001 /\ 20001 < 2 ^ 40)
  /\ percentage 20000 20001 = Ok 10000.
Proof.
  assert (H : 0 <= 20000 < 20001 /\ 20000 * (20001 - 20000) < 20001 /\ 20001 < 2 ^ 40)
    by (split_and!; lia).
  split; [exact H|]. destruct H as (H1 & H2 & H3).
  exact (percentage_incomplete_shows_100 20000 20001 H1 H2 H3).
Defined.

End Progress.
