(* ===== verification/Viewer.v ===== *)
(** * Viewer: the script embedded in the output document (src/main.py,
    lines 449-522, inside the f-string of [_save_html_file]).

    The accessibility controls keep four pieces of state: the classes
    [dark-mode] and [high-contrast] of the body and the JavaScript numbers
    [currentFontSize] (initially 16) and [currentLineHeight] (initially
    1.6).  The six button handlers are the [control]s and [step] is one
    click.  JavaScript numbers are IEEE binary64: a positive normal double
    is [Double m e], of value [m * 2^e] with [2^52 <= m < 2^53], and
    [fl_mul] is the product rounded to nearest, ties to even, as [*]
    computes it ([Math.min] and [Math.max] compare values, [dle] is their
    order).  [refreshMathJax] only re-typesets and [setProperty] copies the
    number into a CSS variable, so neither changes the state.

    The [DOMContentLoaded] handler is modelled on the two lists it reads
    and writes: the [id]s of the page headers, in document order, and the
    [href]s of the links of the index.

    Theorems: whatever buttons are clicked, in any order, the two themes
    are never on together, the font size stays in [[12, 32]] and the line
    height in [[1.2, 2.5]]; after loading, every page header has an index
    link, the links present before are kept, and none is added twice. *)

From Stdlib Require Import ZArith String Lia.
From stdpp Require Import base list.
From S2P Require Import Prelude Progress.

Open Scope Z_scope.

Module Viewer.

(** ** Doubles *)

Record double := Double { mant : Z; expo : Z }.

Definition normal (x : double) : Prop := 2 ^ 52 <= mant x < 2 ^ 53.

(** The order of positive normal doubles: by exponent, then mantissa. *)
Definition dle (x y : double) : bool :=
  (expo x <? expo y) || ((expo x =? expo y) && (mant x <=? mant y)).

(** [x * y] rounded to nearest, ties to even, for positive normal
    operands: the exact product has 105 or 106 bits. *)
Definition fl_mul (x y : double) : double :=
  let p := mant x * mant y in
  let s := if p <? 2 ^ 105 then 52 else 53 in
  let m := Progress.div_round_half_even p (2 ^ s) in
  if m =? 2 ^ 53 then Double (2 ^ 52) (expo x + expo y + s + 1)
  else Double m (expo x + expo y + s).

(** [Math.min] and [Math.max] on two numbers. *)
Definition js_min (x y : double) : double := if dle x y then x else y.
Definition js_max (x y : double) : double := if dle x y then y else x.

(** The literals of the script, as the parser rounds them. *)
Definition d_16 : double := Double 4503599627370496 (-48).
Definition d_32 : double := Double 4503599627370496 (-47).
Definition d_12 : double := Double 6755399441055744 (-49).
Definition d_1_1 : double := Double 4953959590107546 (-52).
Definition d_0_9 : double := Double 8106479329266893 (-53).
Definition d_1_6 : double := Double 7205759403792794 (-52).
Definition d_2_5 : double := Double 5629499534213120 (-51).
Definition d_1_2 : double := Double 5404319552844595 (-52).

(** ** The accessibility controls *)

Record viewer := {
  dark_mode : bool;
  high_contrast : bool;
  current_font_size : double;
  current_line_height : double
}.

(** The page as loaded: no theme class, [let currentFontSize = 16],
    [let currentLineHeight = 1.6]. *)
Definition init_viewer : viewer :=
  {| dark_mode := false; high_contrast := false;
     current_font_size := d_16; current_line_height := d_1_6 |}.

Inductive control :=
  | ToggleDarkMode | ToggleHighContrast
  | IncreaseFontSize | DecreaseFontSize
  | IncreaseLineHeight | DecreaseLineHeight.

(** One click of a button. *)
Definition step (v : viewer) (c : control) : viewer :=
  match c with
  | ToggleDarkMode =>
      {| dark_mode := negb (dark_mode v); high_contrast := false;
         current_font_size := current_font_size v; current_line_height := current_line_height v |}
  | ToggleHighContrast =>
      {| dark_mode := false; high_contrast := negb (high_contrast v);
         current_font_size := current_font_size v; current_line_height := current_line_height v |}
  | IncreaseFontSize =>
      {| dark_mode := dark_mode v; high_contrast := high_contrast v;
         current_font_size := js_min (fl_mul (current_font_size v) d_1_1) d_32;
         current_line_height := current_line_height v |}
  | DecreaseFontSize =>
      {| dark_mode := dark_mode v; high_contrast := high_contrast v;
         current_font_size := js_max (fl_mul (current_font_size v) d_0_9) d_12;
         current_line_height := current_line_height v |}
  | IncreaseLineHeight =>
      {| dark_mode := dark_mode v; high_contrast := high_contrast v;
         current_font_size := current_font_size v;
         current_line_height := js_min (fl_mul (current_line_height v) d_1_1) d_2_5 |}
  | DecreaseLineHeight =>
      {| dark_mode := dark_mode v; high_contrast := high_contrast v;
         current_font_size := current_font_size v;
         current_line_height := js_max (fl_mul (current_line_height v) d_0_9) d_1_2 |}
  end.

(** A sequence of clicks. *)
Definition clicks (v : viewer) (cs : list control) : viewer := fold_left step cs v.

(** ** The index completion of [DOMContentLoaded] *)

(** [s.replace(old, new)] with a string pattern: the first occurrence. *)
Fixpoint replace_first (old new s : pystr) : pystr :=
  if starts_with old s then new ++ drop (List.length old) s
  else match s with [] => [] | c :: t => c :: replace_first old new t end.

(** The body of [pageHeaders.forEach(header => ...)] for one header: the
    link [#page-N] is appended to the index unless an index link with that
    [href] exists ([.index-links] is always in the document). *)
Definition link_for_header (links : list pystr) (header_id : pystr) : list pystr :=
  let page_num := replace_first (lit "page-") [] header_id in
  let page_id := lit "page-" ++ page_num in
  let href := lit "#" ++ page_id in
  if bool_decide (href ∈ links) then links else links ++ [href].

(** The handler: the headers in document order, from the index links
    present; the scroll to [window.location.hash] changes neither list. *)
Definition on_dom_content_loaded (header_ids links : list pystr) : list pystr :=
  fold_left link_for_header header_ids links.

(** The state the theorems keep: at most one theme, both numbers normal
    doubles within the clamps of the handlers. *)
Definition viewer_ok (v : viewer) : Prop :=
  negb (dark_mode v && high_contrast v) = true
  /\ normal (current_font_size v)
  /\ dle d_12 (current_font_size v) = true /\ dle (current_font_size v) d_32 = true
  /\ normal (current_line_height v)
  /\ dle d_1_2 (current_line_height v) = true /\ dle (current_line_height v) d_2_5 = true.

(** ** Lemmas *)

(** [dle] is the order of the values [m * 2^e]: both scaled by a common
    power of two. *)
Lemma dle_spec x y k :
  normal x -> normal y -> k <= expo x -> k <= expo y ->
  dle x y = true <-> mant x * 2 ^ (expo x - k) <= mant y * 2 ^ (expo y - k).
Proof.
  unfold normal, dle. intros Hx Hy Hkx Hky.
  assert (Hlt : forall a b, 0 <= a -> a < b -> 2 ^ 53 * 2 ^ a <= 2 ^ 52 * 2 ^ b).
  { intros a b Ha Hab. replace (2 ^ 53 * 2 ^ a) with (2 ^ 52 * 2 ^ (a + 1))
      by (rewrite Z.pow_add_r by lia; change (2 ^ 1) with 2; change (2 ^ 53) with (2 ^ 52 * 2); lia).
    apply Z.mul_le_mono_nonneg_l; [lia|]. apply Z.pow_le_mono_r; lia. }
  assert (0 < 2 ^ (expo x - k)) by (apply Z.pow_pos_nonneg; lia).
  assert (0 < 2 ^ (expo y - k)) by (apply Z.pow_pos_nonneg; lia).
  destruct (Z.ltb_spec (expo x) (expo y)) as [Hxy|Hxy]; cbn [orb].
  - split; [intros _|done]. pose proof (Hlt (expo x - k) (expo y - k) ltac:(lia) ltac:(lia)). nia.
  - destruct (Z.eqb_spec (expo x) (expo y)) as [Heq|Hne]; cbn [andb].
    + rewrite Heq. rewrite Z.leb_le. split; [nia|].
      intros Hle. apply (Z.mul_le_mono_pos_r _ _ (2 ^ (expo y - k))); lia.
    + split; [done|]. pose proof (Hlt (expo y - k) (expo x - k) ltac:(lia) ltac:(lia)). nia.
Qed.

Lemma dle_refl x : dle x x = true.
Proof. unfold dle. rewrite Z.eqb_refl, Z.leb_refl. by rewrite orb_true_r. Qed.

Lemma dle_trans x y z : dle x y = true -> dle y z = true -> dle x z = true.
Proof.
  unfold dle. rewrite !orb_true_iff, !andb_true_iff, !Z.ltb_lt, !Z.eqb_eq, !Z.leb_le. lia.
Qed.

Lemma dle_total x y : dle x y = false -> dle y x = true.
Proof.
  unfold dle. rewrite !orb_false_iff, !andb_false_iff, orb_true_iff, andb_true_iff,
    !Z.ltb_lt, !Z.ltb_ge, !Z.eqb_eq, !Z.eqb_neq, Z.leb_le, Z.leb_gt. lia.
Qed.

#[export] Hint Resolve dle_refl : ocr.

(** Rounding to nearest lies between the floor and the floor plus one. *)
Lemma div_round_half_even_bounds a b :
  0 < b -> a / b <= Progress.div_round_half_even a b <= a / b + 1.
Proof.
  intros Hb. unfold Progress.div_round_half_even.
  repeat case_match; lia.
Qed.

Lemma fl_mul_normal x y : normal x -> normal y -> normal (fl_mul x y).
Proof.
  unfold normal, fl_mul. intros Hx Hy. cbv zeta.
  assert (Hp : 2 ^ 104 <= mant x * mant y < 2 ^ 106)
    by (change (2 ^ 104) with (2 ^ 52 * 2 ^ 52); change (2 ^ 106) with (2 ^ 53 * 2 ^ 53); nia).
  destruct (Z.ltb_spec (mant x * mant y) (2 ^ 105));
    match goal with |- context [Progress.div_round_half_even ?a ?b] =>
      pose proof (div_round_half_even_bounds a b ltac:(apply Z.pow_pos_nonneg; lia)) end;
    case_match; cbn [mant]; try lia;
    match goal with |- context [(mant x * mant y) / ?d] => idtac | _ => idtac end;
    first
      [ assert (2 ^ 52 <= mant x * mant y / 2 ^ 52 < 2 ^ 53)
          by (split; [apply Z.div_le_lower_bound | apply Z.div_lt_upper_bound]; lia); lia
      | assert (2 ^ 52 <= mant x * mant y / 2 ^ 53 < 2 ^ 53)
          by (split; [apply Z.div_le_lower_bound | apply Z.div_lt_upper_bound]; lia); lia ].
Qed.

(** Multiplying by a constant of [[1, 2)] (exponent -52) never decreases. *)
Lemma fl_mul_grows x c :
  normal x -> expo c = -52 -> 2 ^ 52 <= mant c < 2 ^ 53 -> dle x (fl_mul x c) = true.
Proof.
  unfold normal, fl_mul, dle. intros Hx He Hc. cbv zeta. rewrite He.
  destruct (Z.ltb_spec (mant x * mant c) (2 ^ 105)) as [Hs|Hs].
  - pose proof (div_round_half_even_bounds (mant x * mant c) (2 ^ 52) ltac:(lia)).
    assert (mant x <= mant x * mant c / 2 ^ 52)
      by (apply Z.div_le_lower_bound; nia).
    case_match; cbn [expo mant]; rewrite ?orb_true_iff, ?andb_true_iff, ?Z.ltb_lt, ?Z.eqb_eq, ?Z.leb_le; lia.
  - case_match; cbn [expo]; rewrite orb_true_iff, Z.ltb_lt; lia.
Qed.

(** Multiplying by a constant of [[1/2, 1)] (exponent -53) never increases. *)
Lemma fl_mul_shrinks x c :
  normal x -> expo c = -53 -> 2 ^ 52 <= mant c < 2 ^ 53 -> dle (fl_mul x c) x = true.
Proof.
  unfold normal, fl_mul, dle. intros Hx He Hc. cbv zeta. rewrite He.
  destruct (Z.ltb_spec (mant x * mant c) (2 ^ 105)) as [Hs|Hs].
  - case_match; cbn [expo mant]; rewrite ?orb_true_iff, ?andb_true_iff, ?Z.ltb_lt, ?Z.eqb_eq, ?Z.leb_le; lia.
  - pose proof (div_round_half_even_bounds (mant x * mant c) (2 ^ 53) ltac:(lia)).
    assert (mant x * mant c / 2 ^ 53 < mant x)
      by (apply Z.div_lt_upper_bound; nia).
    case_match; cbn [expo mant]; rewrite ?orb_true_iff, ?andb_true_iff, ?Z.ltb_lt, ?Z.eqb_eq, ?Z.leb_le; lia.
Qed.

Lemma js_min_le_r x y : dle (js_min x y) y = true.
Proof. unfold js_min. destruct (dle x y) eqn:E; [done|apply dle_refl]. Qed.

Lemma js_max_ge_r x y : dle y (js_max x y) = true.
Proof. unfold js_max. destruct (dle x y) eqn:E; [apply dle_refl|by apply dle_total]. Qed.

Lemma js_min_glb l x y : dle l x = true -> dle l y = true -> dle l (js_min x y) = true.
Proof. unfold js_min. by destruct (dle x y). Qed.

Lemma js_max_lub u x y : dle x u = true -> dle y u = true -> dle (js_max x y) u = true.
Proof. unfold js_max. by destruct (dle x y). Qed.

Lemma js_min_normal x y : normal x -> normal y -> normal (js_min x y).
Proof. unfold js_min. by destruct (dle x y). Qed.

Lemma js_max_normal x y : normal x -> normal y -> normal (js_max x y).
Proof. unfold js_max. by destruct (dle x y). Qed.

(** A button clamped above by [hi] after growing, or below by [lo] after
    shrinking, keeps a value of [[lo, hi]] in [[lo, hi]]. *)
Lemma clamp_up lo hi x :
  normal x -> normal hi -> dle lo x = true -> dle x hi = true -> dle lo hi = true ->
  let y := js_min (fl_mul x d_1_1) hi in
  normal y /\ dle lo y = true /\ dle y hi = true.
Proof.
  intros Hx Hhi Hl Hh Hlh y. split; [|split].
  - apply js_min_normal; [apply fl_mul_normal; [done | unfold normal; cbn; lia] | done].
  - apply js_min_glb; [|done]. eapply dle_trans; [exact Hl|].
    apply fl_mul_grows; [done | reflexivity | cbn; lia].
  - apply js_min_le_r.
Qed.

Lemma clamp_down lo hi x :
  normal x -> normal lo -> dle lo x = true -> dle x hi = true -> dle lo hi = true ->
  let y := js_max (fl_mul x d_0_9) lo in
  normal y /\ dle lo y = true /\ dle y hi = true.
Proof.
  intros Hx Hlo Hl Hh Hlh y. split; [|split].
  - apply js_max_normal; [apply fl_mul_normal; [done | unfold normal; cbn; lia] | done].
  - apply js_max_ge_r.
  - apply js_max_lub; [|done]. eapply dle_trans; [|exact Hh].
    apply fl_mul_shrinks; [done | reflexivity | cbn; lia].
Qed.

Lemma step_ok v c : viewer_ok v -> viewer_ok (step v c).
Proof.
  intros (Hth & Hf & Hf1 & Hf2 & Hl & Hl1 & Hl2).
  assert (normal d_12 /\ normal d_32 /\ normal d_1_2 /\ normal d_2_5) as (N1 & N2 & N3 & N4)
    by (unfold normal; cbn; lia).
  destruct c; unfold viewer_ok; cbn [step dark_mode high_contrast current_font_size current_line_height].
  - split_and!; try done. by destruct (dark_mode v).
  - split_and!; done.
  - destruct (clamp_up d_12 d_32 _ Hf N2 Hf1 Hf2 eq_refl) as (? & ? & ?). by split_and!.
  - destruct (clamp_down d_12 d_32 _ Hf N1 Hf1 Hf2 eq_refl) as (? & ? & ?). by split_and!.
  - destruct (clamp_up d_1_2 d_2_5 _ Hl N4 Hl1 Hl2 eq_refl) as (? & ? & ?). by split_and!.
  - destruct (clamp_down d_1_2 d_2_5 _ Hl N3 Hl1 Hl2 eq_refl) as (? & ? & ?). by split_and!.
Qed.

Lemma replace_first_head old new s :
  starts_with old s = true -> replace_first old new s = new ++ drop (List.length old) s.
Proof. destruct s; cbn; by intros ->. Qed.

(** The link a header [page-N] gets is [#page-N]. *)
Lemma link_for_header_href links h :
  starts_with (lit "page-") h = true ->
  link_for_header links h
  = if bool_decide ((lit "#" ++ h) ∈ links) then links else links ++ [lit "#" ++ h].
Proof.
  intros Hh. unfold link_for_header. rewrite replace_first_head by done.
  apply starts_with_spec in Hh as [r ->]. rewrite drop_app_length. done.
Qed.

Lemma on_dom_content_loaded_spec headers links :
  Forall (fun h => starts_with (lit "page-") h = true) headers ->
  let links' := on_dom_content_loaded headers links in
  links `prefix_of` links' /\ (NoDup links -> NoDup links')
  /\ Forall (fun h => (lit "#" ++ h) ∈ links') headers.
Proof.
  unfold on_dom_content_loaded.
  revert links; induction headers as [|h hs IH]; intros links Hhs; cbn [fold_left].
  { split_and!; [done | done | constructor]. }
  apply Forall_cons in Hhs as [Hh Hhs]. rewrite link_for_header_href by done.
  set (l1 := if bool_decide _ then _ else _).
  assert (Hpre : links `prefix_of` l1 /\ (NoDup links -> NoDup l1) /\ (lit "#" ++ h) ∈ l1).
  { subst l1. case_bool_decide as Hin; [done|]. split_and!.
    - by exists [lit "#" ++ h].
    - intros Hd. apply NoDup_app. split_and!; [done| |apply NoDup_singleton].
      intros x Hx ->%list_elem_of_singleton. done.
    - apply elem_of_app. right. by apply list_elem_of_singleton. }
  destruct Hpre as (Hp1 & Hd1 & Hm1). destruct (IH l1 Hhs) as (Hp2 & Hd2 & Hm2).
  split_and!.
  - by etrans.
  - auto.
  - constructor; [|done]. destruct Hp2 as [k ->]. apply elem_of_app. by left.
Qed.

Lemma clicks_ok v cs : viewer_ok v -> viewer_ok (clicks v cs).
Proof.
  revert v; induction cs as [|c cs IH]; intros v Hv; [done|]. cbn. apply IH, step_ok, Hv.
Qed.

(** ** Theorems *)

(** C24: Whatever buttons of the accessibility controls are clicked, in any
    order and any number of times, dark mode and high contrast are never
    on together, [currentFontSize] stays a double of [[12, 32]] and
    [currentLineHeight] one of [[1.2, 2.5]] (as doubles: the literals
    rounded by the parser, the products rounded to nearest). *)
Theorem controls_bounded cs :
  let v := clicks init_viewer cs in
  negb (dark_mode v && high_contrast v) = true
  /\ dle d_12 (current_font_size v) = true /\ dle (current_font_size v) d_32 = true
  /\ dle d_1_2 (current_line_height v) = true /\ dle (current_line_height v) d_2_5 = true.
Proof.
  intros v.
  assert (H0 : viewer_ok init_viewer) by (unfold viewer_ok, normal; cbn; repeat split; lia).
  destruct (clicks_ok _ cs H0) as (? & _ & ? & ? & _ & ? & ?). by split_and!.
Qed.

(** C25: After [DOMContentLoaded], every page header of the document (an
    [id] of the form [page-N], as the renderer writes them) has a link
    [#page-N] in the index; the links present before are kept in order,
    and no link is added twice. *)
Theorem index_links_complete headers links :
  NoDup links ->
  Forall (fun h => starts_with (lit "page-") h = true) headers ->
  let links' := on_dom_content_loaded headers links in
  links `prefix_of` links' /\ NoDup links'
  /\ Forall (fun h => (lit "#" ++ h) ∈ links') headers.
Proof.
  intros Hd Hhs. destruct (on_dom_content_loaded_spec headers links Hhs) as (? & ? & ?).
  split_and!; auto.
Qed.

Lemma index_links_complete_witness :
  (NoDup [lit "#page-1"] /\
   Forall (fun h => starts_with (lit "page-") h = true) [lit "page-1"; lit "page-3"]) /\
  let links' := on_dom_content_loaded [lit "page-1"; lit "page-3"] [lit "#page-1"] in
  [lit "#page-1"] `prefix_of` links' /\ NoDup links'
  /\ Forall (fun h => (lit "#" ++ h) ∈ links') [lit "page-1"; lit "page-3"].
Proof.
  assert (Hd : NoDup [lit "#page-1"]) by apply NoDup_singleton.
  assert (Hh : Forall (fun h => starts_with (lit "page-") h = true) [lit "page-1"; lit "page-3"])
    by (repeat constructor).
  split; [split; [exact Hd | exact Hh]|]. exact (index_links_complete _ _ Hd Hh).
Defined.

End Viewer.
