(* ===== verification/Merger.v ===== *)
(** * Content Merger: [GeminiOCR._extract_existing_content] (src/main.py,
    lines 171-190).

    [re.findall] of the pattern
    [<div class=~page-content~ data-page=~(\d+)~>(.*?)<div class=~page-footer~>]
    (with [re.DOTALL]) is modelled by [findall]: at each position [match_at]
    tries the pattern (the digit group is greedy and must be followed by the
    closing quote, the body is the shortest text followed by the footer
    marker); after a match the search resumes at its end, otherwise one
    character further.  [findall_go] carries fuel, one unit per step;
    the length of the text is enough ([findall_go_fuel]).  Each match
    [(digits, body)] is stored under [int(digits) - 1] with the footer
    marker appended, a later match overwriting an earlier one, as the dict
    assignment does.

    Theorems: the extraction of a saved document gives back the fragments
    of its pages; the extraction of a single rendered fragment, which is
    neither the fragment nor the cleaned text.  The scan ends within the
    length of the text ([findall_scan_terminates], the fuel bound). *)

From Stdlib Require Import ZArith String Lia.
From stdpp Require Import base list gmap.
From S2P Require Import Prelude Progress Render.

Open Scope Z_scope.

Module Merger.
Import Render.

(** [(\d+)]: the longest prefix of digits and what follows it. *)
Fixpoint span_digits (s : pystr) : pystr * pystr :=
  match s with
  | c :: t =>
      if is_digit c then let '(d, r) := span_digits t in (c :: d, r) else ([], s)
  | [] => ([], [])
  end.

(** [(.*?)pat]: the shortest text followed by [pat], and what follows [pat]. *)
Fixpoint lazy_until (pat s : pystr) : option (pystr * pystr) :=
  if starts_with pat s then Some ([], drop (List.length pat) s)
  else
    match s with
    | [] => None
    | c :: t =>
        match lazy_until pat t with
        | Some (b, r) => Some (c :: b, r)
        | None => None
        end
    end.

(** One attempt of the pattern at the head of [s]: the digit group, the
    body group and the text after the match. *)
Definition match_at (s : pystr) : option (pystr * pystr * pystr) :=
  if starts_with content_open s then
    let '(ds, r1) := span_digits (drop (List.length content_open) s) in
    match ds with
    | [] => None
    | _ :: _ =>
        if starts_with (lit "~>") r1 then
          match lazy_until footer_marker (drop 2 r1) with
          | Some (body, rest) => Some (ds, body, rest)
          | None => None
          end
        else None
    end
  else None.

(** The scan of [re.findall]. *)
Fixpoint findall_go (fuel : nat) (s : pystr) : list (pystr * pystr) :=
  match fuel with
  | O => []
  | S f =>
      match s with
      | [] => []
      | _ :: t =>
          match match_at s with
          | Some (ds, body, rest) => (ds, body) :: findall_go f rest
          | None => findall_go f t
          end
      end
  end.

Definition findall (s : pystr) : list (pystr * pystr) := findall_go (List.length s) s.

(** [content_dict[int(match[0]) - 1] = match[1] + footer] for each match. *)
Definition extract_existing_content_of (matches : list (pystr * pystr)) : gmap Z pystr :=
  foldl (fun m '(ds, body) => <[int_of_digits ds - 1 := body ++ footer_marker]> m)
    ∅ matches.

Definition extract_existing_content (html_content : pystr) : gmap Z pystr :=
  extract_existing_content_of (findall html_content).

(** ** What the extraction returns for the text the renderer writes *)

(** The text before the [data-page] marker in a page fragment. *)
Definition fragment_lead (page_num total_pages : Z) : pystr :=
  [c_nl] ++ spaces 8 ++ header_open ++ str_of_Z page_num ++ lit "~>Página "
    ++ str_of_Z page_num ++ lit " de " ++ str_of_Z total_pages ++ lit "</div>"
  ++ [c_nl] ++ spaces 8.

(** The body group matched in a page fragment. *)
Definition fragment_body (cleaned : pystr) : pystr :=
  [c_nl] ++ spaces 12 ++ cleaned ++ [c_nl] ++ spaces 8 ++ lit "</div>"
  ++ [c_nl] ++ spaces 8.

(** The text after the footer marker in a page fragment. *)
Definition fragment_trail : pystr := lit "</div>" ++ [c_nl] ++ spaces 8.

(** What [_extract_existing_content] stores for a page: the body group
    with the footer marker appended. *)
Definition recovered_fragment (cleaned : pystr) : pystr :=
  fragment_body cleaned ++ footer_marker.

(** The content a run accumulates and saves: the fragments of its pages,
    [(cleaned text, 1-based page number)], in order. *)
Definition render_pages (pages : list (pystr * Z)) (total_pages : Z) : pystr :=
  concat (map (fun '(c, n) => page_fragment c n total_pages) pages).

(** ** Lemmas *)

Lemma span_digits_length s : (List.length (span_digits s).2 <= List.length s)%nat.
Proof.
  induction s as [|c t IH]; simpl; [done|].
  destruct (is_digit c); [destruct (span_digits t); simpl in *; lia | simpl; lia].
Qed.

Lemma lazy_until_length pat s b r :
  lazy_until pat s = Some (b, r) -> (List.length r <= List.length s)%nat.
Proof.
  revert b; induction s as [|c t IH]; intros b H; cbn [lazy_until] in H.
  - destruct (starts_with pat []); [|done]. injection H as _ <-. rewrite length_drop. simpl. lia.
  - destruct (starts_with pat (c :: t)).
    + injection H as _ <-. rewrite length_drop. lia.
    + destruct (lazy_until pat t) as [[b' r']|] eqn:E; [|done].
      injection H as _ <-. specialize (IH _ eq_refl). simpl. lia.
Qed.

Lemma match_at_length s ds body rest :
  match_at s = Some (ds, body, rest) -> (List.length rest < List.length s)%nat.
Proof.
  unfold match_at. destruct (starts_with content_open s) eqn:Hs; [|done].
  apply starts_with_spec in Hs as [x ->]. rewrite drop_app_length.
  pose proof (span_digits_length x) as Hsp.
  destruct (span_digits x) as [ds' r1]. simpl in Hsp.
  destruct ds'; [done|]. destruct (starts_with (lit "~>") r1); [|done].
  destruct (lazy_until footer_marker (drop 2 r1)) as [[b r]|] eqn:E; [|done].
  intros [= <- <- <-]. apply lazy_until_length in E.
  rewrite length_drop in E. rewrite length_app.
  assert (List.length content_open = 37%nat) as -> by reflexivity. lia.
Qed.

(** Fuel: any amount at least the length of the text gives the same
    matches, so [findall] (fuel = length) is the full scan. *)
Lemma findall_go_fuel f1 f2 s :
  (List.length s <= f1)%nat -> (List.length s <= f2)%nat ->
  findall_go f1 s = findall_go f2 s.
Proof.
  revert f2 s; induction f1 as [|f1 IH]; intros f2 s H1 H2.
  - destruct s; [|simpl in H1; lia]. by destruct f2.
  - destruct s as [|c t]; [by destruct f2|]. destruct f2 as [|f2]; [simpl in H2; lia|].
    cbn [findall_go]. destruct (match_at (c :: t)) as [[[ds body] rest]|] eqn:E.
    + apply match_at_length in E. f_equal. apply IH; lia.
    + simpl in *. apply IH; lia.
Qed.

Lemma match_at_disagree q y :
  disagree q content_open = true -> match_at (q ++ y) = None.
Proof. intros H. unfold match_at. by rewrite disagree_starts_with. Qed.

(** Text where no match can start is skipped. *)
Lemma findall_clear p y :
  clear_of content_open p = true -> findall (p ++ y) = findall y.
Proof.
  unfold findall. rewrite length_app. generalize (List.length y) as f.
  induction p as [|c p IH]; intros f Hp; [done|].
  cbn [clear_of] in Hp. apply andb_prop in Hp as [Hd Hp].
  pose proof (match_at_disagree (c :: p) y Hd) as Hm. cbn [app] in Hm |- *.
  cbn [List.length Nat.add findall_go]. rewrite Hm. by apply IH.
Qed.

Lemma findall_nil : findall [] = [].
Proof. reflexivity. Qed.

Lemma span_digits_app ds y :
  Forall (fun c => is_digit c = true) ds ->
  match y with [] => True | c :: _ => is_digit c = false end ->
  span_digits (ds ++ y) = (ds, y).
Proof.
  induction ds as [|d ds IH]; intros Hds Hy.
  - destruct y as [|c y]; simpl; [done|]. by rewrite Hy.
  - apply Forall_cons in Hds as [Hd Hds]. simpl. rewrite Hd, IH by done. done.
Qed.

Lemma lazy_until_here pat s :
  starts_with pat s = true -> lazy_until pat s = Some ([], drop (List.length pat) s).
Proof. destruct s; cbn [lazy_until]; intros ->; done. Qed.

Lemma lazy_until_cons pat c t :
  starts_with pat (c :: t) = false ->
  lazy_until pat (c :: t)
  = match lazy_until pat t with Some (b, r) => Some (c :: b, r) | None => None end.
Proof. cbn [lazy_until]. by intros ->. Qed.

Lemma lazy_until_clear pat body rest :
  clear_of pat body = true -> lazy_until pat (body ++ pat ++ rest) = Some (body, rest).
Proof.
  induction body as [|c body IH]; intros Hb.
  - cbn [app]. rewrite lazy_until_here by apply starts_with_app. by rewrite drop_app_length.
  - cbn [clear_of] in Hb. apply andb_prop in Hb as [Hd Hb].
    pose proof (disagree_starts_with (c :: body) pat (pat ++ rest) Hd) as Hs.
    cbn [app] in Hs |- *. rewrite lazy_until_cons, IH by done. done.
Qed.

Lemma str_of_Z_clear pat a n :
  a <> 45 -> ~ (48 <= a < 58) -> clear_of (a :: pat) (str_of_Z n) = true.
Proof. intros. by apply clear_of_head, str_of_Z_no_char. Qed.

Lemma content_open_cons : content_open = 60 :: drop 1 content_open.
Proof. reflexivity. Qed.

Lemma footer_marker_cons : footer_marker = 60 :: drop 1 footer_marker.
Proof. reflexivity. Qed.

Lemma fragment_lead_clear n t : clear_of content_open (fragment_lead n t) = true.
Proof.
  rewrite content_open_cons. unfold fragment_lead.
  repeat apply clear_of_app; try (apply str_of_Z_clear; lia); vm_compute; reflexivity.
Qed.

Lemma fragment_body_clear c :
  occurs footer_marker c = false -> clear_of footer_marker (fragment_body c) = true.
Proof.
  intros Hc. unfold fragment_body.
  rewrite (app_assoc c). apply clear_of_app; [vm_compute; reflexivity|].
  rewrite app_assoc. apply clear_of_app; [apply clear_of_occurs; [done|vm_compute; intuition discriminate]|].
  vm_compute. reflexivity.
Qed.

Lemma page_fragment_split c n t :
  page_fragment c n t
  = fragment_lead n t ++ content_open ++ str_of_Z n ++ lit "~>" ++ fragment_body c
      ++ footer_marker ++ fragment_trail.
Proof.
  unfold page_fragment, fragment_lead, fragment_body, fragment_trail.
  rewrite <- !app_assoc. reflexivity.
Qed.

(** A rendered page fragment followed by any text: one match, for the
    page number, then the matches of the text. *)
Lemma findall_go_S_cons f c t :
  findall_go (S f) (c :: t)
  = match match_at (c :: t) with
    | Some (ds, body, rest) => (ds, body) :: findall_go f rest
    | None => findall_go f t
    end.
Proof. reflexivity. Qed.

Lemma match_at_fragment n c y :
  0 <= n -> occurs footer_marker c = false ->
  match_at (content_open ++ str_of_Z n ++ lit "~>" ++ fragment_body c ++ footer_marker
              ++ fragment_trail ++ y)
  = Some (str_of_Z n, fragment_body c, fragment_trail ++ y).
Proof.
  intros Hn Hc. destruct (str_of_Z_digits n Hn) as [Hdig Hne].
  unfold match_at. rewrite starts_with_app, drop_app_length.
  rewrite span_digits_app.
  - destruct (str_of_Z n) as [|d ds]; [done|]. rewrite starts_with_app.
    rewrite (drop_app_length (lit "~>")).
    rewrite lazy_until_clear by (by apply fragment_body_clear). done.
  - eapply Forall_impl; [exact Hdig|]. intros ? (d & Hd & ->). by apply is_digit_ascii.
  - reflexivity.
Qed.

(** A rendered page fragment followed by any text: one match, for the
    page number, then the matches of the text. *)
Lemma findall_page_fragment c n t y :
  0 <= n -> occurs footer_marker c = false ->
  findall (page_fragment c n t ++ y) = (str_of_Z n, fragment_body c) :: findall y.
Proof.
  intros Hn Hc. rewrite page_fragment_split, <- !app_assoc.
  rewrite findall_clear by apply fragment_lead_clear.
  pose proof (match_at_fragment n c y Hn Hc) as Hm.
  unfold findall. rewrite content_open_cons, <- app_comm_cons in Hm |- *.
  rewrite length_cons, findall_go_S_cons, Hm. f_equal.
  transitivity (findall (fragment_trail ++ y)).
  - apply findall_go_fuel; [|done]. rewrite !length_app. lia.
  - apply findall_clear. vm_compute. reflexivity.
Qed.

Lemma recovered_fragment_clear c :
  occurs content_open c = false -> clear_of content_open (recovered_fragment c) = true.
Proof.
  intros Hc. unfold recovered_fragment, fragment_body. rewrite <- !app_assoc.
  rewrite (app_assoc c). apply clear_of_app; [vm_compute; reflexivity|].
  rewrite app_assoc. apply clear_of_app.
  - apply clear_of_occurs; [done | vm_compute; intuition discriminate].
  - vm_compute. reflexivity.
Qed.

(** A recovered fragment followed by any text: no match in it. *)
Lemma findall_recovered_fragment c y :
  occurs content_open c = false ->
  findall (recovered_fragment c ++ y) = findall y.
Proof. intros Hc. by apply findall_clear, recovered_fragment_clear. Qed.

Lemma extract_existing_content_matches ds body :
  extract_existing_content_of [(ds, body)] = {[int_of_digits ds - 1 := body ++ footer_marker]}.
Proof. reflexivity. Qed.

(** The fragments of a run, followed by any text: one match per page, in
    order. *)
Lemma findall_render_pages ps t y :
  Forall (fun '(c, n) => 0 <= n /\ occurs footer_marker c = false) ps ->
  findall (render_pages ps t ++ y)
  = map (fun '(c, n) => (str_of_Z n, fragment_body c)) ps ++ findall y.
Proof.
  induction ps as [|[c n] ps IH]; intros Hps; [done|].
  apply Forall_cons in Hps as [[Hn Hc] Hps]. unfold render_pages in *.
  cbn [map concat]. rewrite <- app_assoc, findall_page_fragment by done.
  cbn [map app]. by rewrite IH.
Qed.

Lemma extract_existing_content_of_render (m : gmap Z pystr) ps :
  Forall (fun '(c, n) => 0 <= n /\ occurs footer_marker c = false) ps ->
  foldl (fun (m : gmap Z pystr) '(ds, body) => <[int_of_digits ds - 1 := body ++ footer_marker]> m) m
    (map (fun '(c, n) => (str_of_Z n, fragment_body c)) ps)
  = foldl (fun (m : gmap Z pystr) '(c, n) => <[n - 1 := recovered_fragment c]> m) m ps.
Proof.
  revert m. induction ps as [|[c n] ps IH]; intros m Hps; [done|].
  apply Forall_cons in Hps as [[Hn _] Hps]. cbn [map foldl].
  rewrite int_of_digits_str_of_Z by done. by apply IH.
Qed.

(** Nothing the document template prints around the content can start a
    match: no [<] occurs in numbers, and the template text is fixed. *)
Lemma str_of_Z_clear_open n : clear_of content_open (str_of_Z n) = true.
Proof. rewrite content_open_cons. apply str_of_Z_clear; lia. Qed.

Lemma pct_repr_clear_open k : clear_of content_open (Progress.pct_repr k) = true.
Proof.
  unfold Progress.pct_repr. apply clear_of_app; [apply str_of_Z_clear_open|].
  rewrite content_open_cons. apply clear_of_head.
  pose proof (Z.mod_pos_bound k 100 ltac:(lia)).
  pose proof (Z.mod_pos_bound (k mod 100) 10 ltac:(lia)).
  assert (0 <= k mod 100 / 10 < 10) by (split; [apply Z.div_pos | apply Z.div_lt_upper_bound]; lia).
  unfold digit_char, c_dot. case_match; repeat constructor; lia.
Qed.

Lemma index_links_clear_open pp : clear_of content_open (generate_index_links pp) = true.
Proof.
  unfold generate_index_links. induction (Progress.sorted_pages pp) as [|p ps IH]; [done|].
  cbn [map concat]. apply clear_of_app; [|done]. unfold index_link.
  repeat apply clear_of_app; try apply str_of_Z_clear_open; vm_compute; reflexivity.
Qed.

Lemma html_document_split pp t c :
  t <> 0 ->
  exists pre, clear_of content_open pre = true
    /\ html_document pp t c = Ok (pre ++ c ++ html_tail).
Proof.
  intros Ht. unfold html_document, Progress.percentage.
  destruct (Z.eqb_spec t 0) as [|_]; [done|].
  exists (html_head ++ Progress.pct_repr (Progress.round2_div (Z.of_nat (List.length pp) * 100) t)
          ++ html_banner_mid ++ str_of_Z (Z.of_nat (List.length pp)) ++ html_banner_sep ++ str_of_Z t
          ++ html_banner_pct ++ Progress.pct_repr (Progress.round2_div (Z.of_nat (List.length pp) * 100) t)
          ++ html_index_open ++ generate_index_links pp
          ++ html_main_open).
  split; [|rewrite <- !app_assoc; reflexivity].
  repeat match goal with |- clear_of _ (_ ++ _) = true => apply clear_of_app end;
    match goal with
    | |- clear_of _ (str_of_Z _) = true => apply str_of_Z_clear_open
    | |- clear_of _ (Progress.pct_repr _) = true => apply pct_repr_clear_open
    | |- clear_of _ (generate_index_links _) = true => apply index_links_clear_open
    | |- _ => vm_compute; reflexivity
    end.
Qed.

(** What the extraction gives back from a document whose content is the
    fragments of a run. *)
Lemma extract_html_document pp t ps doc :
  Forall (fun '(c, n) => 0 <= n /\ occurs footer_marker c = false) ps ->
  html_document pp t (render_pages ps t) = Ok doc ->
  extract_existing_content doc
  = foldl (fun (m : gmap Z pystr) '(c, n) => <[n - 1 := recovered_fragment c]> m) ∅ ps.
Proof.
  intros Hps Hd. destruct (decide (t = 0)) as [->|Ht].
  { unfold html_document, Progress.percentage in Hd. done. }
  destruct (html_document_split pp t (render_pages ps t) Ht) as (pre & Hpre & Hd').
  rewrite Hd' in Hd. injection Hd as <-. unfold extract_existing_content.
  rewrite findall_clear, findall_render_pages by done.
  assert (findall html_tail = []) as -> by (vm_compute; reflexivity).
  rewrite app_nil_r. by apply extract_existing_content_of_render.
Qed.

(** ** Theorems *)

(** The scan of [re.findall] ends within as many steps as the text has
    characters: any fuel at least that large gives [findall]. *)
Lemma findall_scan_terminates s f :
  (List.length s <= f)%nat -> findall_go f s = findall s.
Proof. intros Hf. unfold findall. by apply findall_go_fuel. Qed.

(** C13: Round trip of the renderer and the merger: extracting the text
    written for page [n] (1-based) gives one entry, under the 0-based
    index [n - 1]; its value is the body of the [page-content] block with
    the footer marker appended, which is neither the cleaned text (the
    spec says the round trip recovers it) nor the fragment (the header and
    the [data-page] opening tag are gone). *)
Theorem extract_page_fragment c n t :
  0 <= n -> occurs footer_marker c = false ->
  extract_existing_content (page_fragment c n t) = {[n - 1 := recovered_fragment c]}.
Proof.
  intros Hn Hc. unfold extract_existing_content.
  rewrite <- (app_nil_r (page_fragment c n t)), findall_page_fragment by done.
  rewrite findall_nil, extract_existing_content_matches, int_of_digits_str_of_Z by done.
  reflexivity.
Qed.

Lemma extract_page_fragment_witness :
  (0 <= 3 /\ occurs footer_marker (lit "x = 1") = false) /\
  extract_existing_content (page_fragment (lit "x = 1") 3 5)
  = {[2 := recovered_fragment (lit "x = 1")]}.
Proof.
  split; [split; [lia | vm_compute; reflexivity]|].
  apply (extract_page_fragment (lit "x = 1") 3 5); [lia | vm_compute; reflexivity].
Defined.

(** C12: Round trip of a saved output file: the document [_save_html_file]
    writes for a run whose content is the fragments of its pages (with a
    non-zero page count) is produced, and extracting it gives, for each
    page [n], the recovered fragment under [n - 1], a later page of the
    same number overwriting an earlier one: the template around the
    content never starts a match. *)
Theorem extract_saved_document pp t ps :
  t <> 0 ->
  Forall (fun '(c, n) => 0 <= n /\ occurs footer_marker c = false) ps ->
  exists doc, html_document pp t (render_pages ps t) = Ok doc
    /\ extract_existing_content doc
       = foldl (fun (m : gmap Z pystr) '(c, n) => <[n - 1 := recovered_fragment c]> m) ∅ ps.
Proof.
  intros Ht Hps. destruct (html_document_split pp t (render_pages ps t) Ht) as (pre & _ & Hd).
  eexists. split; [exact Hd|]. by apply (extract_html_document pp t).
Qed.

Lemma extract_saved_document_witness :
  (2 <> 0 /\ Forall (fun '(c, n) => 0 <= n /\ occurs footer_marker c = false)
                    [(lit "a", 1); (lit "b", 2)]) /\
  exists doc, html_document [0; 1] 2 (render_pages [(lit "a", 1); (lit "b", 2)] 2) = Ok doc
    /\ extract_existing_content doc
       = {[0 := recovered_fragment (lit "a"); 1 := recovered_fragment (lit "b")]}.
Proof.
  assert (Hf : Forall (fun '(c, n) => 0 <= n /\ occurs footer_marker c = false)
                 [(lit "a", 1); (lit "b", 2)])
    by (repeat constructor; (lia || vm_compute; reflexivity)).
  split; [split; [lia | exact Hf]|].
  destruct (extract_saved_document [0; 1] 2 _ ltac:(lia) Hf) as (doc & Hd & He).
  exists doc. split; [exact Hd|]. rewrite He. vm_compute. reflexivity.
Defined.

End Merger.
