(* ===== verification/Paths.v ===== *)
(** * Output file names: the path computations of [process_document]
    (src/main.py, lines 28-30), [_process_pdf] (lines 54-57) and
    [_process_technical] (line 629), with [os.path] as POSIX [posixpath]
    defines it.

    Theorems: the transcript and the progress file of a document are two
    different files, and neither is the input document. *)

From Stdlib Require Import ZArith String Lia.
From stdpp Require Import base list.
From S2P Require Import Prelude.

Open Scope Z_scope.

Module Paths.

(** Index of the last occurrence of [c] in [s], as [str.rfind]. *)
Fixpoint rfind_go (c : pychar) (i : Z) (s : pystr) (acc : Z) : Z :=
  match s with
  | [] => acc
  | x :: t => rfind_go c (i + 1) t (if x =? c then i else acc)
  end.
Definition rfind (c : pychar) (s : pystr) : Z := rfind_go c 0 s (-1).

(** [s[:i]] and [s[i:]] for [0 <= i]. *)
Definition slice_to (s : pystr) (i : Z) : pystr := take (Z.to_nat i) s.
Definition slice_from (s : pystr) (i : Z) : pystr := drop (Z.to_nat i) s.

Fixpoint lstrip_slash (s : pystr) : pystr :=
  match s with
  | c :: t => if c =? c_slash then lstrip_slash t else s
  | [] => []
  end.

(** [s.rstrip('/')] *)
Definition rstrip_slash (s : pystr) : pystr := rev (lstrip_slash (rev s)).

(** [posixpath.dirname] *)
Definition dirname (p : pystr) : pystr :=
  let i := rfind c_slash p + 1 in
  let head := slice_to p i in
  if negb (bool_decide (head = [])) && negb (forallb (fun c => c =? c_slash) head)
  then rstrip_slash head else head.

(** [posixpath.basename] *)
Definition basename (p : pystr) : pystr := slice_from p (rfind c_slash p + 1).

(** [posixpath.join(a, b)] *)
Definition path_join (a b : pystr) : pystr :=
  if starts_with [c_slash] b then b
  else if bool_decide (a = []) || bool_decide (last a = Some c_slash) then a ++ b
  else a ++ [c_slash] ++ b.

(** [s.rsplit('.', 1)[0]] *)
Definition rsplit_dot_head (s : pystr) : pystr :=
  let i := rfind c_dot s in
  if i <? 0 then s else slice_to s i.

(** [s.split('.')[-1]] *)
Definition split_dot_last (s : pystr) : pystr :=
  let i := rfind c_dot s in
  if i <? 0 then s else slice_from s (i + 1).

(** ASCII lowering; for the comparison with [pdf] it agrees with
    [str.lower], since no other character lowers to [p], [d] or [f]. *)
Definition lower_ascii (c : pychar) : pychar :=
  if (65 <=? c) && (c <=? 90) then c + 32 else c.

(** [file_path.lower().split('.')[-1] == 'pdf'] *)
Definition is_pdf_path (file_path : pystr) : bool :=
  bool_decide (map lower_ascii (split_dot_last file_path) = lit "pdf").

(** [output_dir] and [file_base] of [process_document]. *)
Definition output_dir (file_path : pystr) : pystr := dirname file_path.
Definition file_base (file_path : pystr) : pystr := rsplit_dot_head (basename file_path).

(** The two files of [_process_pdf]. *)
Definition output_html_path (out_dir base : pystr) : pystr :=
  path_join out_dir (base ++ lit "_processado.html").
Definition progress_file_path (out_dir base : pystr) : pystr :=
  path_join out_dir (base ++ lit "_progresso.json").

(** The file of [_process_technical]. *)
Definition technical_output_path (image_path : pystr) : pystr :=
  rsplit_dot_head image_path ++ lit "_tecnico.html".

(** ** Lemmas *)

Lemma rfind_go_spec c s : forall i acc,
  rfind_go c i s acc = acc
  \/ exists j, rfind_go c i s acc = i + j /\ 0 <= j /\ s !! Z.to_nat j = Some c.
Proof.
  induction s as [|x t IH]; intros i acc; simpl; [auto|].
  destruct (IH (i + 1) (if x =? c then i else acc)) as [-> | (j & -> & Hj & Hl)].
  - destruct (Z.eqb_spec x c) as [->|]; [right; exists 0; split; [lia|done] | auto].
  - right. exists (j + 1). split; [lia|]. split; [lia|].
    rewrite Z2Nat.inj_add, Nat.add_1_r by lia. done.
Qed.

(** [s.rfind(c)] is -1 or the index of an occurrence of [c]. *)
Lemma rfind_spec c s :
  rfind c s = -1 \/ (0 <= rfind c s /\ s !! Z.to_nat (rfind c s) = Some c).
Proof.
  unfold rfind. destruct (rfind_go_spec c s 0 (-1)) as [-> | (j & -> & Hj & Hl)]; [auto|].
  right. split; [lia | done].
Qed.

(** [s.rsplit('.', 1)[0]] is [s] itself, or [s] is it followed by a dot. *)
Lemma rsplit_dot_head_spec s :
  rsplit_dot_head s = s \/ exists rest, s = rsplit_dot_head s ++ c_dot :: rest.
Proof.
  unfold rsplit_dot_head. destruct (rfind_spec c_dot s) as [-> | [Hi Hl]]; [auto|].
  destruct (Z.ltb_spec (rfind c_dot s) 0); [lia|]. right.
  exists (drop (S (Z.to_nat (rfind c_dot s))) s). unfold slice_to.
  by rewrite take_drop_middle.
Qed.

Lemma last_path_join a b : b <> [] -> last (path_join a b) = last b.
Proof.
  intros Hb. unfold path_join.
  destruct (starts_with [c_slash] b); [done|].
  destruct (bool_decide (a = []) || bool_decide (last a = Some c_slash)).
  - rewrite last_app. destruct (last b) eqn:E; [done|]. by apply last_None in E.
  - rewrite app_assoc, last_app. destruct (last b) eqn:E; [done|]. by apply last_None in E.
Qed.

Lemma last_drop {A} (l : list A) k : drop k l <> [] -> last (drop k l) = last l.
Proof.
  revert k; induction l as [|x l IH]; intros [|k] H; simpl in *; try done.
  rewrite IH by done. destruct l; simpl in *; [by rewrite drop_nil in H|done].
Qed.

(** A path recognised as a PDF ends with f or F. *)
Lemma is_pdf_path_last p : is_pdf_path p = true -> last p = Some 102 \/ last p = Some 70.
Proof.
  unfold is_pdf_path. rewrite bool_decide_eq_true. intros Hm.
  assert (split_dot_last p <> []) as Hne by (intros E; rewrite E in Hm; discriminate).
  assert (last (split_dot_last p) = last p) as <-.
  { revert Hne. unfold split_dot_last. destruct (rfind c_dot p <? 0); [done|].
    unfold slice_from. apply last_drop. }
  destruct (split_dot_last p) as [|x1 [|x2 [|x3 [|x4 t]]]]; try discriminate.
  injection Hm as H1 H2 H3. unfold lower_ascii in H3. simpl.
  destruct ((65 <=? x3) && (x3 <=? 90)); [right|left]; f_equal; lia.
Qed.

Lemma last_path_join_suffix d b x : x <> [] -> last (path_join d (b ++ x)) = last x.
Proof.
  intros Hx. rewrite last_path_join, last_app.
  - destruct (last x) eqn:E; [done|]. by apply last_None in E.
  - intros E. apply app_eq_nil in E as [_ E]. contradiction.
Qed.

Lemma last_output_html_path d b : last (output_html_path d b) = Some 108.
Proof. unfold output_html_path. by rewrite last_path_join_suffix. Qed.

Lemma last_progress_file_path d b : last (progress_file_path d b) = Some 110.
Proof. unfold progress_file_path. by rewrite last_path_join_suffix. Qed.

(** The output and the progress file of a document are different files,
    whatever the directory and the base name. *)
Lemma output_paths_distinct d b : output_html_path d b <> progress_file_path d b.
Proof.
  intros Heq. pose proof (last_output_html_path d b) as H1.
  rewrite Heq, last_progress_file_path in H1. discriminate.
Qed.

(** The files [_process_pdf] writes are never the PDF it reads. *)
Lemma pdf_path_not_outputs file_path d b :
  is_pdf_path file_path = true ->
  file_path <> output_html_path d b /\ file_path <> progress_file_path d b.
Proof.
  intros Hpdf. pose proof (is_pdf_path_last file_path Hpdf) as Hl.
  pose proof (last_output_html_path d b). pose proof (last_progress_file_path d b).
  split; intros ->; destruct Hl; congruence.
Qed.

(** ** Theorems *)

(** C26: For a PDF input, [_process_pdf] writes two different files, and
    neither of them is the input document. *)
Theorem pdf_output_files_distinct file_path :
  is_pdf_path file_path = true ->
  let d := output_dir file_path in
  let b := file_base file_path in
  output_html_path d b <> progress_file_path d b
  /\ output_html_path d b <> file_path /\ progress_file_path d b <> file_path.
Proof.
  intros Hpdf d b. destruct (pdf_path_not_outputs file_path d b Hpdf).
  split; [apply output_paths_distinct|]. auto.
Qed.

Lemma pdf_output_files_distinct_witness :
  is_pdf_path (lit "/tmp/aula.PDF") = true /\
  let d := output_dir (lit "/tmp/aula.PDF") in
  let b := file_base (lit "/tmp/aula.PDF") in
  output_html_path d b <> progress_file_path d b
  /\ output_html_path d b <> lit "/tmp/aula.PDF" /\ progress_file_path d b <> lit "/tmp/aula.PDF".
Proof.
  split; [vm_compute; reflexivity|]. apply pdf_output_files_distinct. vm_compute. reflexivity.
Defined.

(** C27: The transcript of an image never overwrites the image: the name
    written by [_process_technical] differs from the input path. *)
Theorem technical_output_differs image_path : technical_output_path image_path <> image_path.
Proof.
  unfold technical_output_path. intros Heq.
  destruct (rsplit_dot_head_spec image_path) as [Hs | [rest Hs]].
  - rewrite Hs in Heq. apply (f_equal List.length) in Heq.
    rewrite length_app in Heq. simpl in Heq. lia.
  - rewrite Hs in Heq at 2. apply app_inv_head in Heq. discriminate.
Qed.

End Paths.
