(* ===== verification/Pipeline.v ===== *)
(** * Document Pipeline: [GeminiOCR] (src/main.py): the object state
    of [__init__] (lines 8-21), [_process_page_content] (lines 540-580),
    [_update_progress_file] and [_save_html_file] as file writes (lines
    192-204 and 206-528), [_process_pdf] (lines 41-169),
    [_process_technical] (lines 626-635) and [process_document] (lines
    23-39).

    The file system is a [gmap] from paths to files; the recognition
    service is the interface [Recognizer], a function from the prompt and a
    page image to a response or an exception.  A run records the trace of
    its recognition calls and file writes, in order.  The loop of
    [_process_pdf] is [pdf_loop] over [range(current_page, total_pages)];
    each page either reuses the fragment of the existing output or calls
    the service, then rewrites the progress file and the whole output
    file; an exception stops the loop and the [except] branch saves the
    content accumulated so far. *)

From Stdlib Require Import ZArith String Lia Sorted.
From stdpp Require Import base list gmap.
From S2P Require Import Prelude Normalizer Progress Render Merger Paths.

Open Scope Z_scope.

Module Pipeline.
Import Normalizer Render Merger Paths.

(** ** Files *)

(** What a path of the file system holds: text (the HTML outputs), the
    JSON object of a progress file, a PDF with its page count, an image. *)
Inductive file :=
  | TextFile (contents : pystr)
  | JsonFile (data : Progress.ProgressRecord)
  | PdfFile (pages : Z)
  | ImageFile.

Abbreviation fs := (gmap pystr file).

(** [json.load] of the progress file: the object written by
    [_update_progress_file], or [JSONDecodeError] for any other file. *)
Definition json_load (f : file) : result Progress.ProgressRecord :=
  match f with
  | JsonFile r => Ok r
  | _ => Raise JSONDecodeError
  end.

(** [f.read()] of the output HTML for [_extract_existing_content]; a file
    that is not text gives no page (the JSON, PDF or image bytes contain
    no [data-page] block). *)
Definition read_text (f : file) : pystr :=
  match f with TextFile s => s | _ => [] end.

(** ** The recognition service *)

(** The image sent with the prompt: a page of a PDF (rasterised at twice
    the resolution) or an image file. *)
Inductive image :=
  | PdfPage (pdf_path : pystr) (index : Z)
  | ImagePath (path : pystr).

(** [self.model.generate_content([prompt, image])], together with the
    rasterisation of the page: a response, or an exception. *)
Class Recognizer := generate_content : pystr -> image -> result response.

(** The prompt of [_process_page_content]. *)
Definition prompt : pystr := lit "
        Analise esta imagem e extraia:
        1. Texto completo preservando a formatação
        2. Equações matemáticas em LaTeX (use $$ para display mode, $ para inline)
        3. Mantenha a precisão técnica do conteúdo
        4. Preserve símbolos especiais e notações matemáticas
        
        IMPORTANTE para notação matemática:
        1. Use \arcsin (não extarcsen ou arcsen)
        2. Use \arccos (não extarccos ou arccos)
        3. Use \arctan (não extarctan ou arctan)
        4. Use \sin (não sen)
        5. Use \cos (não cos)
        6. Use \tan (não tan)
        7. Use \sqrt{} para raiz quadrada
        8. Use \frac{}{} para frações
        
        Para expressões matemáticas:
        - Use $ $ para equações inline
        - Use $$ $$ para equações em display mode
        - Preserve todos os parênteses e sinais
        - Mantenha a formatação precisa das funções trigonométricas
        
        Mantenha a estrutura do documento e a formatação original.
        ".

(** ** The object and a run *)

(** The attributes of a [GeminiOCR] object that the methods read and write. *)
Record GeminiOCR := {
  current_page : Z;
  total_pages : Z;
  processed_pages : list Z
}.

(** [__init__]: the progress attributes start at 0, 0 and []. *)
Definition init_ocr : GeminiOCR :=
  {| current_page := 0; total_pages := 0; processed_pages := [] |}.

Definition set_current_page (o : GeminiOCR) (p : Z) : GeminiOCR :=
  {| current_page := p; total_pages := total_pages o; processed_pages := processed_pages o |}.
Definition set_total_pages (o : GeminiOCR) (t : Z) : GeminiOCR :=
  {| current_page := current_page o; total_pages := t; processed_pages := processed_pages o |}.
Definition set_processed_pages (o : GeminiOCR) (l : list Z) : GeminiOCR :=
  {| current_page := current_page o; total_pages := total_pages o; processed_pages := l |}.

(** What a run does that can be observed from outside. *)
Inductive event :=
  | Recognize (img : image)
  | Write (path : pystr).

(** The state threaded through the loop of [_process_pdf]. *)
Record run_state := {
  obj : GeminiOCR;
  files : fs;
  all_content : pystr;
  last_processed : option Z;
  trace : list event
}.

Inductive step_result :=
  | Continue (st : run_state)
  | Fail (st : run_state) (e : py_exc).

(** The result of [_process_pdf]: its return value, the final object, file
    system and trace, and how it ended. *)
Inductive report :=
  | Completed
  (** the [except] of the loop: the page it stopped at and the [start_page]
      its message tells the user to resume with *)
  | Interrupted (page : Z) (resume_hint : Z) (e : py_exc)
  (** the outer [except] of [_process_pdf] or [process_document] *)
  | Aborted (e : py_exc).

Record outcome := {
  returned : option pystr;
  final_obj : GeminiOCR;
  final_files : fs;
  final_trace : list event;
  ended : report
}.

Section WithRecognizer.
Context `{Recognizer}.

(** [_process_page_content(image, page_num, total_pages)] *)
Definition process_page_content (img : image) (page_num total : Z) : result pystr :=
  match generate_content prompt img with
  | Raise e => Raise e
  | Ok resp =>
      match clean_text resp with
      | Raise e => Raise e
      | Ok cleaned => Ok (page_fragment cleaned page_num total)
      end
  end.

(** [_update_progress_file(progress_file, last_processed)] *)
Definition update_progress_file (o : GeminiOCR) (fsys : fs) (progress_file : pystr)
    (last : option Z) : result fs :=
  match Progress.progress_data (total_pages o) (processed_pages o) last with
  | Raise e => Raise e
  | Ok r => Ok (<[progress_file := JsonFile r]> fsys)
  end.

(** [_save_html_file(output_path, content)] *)
Definition save_html_file (o : GeminiOCR) (fsys : fs) (output_path content : pystr)
    : result fs :=
  match html_document (processed_pages o) (total_pages o) content with
  | Raise e => Raise e
  | Ok doc => Ok (<[output_path := TextFile doc]> fsys)
  end.

(** [page_num in self.processed_pages] *)
Definition in_pages (p : Z) (l : list Z) : bool := existsb (Z.eqb p) l.

(** One iteration of the loop of [_process_pdf] (lines 91-133). *)
Definition pdf_page (pdf_path output_html progress_file : pystr)
    (existing : gmap Z pystr) (page_num : Z) (st : run_state) : step_result :=
  let o := set_current_page (obj st) page_num in
  match in_pages page_num (processed_pages o), existing !! page_num with
  | true, Some frag =>
      Continue {| obj := o; files := files st; all_content := all_content st ++ frag;
                  last_processed := last_processed st; trace := trace st |}
  | _, _ =>
      let img := PdfPage pdf_path page_num in
      let tr := trace st ++ [Recognize img] in
      let failed e := Fail {| obj := o; files := files st; all_content := all_content st;
                              last_processed := last_processed st; trace := tr |} e in
      match process_page_content img (page_num + 1) (total_pages o) with
      | Raise e => failed e
      | Ok page_content =>
          let all := all_content st ++ page_content in
          let o' := if in_pages page_num (processed_pages o) then o
                    else set_processed_pages o (processed_pages o ++ [page_num]) in
          let st' := {| obj := o'; files := files st; all_content := all;
                        last_processed := Some page_num; trace := tr |} in
          match update_progress_file o' (files st) progress_file (Some page_num) with
          | Raise e => Fail st' e
          | Ok fs1 =>
              let st1 := {| obj := o'; files := fs1; all_content := all;
                            last_processed := Some page_num;
                            trace := tr ++ [Write progress_file] |} in
              match save_html_file o' fs1 output_html all with
              | Raise e => Fail st1 e
              | Ok fs2 =>
                  Continue {| obj := o'; files := fs2; all_content := all;
                              last_processed := Some page_num;
                              trace := tr ++ [Write progress_file; Write output_html] |}
              end
          end
      end
  end.

(** [for page_num in range(...)], stopping at the first exception. *)
Fixpoint pdf_loop (pdf_path output_html progress_file : pystr)
    (existing : gmap Z pystr) (pages : list Z) (st : run_state) : step_result :=
  match pages with
  | [] => Continue st
  | p :: ps =>
      match pdf_page pdf_path output_html progress_file existing p st with
      | Continue st' => pdf_loop pdf_path output_html progress_file existing ps st'
      | Fail st' e => Fail st' e
      end
  end.

(** [range(a, b)] *)
Definition range (a b : Z) : list Z := seqZ a (b - a).

(** The page the loop starts at (lines 51 and 60-75): the clamped
    [start_page], replaced by [last_page + 1] of the progress file when it
    is 0. *)
Definition resolve_start (total start_page : Z) (progress : option Progress.ProgressRecord)
    : Z :=
  let cur := Z.max 0 (Z.min start_page (total - 1)) in
  match progress with
  | Some r =>
      match Progress.last_page r with
      | Some lp => if cur =? 0 then lp + 1 else cur
      | None => cur
      end
  | None => cur
  end.

(** Lines 60-63: the progress file, when it exists, read with [json.load]. *)
Definition load_progress (fs0 : fs) (progress_file : pystr)
    : result (option Progress.ProgressRecord) :=
  match fs0 !! progress_file with
  | Some f => match json_load f with Ok r => Ok (Some r) | Raise e => Raise e end
  | None => Ok None
  end.

(** [_process_pdf(pdf_path, output_dir, file_base, start_page)] *)
Definition process_pdf (o0 : GeminiOCR) (fs0 : fs) (pdf_path out_dir base : pystr)
    (start_page : Z) : outcome :=
  let abort o e := {| returned := None; final_obj := o; final_files := fs0;
                      final_trace := []; ended := Aborted e |} in
  match fs0 !! pdf_path with
  | Some (PdfFile total) =>
      let o1 := set_total_pages o0 total in
      let output_html := output_html_path out_dir base in
      let progress_file := progress_file_path out_dir base in
      match load_progress fs0 progress_file with
      | Raise e =>
          abort (set_current_page o1 (Z.max 0 (Z.min start_page (total - 1)))) e
      | Ok progress =>
          let processed := match progress with
                           | Some r => Progress.processed_pages r
                           | None => []
                           end in
          let cur := resolve_start total start_page progress in
          let o2 := set_processed_pages (set_current_page o1 cur) processed in
          let existing := match fs0 !! output_html with
                          | Some f => extract_existing_content (read_text f)
                          | None => ∅
                          end in
          let st0 := {| obj := o2; files := fs0; all_content := [];
                        last_processed := None; trace := [] |} in
          match pdf_loop pdf_path output_html progress_file existing (range cur total) st0 with
          | Continue st =>
              {| returned := Some output_html; final_obj := obj st; final_files := files st;
                 final_trace := trace st; ended := Completed |}
          | Fail st e =>
              let hint := current_page (obj st) + 1 in
              if bool_decide (all_content st = []) then
                {| returned := None; final_obj := obj st; final_files := files st;
                   final_trace := trace st;
                   ended := Interrupted (current_page (obj st)) hint e |}
              else
                match save_html_file (obj st) (files st) output_html (all_content st) with
                | Ok fs1 =>
                    {| returned := Some output_html; final_obj := obj st; final_files := fs1;
                       final_trace := trace st ++ [Write output_html];
                       ended := Interrupted (current_page (obj st)) hint e |}
                | Raise e' =>
                    {| returned := None; final_obj := obj st; final_files := files st;
                       final_trace := trace st; ended := Aborted e' |}
                end
          end
      end
  | _ => abort o0 OSError
  end.

(** [_process_technical(image_path, image)] *)
Definition process_technical (o : GeminiOCR) (fs0 : fs) (image_path : pystr) : outcome :=
  let output_path := technical_output_path image_path in
  let img := ImagePath image_path in
  let tr := [Recognize img] in
  match process_page_content img 1 1 with
  | Raise e => {| returned := None; final_obj := o; final_files := fs0;
                  final_trace := tr; ended := Aborted e |}
  | Ok content =>
      match save_html_file o fs0 output_path content with
      | Raise e => {| returned := None; final_obj := o; final_files := fs0;
                      final_trace := tr; ended := Aborted e |}
      | Ok fs1 => {| returned := Some output_path; final_obj := o; final_files := fs1;
                     final_trace := tr ++ [Write output_path]; ended := Completed |}
      end
  end.

(** [process_document(file_path, start_page)]: a PDF by its extension,
    anything else opened as an image. *)
Definition process_document (o : GeminiOCR) (fs0 : fs) (file_path : pystr) (start_page : Z)
    : outcome :=
  if is_pdf_path file_path then
    process_pdf o fs0 file_path (output_dir file_path) (file_base file_path) start_page
  else
    match fs0 !! file_path with
    | Some ImageFile => process_technical o fs0 file_path
    | _ => {| returned := None; final_obj := o; final_files := fs0;
              final_trace := []; ended := Aborted OSError |}
    end.

(** ** The trace of a run *)

(** The pages sent to the recognition service, in order. *)
Definition recognized_page (e : event) : list Z :=
  match e with Recognize (PdfPage _ p) => [p] | _ => [] end.
Definition recognized (tr : list event) : list Z := concat (map recognized_page tr).

Definition step_state (r : step_result) : run_state :=
  match r with Continue st => st | Fail st _ => st end.

(** ** Lemmas *)

Lemma recognized_app t1 t2 : recognized (t1 ++ t2) = recognized t1 ++ recognized t2.
Proof. unfold recognized. by rewrite map_app, concat_app. Qed.

Lemma recognized_writes t ps :
  recognized (t ++ map Write ps) = recognized t.
Proof.
  rewrite recognized_app. induction ps as [|q ps IH]; [by rewrite app_nil_r|].
  simpl in *. done.
Qed.

Lemma pdf_page_recognized pdf_path output_html progress_file existing p st :
  let st' := step_state (pdf_page pdf_path output_html progress_file existing p st) in
  recognized (trace st') = recognized (trace st)
  \/ recognized (trace st') = recognized (trace st) ++ [p].
Proof.
  unfold pdf_page. repeat case_match; simpl; rewrite ?recognized_app; simpl;
    rewrite ?app_nil_r; auto.
Qed.

(** The loop sends the pages of a sub-sequence of its range. *)
Lemma pdf_loop_recognized pdf_path output_html progress_file existing pages st :
  exists l, l `sublist_of` pages /\
    recognized (trace (step_state (pdf_loop pdf_path output_html progress_file existing pages st)))
    = recognized (trace st) ++ l.
Proof.
  revert st; induction pages as [|p ps IH]; intros st; simpl.
  - exists []. rewrite app_nil_r. split; [constructor|done].
  - pose proof (pdf_page_recognized pdf_path output_html progress_file existing p st) as Hp.
    destruct (pdf_page _ _ _ _ p st) as [st'|st' e]; cbn [step_state] in Hp |- *.
    + destruct (IH st') as (l & Hsub & Hl). rewrite Hl.
      destruct Hp as [-> | ->].
      * exists l. split; [by apply sublist_cons|done].
      * exists (p :: l). split; [by apply sublist_skip|]. by rewrite <- app_assoc.
    + destruct Hp as [-> | ->].
      * exists []. split; [apply sublist_nil_l|]. by rewrite app_nil_r.
      * exists [p]. split; [apply sublist_skip, sublist_nil_l|done].
Qed.

Ltac split_loop :=
  match goal with
  | |- context [pdf_loop ?a ?b ?c ?d ?e ?f] =>
      let Hl := fresh "Hrec" in
      destruct (pdf_loop_recognized a b c d e f) as (? & ? & Hl);
      destruct (pdf_loop a b c d e f) eqn:?; cbn [step_state] in Hl
  end.

(** The pages a call of [_process_pdf] sends to the service form a
    sub-sequence of [range(start, total)], [start] being the resolved
    start page. *)
Lemma process_pdf_recognized o0 fs0 pdf_path d b start total prog :
  fs0 !! pdf_path = Some (PdfFile total) ->
  load_progress fs0 (progress_file_path d b) = Ok prog ->
  recognized (final_trace (process_pdf o0 fs0 pdf_path d b start))
    `sublist_of` range (resolve_start total start prog) total.
Proof.
  intros Hpdf Hload. unfold process_pdf. rewrite Hpdf, Hload.
  split_loop; cbn [final_trace] in *.
  - rewrite Hrec. simpl. done.
  - case_bool_decide; cbn [final_trace]; [rewrite Hrec; simpl; done|].
    destruct (save_html_file _ _ _ _); cbn [final_trace];
      rewrite ?recognized_app, Hrec; simpl; rewrite ?app_nil_r; done.
Qed.

Ltac solve_prefix :=
  first [ reflexivity | eexists; rewrite <- ?app_assoc; reflexivity ].

Lemma pdf_page_trace_prefix pdf_path output_html progress_file existing p st :
  trace st `prefix_of`
  trace (step_state (pdf_page pdf_path output_html progress_file existing p st)).
Proof.
  unfold pdf_page. repeat case_match; simpl; solve_prefix.
Qed.

Lemma pdf_loop_trace_prefix pdf_path output_html progress_file existing pages st :
  trace st `prefix_of`
  trace (step_state (pdf_loop pdf_path output_html progress_file existing pages st)).
Proof.
  revert st; induction pages as [|p ps IH]; intros st; simpl; [reflexivity|].
  pose proof (pdf_page_trace_prefix pdf_path output_html progress_file existing p st) as Hp.
  destruct (pdf_page _ _ _ _ p st) as [st'|st' e]; cbn [step_state] in *; [|done].
  etrans; [exact Hp|apply IH].
Qed.

(** A page not in the processed list is sent to the service first. *)
Lemma pdf_page_sends pdf_path output_html progress_file existing p st :
  in_pages p (processed_pages (obj st)) = false ->
  (trace st ++ [Recognize (PdfPage pdf_path p)]) `prefix_of`
  trace (step_state (pdf_page pdf_path output_html progress_file existing p st)).
Proof.
  intros Hin. unfold pdf_page. cbn [set_current_page processed_pages]. rewrite Hin.
  repeat case_match; simpl; solve_prefix.
Qed.

(** The final trace of [_process_pdf] extends the trace of its loop. *)
Lemma process_pdf_loop_trace o0 fs0 pdf_path d b start total prog :
  fs0 !! pdf_path = Some (PdfFile total) ->
  load_progress fs0 (progress_file_path d b) = Ok prog ->
  let o2 := set_processed_pages
              (set_current_page (set_total_pages o0 total) (resolve_start total start prog))
              (match prog with Some r => Progress.processed_pages r | None => [] end) in
  let existing := match fs0 !! output_html_path d b with
                  | Some f => extract_existing_content (read_text f)
                  | None => ∅
                  end in
  trace (step_state (pdf_loop pdf_path (output_html_path d b) (progress_file_path d b) existing
           (range (resolve_start total start prog) total)
           {| obj := o2; files := fs0; all_content := []; last_processed := None; trace := [] |}))
  `prefix_of` final_trace (process_pdf o0 fs0 pdf_path d b start).
Proof.
  intros Hpdf Hload o2 existing. unfold process_pdf. rewrite Hpdf, Hload.
  fold o2 existing. destruct (pdf_loop _ _ _ _ _ _) as [st|st e]; cbn [step_state final_trace].
  - reflexivity.
  - case_bool_decide; [reflexivity|].
    destruct (save_html_file _ _ _ _); cbn [final_trace]; solve_prefix.
Qed.

Lemma process_pdf_interrupted o0 fs0 pdf_path d b start p hint e :
  ended (process_pdf o0 fs0 pdf_path d b start) = Interrupted p hint e -> hint = p + 1.
Proof.
  unfold process_pdf. repeat case_match; simpl; try discriminate; by intros [= -> -> _].
Qed.

Lemma pdf_page_processed_prefix pdf_path output_html progress_file existing p st :
  processed_pages (obj st) `prefix_of`
  processed_pages (obj (step_state (pdf_page pdf_path output_html progress_file existing p st))).
Proof. unfold pdf_page. repeat case_match; simpl; solve_prefix. Qed.

Lemma pdf_loop_processed_prefix pdf_path output_html progress_file existing pages st :
  processed_pages (obj st) `prefix_of`
  processed_pages (obj (step_state (pdf_loop pdf_path output_html progress_file existing pages st))).
Proof.
  revert st; induction pages as [|p ps IH]; intros st; simpl; [reflexivity|].
  pose proof (pdf_page_processed_prefix pdf_path output_html progress_file existing p st) as Hp.
  destruct (pdf_page _ _ _ _ p st) as [st'|st' e]; cbn [step_state] in *; [|done].
  etrans; [exact Hp|apply IH].
Qed.

(** ** Theorems *)

(** C9: Pages are sent to the recognition service one at a time in
    strictly increasing order, each within [range(start, total_pages)],
    [start] being the start page resolved from [start_page] and the
    progress file: no page before it is ever sent. *)
Theorem process_pdf_pages_in_order o0 fs0 pdf_path d b start total prog :
  fs0 !! pdf_path = Some (PdfFile total) ->
  load_progress fs0 (progress_file_path d b) = Ok prog ->
  let sent := recognized (final_trace (process_pdf o0 fs0 pdf_path d b start)) in
  StronglySorted Z.lt sent
  /\ Forall (fun p => resolve_start total start prog <= p < total) sent.
Proof.
  intros Hpdf Hload sent.
  pose proof (process_pdf_recognized o0 fs0 pdf_path d b start total prog Hpdf Hload) as Hs.
  split.
  - eapply sublist_StronglySorted; [exact Hs|]. apply seqZ_StronglySorted.
  - eapply sublist_Forall; [exact Hs|]. apply Forall_seqZ. lia.
Qed.

(** C11: Resume correctness: when the progress file records [last_page =
    k] and page [k + 1] exists and is not in its processed list, a call with
    no start page sends page [k + 1] first (and, by C9, nothing before it). *)
Theorem resume_starts_after_last_page o0 fs0 pdf_path d b total r k :
  fs0 !! pdf_path = Some (PdfFile total) ->
  fs0 !! progress_file_path d b = Some (JsonFile r) ->
  Progress.last_page r = Some k -> 0 <= k -> k + 1 < total ->
  in_pages (k + 1) (Progress.processed_pages r) = false ->
  hd_error (recognized (final_trace (process_pdf o0 fs0 pdf_path d b 0))) = Some (k + 1).
Proof.
  intros Hpdf Hprog Hlast Hk Hlt Hin.
  assert (load_progress fs0 (progress_file_path d b) = Ok (Some r)) as Hload
    by (unfold load_progress; by rewrite Hprog).
  pose proof (process_pdf_loop_trace o0 fs0 pdf_path d b 0 total (Some r) Hpdf Hload) as Hpre.
  simpl in Hpre. unfold resolve_start in Hpre. rewrite Hlast in Hpre.
  replace (Z.max 0 (Z.min 0 (total - 1)) =? 0) with true in Hpre by (symmetry; apply Z.eqb_eq; lia).
  unfold range in Hpre. rewrite seqZ_cons in Hpre by lia. cbn [pdf_loop] in Hpre.
  match type of Hpre with
  | context [pdf_page ?a ?b ?c ?e (k + 1) ?st] =>
      pose proof (pdf_page_sends a b c e (k + 1) st Hin) as Hs;
      pose proof (pdf_loop_trace_prefix a b c e (seqZ (Z.succ (k + 1)) (Z.pred (total - (k + 1))))
                    (step_state (pdf_page a b c e (k + 1) st))) as Hl;
      destruct (pdf_page a b c e (k + 1) st) eqn:?; cbn [step_state] in *
  end.
  - assert (Ht : (trace {| obj := set_processed_pages
        (set_current_page (set_total_pages o0 total) (k + 1)) (Progress.processed_pages r);
        files := fs0; all_content := []; last_processed := None; trace := [] |}
        ++ [Recognize (PdfPage pdf_path (k + 1))]) `prefix_of`
        final_trace (process_pdf o0 fs0 pdf_path d b 0))
      by (etrans; [exact Hs | etrans; [exact Hl | exact Hpre]]).
    destruct Ht as [rest ->]. done.
  - assert (Ht : (trace {| obj := set_processed_pages
        (set_current_page (set_total_pages o0 total) (k + 1)) (Progress.processed_pages r);
        files := fs0; all_content := []; last_processed := None; trace := [] |}
        ++ [Recognize (PdfPage pdf_path (k + 1))]) `prefix_of`
        final_trace (process_pdf o0 fs0 pdf_path d b 0))
      by (etrans; [exact Hs | exact Hpre]).
    destruct Ht as [rest ->]. done.
Qed.

(** C14: The processed list never shrinks within a run: the list read
    from the progress file is a prefix of the object's list at the end of
    [_process_pdf], whether it completes or stops on an error. *)
Theorem processed_pages_only_grow o0 fs0 pdf_path d b start total prog :
  fs0 !! pdf_path = Some (PdfFile total) ->
  load_progress fs0 (progress_file_path d b) = Ok prog ->
  (match prog with Some r => Progress.processed_pages r | None => [] end)
    `prefix_of` processed_pages (final_obj (process_pdf o0 fs0 pdf_path d b start)).
Proof.
  intros Hpdf Hload. unfold process_pdf. rewrite Hpdf, Hload.
  match goal with
  | |- context [pdf_loop ?a ?c ?e ?f ?g ?h] =>
      pose proof (pdf_loop_processed_prefix a c e f g h) as Hp;
      destruct (pdf_loop a c e f g h); cbn [step_state] in Hp
  end; cbn [final_obj]; [exact Hp|].
  case_bool_decide; [exact Hp|]. destruct (save_html_file _ _ _ _); exact Hp.
Qed.

(** [_process_technical] on a fresh object never completes: it fails in
    the service, the cleaning or the rendering, returns [None] and writes
    nothing. *)
Lemma process_technical_fresh_aborts fs0 path :
  let out := process_technical init_ocr fs0 path in
  returned out = None /\ final_files out = fs0 /\ exists e, ended out = Aborted e.
Proof.
  unfold process_technical. destruct (process_page_content _ _ _); cbn; [|eauto].
  unfold save_html_file, html_document, Progress.percentage. cbn. eauto.
Qed.

(** C15: An image given to a freshly created object is never transcribed:
    [_save_html_file] divides by [self.total_pages], still 0, so the
    call raises [ZeroDivisionError] after the service has answered, and
    [process_document] returns [None] without writing anything. *)
Theorem image_on_fresh_object_fails fs0 path text :
  is_pdf_path path = false ->
  fs0 !! path = Some ImageFile ->
  generate_content prompt (ImagePath path) = Ok (RespText text) ->
  process_document init_ocr fs0 path 0
  = {| returned := None; final_obj := init_ocr; final_files := fs0;
       final_trace := [Recognize (ImagePath path)]; ended := Aborted ZeroDivisionError |}.
Proof.
  intros Hext Hfile Hgen. unfold process_document. rewrite Hext, Hfile.
  unfold process_technical, process_page_content. rewrite Hgen. cbn [clean_text].
  reflexivity.
Qed.

End WithRecognizer.

(** C1: The message printed when a page fails tells the user to resume
    with [start_page] one past the failed page: following it, the failed
    page (unless it is the last) is never sent to the service again, so it
    is skipped for good. *)
Theorem resume_hint_skips_failed_page (R1 R2 : Recognizer)
    o0 fs0 pdf_path d b start p hint e o1 fs1 total prog :
  ended (@process_pdf R1 o0 fs0 pdf_path d b start) = Interrupted p hint e ->
  0 <= p < total - 1 ->
  fs1 !! pdf_path = Some (PdfFile total) ->
  load_progress fs1 (progress_file_path d b) = Ok prog ->
  Forall (fun q => q <> p) (recognized (final_trace (@process_pdf R2 o1 fs1 pdf_path d b hint))).
Proof.
  intros Hend Hp Hpdf Hload. apply (@process_pdf_interrupted R1) in Hend as ->.
  pose proof (@process_pdf_recognized R2 o1 fs1 pdf_path d b (p + 1) total prog Hpdf Hload) as Hs.
  eapply sublist_Forall; [exact Hs|]. apply Forall_seqZ. intros q Hq.
  unfold resolve_start in Hq.
  replace (Z.max 0 (Z.min (p + 1) (total - 1))) with (p + 1) in Hq by lia.
  destruct prog as [r|]; [destruct (Progress.last_page r)|];
    replace (p + 1 =? 0) with false in Hq by (symmetry; apply Z.eqb_neq; lia); lia.
Qed.

(** ** Deterministic recognisers and a three-page document *)

Definition page_text (k : Z) : pystr := lit "texto da página " ++ str_of_Z k.

(** A service that answers every page with its text. *)
#[local] Instance stub_recognizer : Recognizer := fun _ img =>
  match img with
  | PdfPage _ k => Ok (RespText (page_text k))
  | ImagePath _ => Ok (RespText (lit "imagem"))
  end.

(** The same service, failing on page [bad]. *)
Definition failing_recognizer (bad : Z) : Recognizer := fun _ img =>
  match img with
  | PdfPage _ k => if k =? bad then Raise ServiceError else Ok (RespText (page_text k))
  | ImagePath _ => Ok (RespText (lit "imagem"))
  end.

Definition demo_pdf : pystr := lit "doc.pdf".
Definition demo_fs : fs := {[ demo_pdf := PdfFile 3 ]}.

Lemma resume_starts_after_last_page_witness :
  let r := {| Progress.total_pages := 3; Progress.processed_pages := [0];
              Progress.last_page := Some 0; Progress.progress_percentage := 3333 |} in
  let f := <[progress_file_path (output_dir (lit "doc.pdf")) (file_base (lit "doc.pdf"))
               := JsonFile r]> {[ lit "doc.pdf" := PdfFile 3 ]} in
  hd_error (recognized (final_trace
    (@process_pdf stub_recognizer init_ocr f (lit "doc.pdf") (output_dir (lit "doc.pdf"))
                  (file_base (lit "doc.pdf")) 0))) = Some (0 + 1).
Proof.
  intros r f. apply (resume_starts_after_last_page _ _ _ _ _ 3 r 0);
    [vm_compute; reflexivity | vm_compute; reflexivity | reflexivity | lia | lia | reflexivity].
Defined.

Lemma resume_hint_skips_failed_page_witness :
  let d := output_dir demo_pdf in
  let b := file_base demo_pdf in
  let run1 := @process_pdf (failing_recognizer 1) init_ocr demo_fs demo_pdf d b 0 in
  let run2 := @process_pdf stub_recognizer (final_obj run1) (final_files run1) demo_pdf d b 2 in
  ended run1 = Interrupted 1 2 ServiceError /\
  Forall (fun q => q <> 1) (recognized (final_trace run2)).
Proof.
  intros d b run1 run2. split; [vm_compute; reflexivity|].
  apply (resume_hint_skips_failed_page (failing_recognizer 1) stub_recognizer init_ocr demo_fs demo_pdf d b 0
           1 2 ServiceError (final_obj run1) (final_files run1) 3
           (Some {| Progress.total_pages := 3; Progress.processed_pages := [0];
                    Progress.last_page := Some 0; Progress.progress_percentage := 3333 |}));
    [vm_compute; reflexivity | lia | vm_compute; reflexivity | vm_compute; reflexivity].
Defined.

Lemma process_pdf_pages_in_order_witness :
  let d := output_dir demo_pdf in
  let b := file_base demo_pdf in
  let sent := recognized (final_trace
                (@process_pdf (failing_recognizer 2) init_ocr demo_fs demo_pdf d b 1)) in
  StronglySorted Z.lt sent /\ Forall (fun p => resolve_start 3 1 None <= p < 3) sent.
Proof.
  intros d b sent.
  apply (@process_pdf_pages_in_order (failing_recognizer 2)); vm_compute; reflexivity.
Defined.

Lemma processed_pages_only_grow_witness :
  let d := output_dir demo_pdf in
  let b := file_base demo_pdf in
  let run1 := @process_pdf (failing_recognizer 2) init_ocr demo_fs demo_pdf d b 0 in
  [0; 1] `prefix_of`
  processed_pages (final_obj (@process_pdf stub_recognizer (final_obj run1) (final_files run1)
                                demo_pdf d b 0)).
Proof.
  intros d b run1.
  apply (@processed_pages_only_grow stub_recognizer _ _ _ _ _ 0 3
           (Some {| Progress.total_pages := 3; Progress.processed_pages := [0; 1];
                    Progress.last_page := Some 1; Progress.progress_percentage := 6667 |}));
    vm_compute; reflexivity.
Defined.

Lemma image_on_fresh_object_fails_witness :
  let f : fs := {[ lit "scan.png" := ImageFile ]} in
  process_document init_ocr f (lit "scan.png") 0
  = {| returned := None; final_obj := init_ocr; final_files := f;
       final_trace := [Recognize (ImagePath (lit "scan.png"))];
       ended := Aborted ZeroDivisionError |}.
Proof.
  intros f. apply (image_on_fresh_object_fails f (lit "scan.png") (lit "imagem"));
    vm_compute; reflexivity.
Defined.

End Pipeline.
