(* ===== verification/Invariant.v ===== *)
(** * Invariant of the files across runs: what every progress file of the
    file system satisfies, whatever sequence of calls of
    [process_document] (src/main.py, lines 23-39) produced it, with any
    recognition service, path and start page.

    [reachable f0] is the set of (object, file system) pairs obtained from
    a fresh object ([__init__]) and the files [f0] by successive calls.
    [progress_wf] says a progress record lists its pages strictly
    increasing (sorted, without duplicates), contains its [last_page], and
    holds the percentage of its page count (the invariant of the spec's
    data model and of its section 8).
    Duplicates are kept out by the guard of line 120 ([if page_num not in
    self.processed_pages]); the order comes from [sorted] on line 196.

    Theorem: in every reachable state, every progress file is well formed
    when the initial ones are, proved by induction on [reachable] from the
    preservation lemmas of one page, one loop, and one call. *)

From Stdlib Require Import ZArith String Lia Sorted.
From stdpp Require Import base list gmap sorting.
From S2P Require Import Prelude Normalizer Progress Render Merger Paths Pipeline.

Open Scope Z_scope.

Module Invariant.
Import Normalizer Render Merger Paths Pipeline.

(** A progress record as [_update_progress_file] writes it: its pages
    strictly increasing, its [last_page] among them, and its percentage
    the one of its page count. *)
Definition progress_wf (r : Progress.ProgressRecord) : Prop :=
  StronglySorted Z.lt (Progress.processed_pages r)
  /\ (forall q, Progress.last_page r = Some q -> q ∈ Progress.processed_pages r)
  /\ Progress.percentage (Z.of_nat (List.length (Progress.processed_pages r)))
                         (Progress.total_pages r)
     = Ok (Progress.progress_percentage r).

(** Every progress file of a file system is well formed. *)
Definition files_wf (m : fs) : Prop :=
  forall path r, m !! path = Some (JsonFile r) -> progress_wf r.

(** The states of the program: from a fresh object and the files [f0],
    any number of calls of [process_document]. *)
Inductive reachable (f0 : fs) : GeminiOCR -> fs -> Prop :=
  | reachable_init : reachable f0 init_ocr f0
  | reachable_run (R : Recognizer) o m path start :
      reachable f0 o m ->
      reachable f0 (final_obj (@process_document R o m path start))
                   (final_files (@process_document R o m path start)).

(** The invariant of the loop of [_process_pdf]. *)
Definition loop_inv (st : run_state) : Prop :=
  NoDup (processed_pages (obj st)) /\ files_wf (files st).

(** Every file a run creates or changes has the kind its name announces:
    an HTML text at a path ending in [.html], a progress record at a path
    ending in [_progresso.json]; any other path holds what it held in
    [f0]. *)
Definition written_typed (f0 m : fs) : Prop :=
  forall k, m !! k = f0 !! k
    \/ (exists s, m !! k = Some (TextFile s) /\ lit ".html" `suffix_of` k)
    \/ (exists r, m !! k = Some (JsonFile r) /\ lit "_progresso.json" `suffix_of` k).

(** ** Lemmas *)

Lemma in_pages_spec p l : in_pages p l = true <-> p ∈ l.
Proof.
  unfold in_pages. rewrite existsb_exists, list_elem_of_In. split.
  - intros (x & Hx & Hp). apply Z.eqb_eq in Hp. by subst.
  - intros Hp. exists p. split; [done|]. apply Z.eqb_refl.
Qed.

(** The guard of line 120 keeps the list free of duplicates. *)
Lemma NoDup_guarded_append p l :
  NoDup l -> NoDup (if in_pages p l then l else l ++ [p]).
Proof.
  intros Hl. destruct (in_pages p l) eqn:Hin; [done|].
  apply NoDup_app. split; [done|]. split; [|apply NoDup_singleton].
  intros x Hx ->%list_elem_of_singleton. apply (not_true_iff_false _) in Hin.
  by apply Hin, in_pages_spec.
Qed.

Lemma elem_of_guarded_append p l : p ∈ (if in_pages p l then l else l ++ [p]).
Proof.
  destruct (in_pages p l) eqn:Hin; [by apply in_pages_spec|].
  apply elem_of_app. right. by apply list_elem_of_singleton.
Qed.

(** A sorted list without duplicates is strictly increasing. *)
Lemma Sorted_NoDup_strict l : Sorted Z.le l -> NoDup l -> StronglySorted Z.lt l.
Proof.
  intros Hs Hd. apply Sorted_StronglySorted in Hs; [|intros ???; lia].
  induction Hs as [|x l Hs IH Hx]; constructor.
  - apply IH. by apply NoDup_cons in Hd as [_ Hd].
  - apply NoDup_cons in Hd as [Hnin _]. apply Forall_forall. intros y Hy.
    rewrite Forall_forall in Hx. pose proof (Hx y Hy).
    assert (x <> y) by (intros ->; by apply Hnin). lia.
Qed.

Lemma StronglySorted_lt_NoDup l : StronglySorted Z.lt l -> NoDup l.
Proof.
  induction 1 as [|x l _ IH Hx]; constructor; [|done].
  intros Hin. rewrite Forall_forall in Hx. specialize (Hx x Hin). lia.
Qed.

Lemma sorted_pages_wf total l p pct :
  NoDup l -> p ∈ l ->
  Progress.percentage (Z.of_nat (List.length l)) total = Ok pct ->
  progress_wf {| Progress.total_pages := total; Progress.processed_pages := Progress.sorted_pages l;
                 Progress.last_page := Some p; Progress.progress_percentage := pct |}.
Proof.
  intros Hd Hp Hpct. unfold progress_wf, Progress.sorted_pages; cbn.
  pose proof (merge_sort_Permutation Z.le l) as Hperm. split; [|split].
  - apply Sorted_NoDup_strict; [apply (Sorted_merge_sort Z.le)|]. by rewrite Hperm.
  - intros q [= <-]. by rewrite Hperm.
  - by rewrite Hperm.
Qed.

Lemma files_wf_insert_text m path s : files_wf m -> files_wf (<[path := TextFile s]> m).
Proof.
  intros Hm k r. destruct (decide (path = k)) as [->|Hne].
  - by rewrite lookup_insert_eq.
  - rewrite lookup_insert_ne by done. apply Hm.
Qed.

Lemma files_wf_insert_json m path r : files_wf m -> progress_wf r -> files_wf (<[path := JsonFile r]> m).
Proof.
  intros Hm Hr k r'. destruct (decide (path = k)) as [->|Hne].
  - rewrite lookup_insert_eq. by intros [= <-].
  - rewrite lookup_insert_ne by done. apply Hm.
Qed.

#[export] Hint Resolve files_wf_insert_text files_wf_insert_json : ocr.

Section Preservation.
Context `{Recognizer}.

Lemma save_html_file_wf o m path c m' :
  files_wf m -> save_html_file o m path c = Ok m' -> files_wf m'.
Proof.
  unfold save_html_file. destruct (html_document _ _ _); [|done].
  intros Hm [= <-]. by apply files_wf_insert_text.
Qed.

Lemma update_progress_file_wf o m path p m' :
  NoDup (processed_pages o) -> p ∈ processed_pages o ->
  files_wf m -> update_progress_file o m path (Some p) = Ok m' -> files_wf m'.
Proof.
  intros Hd Hp Hm. unfold update_progress_file, Progress.progress_data.
  destruct (Progress.percentage _ _) eqn:Hpct; [|done]. intros [= <-].
  apply files_wf_insert_json; [done|]. by apply sorted_pages_wf.
Qed.

(** The object after a page is processed: the guard of line 120. *)
Lemma guarded_object_inv o p :
  NoDup (processed_pages o) ->
  let o' := if in_pages p (processed_pages o) then o
            else set_processed_pages o (processed_pages o ++ [p]) in
  NoDup (processed_pages o') /\ p ∈ processed_pages o'.
Proof.
  intros Hd o'. pose proof (NoDup_guarded_append p _ Hd).
  pose proof (elem_of_guarded_append p (processed_pages o)).
  subst o'. by destruct (in_pages p (processed_pages o)).
Qed.

Lemma pdf_page_inv pdf_path output_html progress_path existing p st :
  loop_inv st ->
  loop_inv (step_state (pdf_page pdf_path output_html progress_path existing p st)).
Proof.
  intros [Hd Hm]. unfold pdf_page.
  pose proof (guarded_object_inv (set_current_page (obj st) p) p Hd) as [Hd' Hp'].
  revert Hd' Hp'. cbv zeta.
  generalize (if in_pages p (processed_pages (set_current_page (obj st) p))
              then set_current_page (obj st) p
              else set_processed_pages (set_current_page (obj st) p)
                     (processed_pages (set_current_page (obj st) p) ++ [p])) as o'.
  intros o' Hd' Hp'.
  repeat case_match; cbn [step_state]; split; cbn [obj files]; try done;
    repeat match goal with
    | H : update_progress_file _ _ _ _ = Ok _ |- _ =>
        apply update_progress_file_wf in H; [| done | done | done]
    | H : save_html_file _ _ _ _ = Ok _ |- _ => apply save_html_file_wf in H; [|done]
    end; done.
Qed.

Lemma pdf_loop_inv pdf_path output_html progress_path existing pages st :
  loop_inv st ->
  loop_inv (step_state (pdf_loop pdf_path output_html progress_path existing pages st)).
Proof.
  revert st; induction pages as [|p ps IH]; intros st Hst; cbn [pdf_loop]; [done|].
  pose proof (pdf_page_inv pdf_path output_html progress_path existing p st Hst) as Hp.
  destruct (pdf_page _ _ _ _ p st); [by apply IH|done].
Qed.

(** The processed list [_process_pdf] loads is free of duplicates. *)
Lemma load_progress_NoDup m path prog :
  files_wf m -> load_progress m path = Ok prog ->
  NoDup (match prog with Some r => Progress.processed_pages r | None => [] end).
Proof.
  intros Hm. unfold load_progress.
  destruct (m !! path) as [f|] eqn:Hf; [|intros [= <-]; constructor].
  destruct f; cbn; intros; simplify_eq; [|done..].
  destruct (Hm _ _ Hf) as [Hs _]. by apply StronglySorted_lt_NoDup.
Qed.

Lemma process_pdf_wf o m pdf_path d b start :
  files_wf m -> files_wf (final_files (process_pdf o m pdf_path d b start)).
Proof.
  intros Hm. unfold process_pdf.
  destruct (m !! pdf_path) as [[]|]; try done.
  destruct (load_progress m _) as [prog|] eqn:Hload; [|done]. cbv zeta.
  match goal with |- context [pdf_loop ?a ?b ?c ?e ?pg ?st] =>
    assert (Hl := pdf_loop_inv a b c e pg st (conj (load_progress_NoDup m _ prog Hm Hload) Hm))
  end.
  destruct (pdf_loop _ _ _ _ _ _) as [st|st e]; cbn [step_state] in Hl;
    destruct Hl as [_ Hf]; [done|].
  case_bool_decide; [done|].
  destruct (save_html_file _ _ _ _) eqn:Hs; [|done]. by eapply save_html_file_wf.
Qed.

Lemma process_document_wf o m path start :
  files_wf m -> files_wf (final_files (process_document o m path start)).
Proof.
  intros Hm. unfold process_document.
  destruct (is_pdf_path path); [by apply process_pdf_wf|].
  destruct (m !! path) as [[]|]; try done. unfold process_technical.
  destruct (process_page_content _ _ _); [|done].
  destruct (save_html_file _ _ _ _) eqn:Hs; [|done]. by eapply save_html_file_wf.
Qed.

(** Any property of file systems kept by the two writes of a page is kept
    by the loop of [_process_pdf]. *)
Lemma pdf_loop_files_preserved (Q : fs -> Prop) pdf_path output_html progress_path existing
    pages st :
  (forall o m l m', Q m -> update_progress_file o m progress_path l = Ok m' -> Q m') ->
  (forall o m c m', Q m -> save_html_file o m output_html c = Ok m' -> Q m') ->
  Q (files st) ->
  Q (files (step_state (pdf_loop pdf_path output_html progress_path existing pages st))).
Proof.
  intros HU HS. revert st; induction pages as [|p ps IH]; intros st HQ; [done|]. cbn [pdf_loop].
  assert (Hstep : Q (files (step_state (pdf_page pdf_path output_html progress_path existing p st)))).
  { unfold pdf_page. repeat case_match; simplify_eq; cbn [step_state files]; eauto. }
  destruct (pdf_page _ _ _ _ p st); cbn [step_state] in *; [by apply IH|done].
Qed.

(** ... and by a whole call of [process_document], given the writes of
    its three output files. *)
Lemma process_document_files_preserved (Q : fs -> Prop) o m path start :
  let d := output_dir path in
  let b := file_base path in
  (forall o m l m', Q m -> update_progress_file o m (progress_file_path d b) l = Ok m' -> Q m') ->
  (forall o m c m', Q m -> save_html_file o m (output_html_path d b) c = Ok m' -> Q m') ->
  (forall o m c m', Q m -> save_html_file o m (technical_output_path path) c = Ok m' -> Q m') ->
  Q m -> Q (final_files (process_document o m path start)).
Proof.
  intros d b HU HS HT HQ. unfold process_document.
  destruct (is_pdf_path path).
  - unfold process_pdf. fold d b. destruct (m !! path) as [[]|]; try done.
    destruct (load_progress m _); [|done]. cbv zeta.
    match goal with |- context [pdf_loop ?x1 ?x2 ?x3 ?x4 ?pg ?st] =>
      assert (Hl := pdf_loop_files_preserved Q x1 x2 x3 x4 pg st HU HS HQ) end.
    destruct (pdf_loop _ _ _ _ _ _); cbn [step_state] in Hl; [done|].
    case_bool_decide; [done|]. destruct (save_html_file _ _ _ _) eqn:Hs; [|done]. eauto.
  - destruct (m !! path) as [[]|]; try done. unfold process_technical.
    destruct (process_page_content _ _ _); [|done].
    destruct (save_html_file _ _ _ _) eqn:Hs; [|done]. eauto.
Qed.

End Preservation.

Lemma suffix_path_join d x : x `suffix_of` path_join d x.
Proof.
  unfold path_join. case_match; [done|]. case_match.
  - by exists d.
  - exists (d ++ [c_slash]). by rewrite <- app_assoc.
Qed.

Lemma written_typed_text f0 m k s :
  lit ".html" `suffix_of` k -> written_typed f0 m -> written_typed f0 (<[k := TextFile s]> m).
Proof.
  intros Hk Hm j. destruct (decide (k = j)) as [<-|Hne].
  - rewrite lookup_insert_eq. right; left. by exists s.
  - rewrite lookup_insert_ne by done. apply Hm.
Qed.

Lemma written_typed_json f0 m k r :
  lit "_progresso.json" `suffix_of` k -> written_typed f0 m -> written_typed f0 (<[k := JsonFile r]> m).
Proof.
  intros Hk Hm j. destruct (decide (k = j)) as [<-|Hne].
  - rewrite lookup_insert_eq. right; right. by exists r.
  - rewrite lookup_insert_ne by done. apply Hm.
Qed.

Lemma output_html_path_suffix d b : lit ".html" `suffix_of` output_html_path d b.
Proof.
  etrans; [|apply suffix_path_join]. exists (b ++ lit "_processado").
  by rewrite <- app_assoc.
Qed.

Lemma progress_file_path_suffix d b : lit "_progresso.json" `suffix_of` progress_file_path d b.
Proof. etrans; [|apply suffix_path_join]. by exists b. Qed.

Lemma technical_output_path_suffix p : lit ".html" `suffix_of` technical_output_path p.
Proof. exists (rsplit_dot_head p ++ lit "_tecnico"). by rewrite <- app_assoc. Qed.

Lemma process_document_typed `{Recognizer} f0 o m path start :
  written_typed f0 m -> written_typed f0 (final_files (process_document o m path start)).
Proof.
  apply process_document_files_preserved.
  - intros o' m' l m'' Hm. unfold update_progress_file.
    destruct (Progress.progress_data _ _ _); [|done]. intros [= <-].
    by apply written_typed_json; [apply progress_file_path_suffix|].
  - intros o' m' c m'' Hm. unfold save_html_file.
    destruct (html_document _ _ _); [|done]. intros [= <-].
    by apply written_typed_text; [apply output_html_path_suffix|].
  - intros o' m' c m'' Hm. unfold save_html_file.
    destruct (html_document _ _ _); [|done]. intros [= <-].
    by apply written_typed_text; [apply technical_output_path_suffix|].
Qed.

(** ** Theorems *)

(** C6: Whatever sequence of runs produced the files, with any services,
    paths and start pages, every progress file lists its pages strictly
    increasing, without duplicates, contains its [last_page], and records
    the percentage [round(len(processed_pages) * 100 / total_pages, 2)] of
    its own page list, provided the progress files present at the start
    do. *)
Theorem progress_files_wf f0 o m :
  files_wf f0 -> reachable f0 o m -> files_wf m.
Proof.
  intros H0 Hr. induction Hr as [|R o m path start Hr IH]; [done|].
  by apply process_document_wf.
Qed.

(** C7: File kinds: in every state reachable from the files [f0], each
    path holds what it held in [f0], or an HTML text at a path ending in
    [.html], or a progress record at a path ending in [_progresso.json]:
    the program writes no other kind of file and never writes a PDF, an
    image or a progress record under any other name. *)
Theorem written_files_typed f0 o m : reachable f0 o m -> written_typed f0 m.
Proof.
  induction 1 as [|R o m path start Hr IH]; [by intros k; left|].
  by apply process_document_typed.
Qed.

Lemma written_files_typed_witness :
  let run := @process_document stub_recognizer init_ocr demo_fs demo_pdf 0 in
  reachable demo_fs (final_obj run) (final_files run) /\ written_typed demo_fs (final_files run).
Proof.
  intros run.
  assert (Hr : reachable demo_fs (final_obj run) (final_files run))
    by (apply (reachable_run _ stub_recognizer), reachable_init).
  split; [exact Hr|]. exact (written_files_typed demo_fs _ _ Hr).
Defined.

Lemma progress_files_wf_witness :
  let run := @process_document stub_recognizer init_ocr demo_fs demo_pdf 0 in
  (files_wf demo_fs /\ reachable demo_fs (final_obj run) (final_files run))
  /\ files_wf (final_files run).
Proof.
  intros run.
  assert (H0 : files_wf demo_fs).
  { intros k r Hk. unfold demo_fs in Hk. apply lookup_singleton_Some in Hk as [_ Hk]. done. }
  assert (Hr : reachable demo_fs (final_obj run) (final_files run))
    by (apply (reachable_run _ stub_recognizer), reachable_init).
  split; [done|]. exact (progress_files_wf demo_fs _ _ H0 Hr).
Defined.

End Invariant.
