(* ===== verification/LoopSpec.v ===== *)
(** * Loop specification: what one run of the page loop of [_process_pdf]
    (src/main.py, lines 90-133) computes, stated page by page, and the
    refinement theorem that [Pipeline.pdf_loop] implements it.

    The specification [loop_spec] gives, for each page of the range in
    order, the piece of content it contributes: the fragment of the
    existing output when the page is in the processed list and was
    extracted ([Reused]), otherwise the fragment rendered from the
    service's reply ([Fresh]); it stops at the first exception.  It does
    not mention the object, the accumulator or the files.  The refinement
    theorem [pdf_loop_refines] shows that the loop's accumulator is the
    concatenation of the pieces, its processed list the old one extended
    by the fresh pages, and that the two files it rewrites hold what the
    last fresh page wrote: the output document holds the pieces up to the
    last fresh one ([last_fresh_prefix]), so reused pages after it are
    never written.

    Theorems: the refinement (the content of the output file after a
    completed or an interrupted run), that a completed run writes only
    pieces the code computes for pages from the resolved start page on,
    liveness of a first run whose pages are all answered, and idempotence
    of a second run after a completed first one. *)

From Stdlib Require Import ZArith String Lia Sorted.
From stdpp Require Import base list gmap.
From S2P Require Import Prelude Normalizer Progress Render Merger Paths Pipeline.

Open Scope Z_scope.

Module LoopSpec.
Import Normalizer Render Merger Paths Pipeline.

(** ** The specification *)

(** What a page contributes to [all_content]. *)
Inductive piece :=
  | Reused (page : Z) (fragment : pystr)
  | Fresh (page : Z) (fragment : pystr).

Definition piece_page (x : piece) : Z := match x with Reused p _ | Fresh p _ => p end.
Definition piece_text (x : piece) : pystr := match x with Reused _ f | Fresh _ f => f end.
Definition is_fresh (x : piece) : bool := match x with Fresh _ _ => true | Reused _ _ => false end.

(** The pages sent to the service, in order. *)
Definition fresh_pages (xs : list piece) : list Z := map piece_page (filter is_fresh xs).

(** [processed_pages] after appending each of [ps] that is not in it yet
    (lines 120-121). *)
Definition add_pages (processed ps : list Z) : list Z :=
  foldl (fun l p => if in_pages p l then l else l ++ [p]) processed ps.

(** The pieces up to and including the last fresh one, if any. *)
Fixpoint last_fresh_prefix (xs : list piece) : option (list piece) :=
  match xs with
  | [] => None
  | x :: xs' =>
      match last_fresh_prefix xs' with
      | Some l => Some (x :: l)
      | None => if is_fresh x then Some [x] else None
      end
  end.

(** The page of the last fresh piece, if any. *)
Definition last_fresh (xs : list piece) : option Z := last (fresh_pages xs).

(** The file [_save_html_file] and [_update_progress_file] write, as
    values of the file system. *)
Definition html_file (processed : list Z) (total : Z) (content : pystr) : option file :=
  match html_document processed total content with
  | Ok d => Some (TextFile d)
  | Raise _ => None
  end.

Definition progress_file (total : Z) (processed : list Z) (last : Z) : option file :=
  match Progress.progress_data total processed (Some last) with
  | Ok r => Some (JsonFile r)
  | Raise _ => None
  end.

(** A write of a file the model computes ([None]: the write raised). *)
Definition write_opt (path : pystr) (f : option file) (m : fs) : fs :=
  match f with Some x => <[path := x]> m | None => m end.

Section Spec.
Context `{Recognizer}.

(** Page [p]: reused when in the processed list and in the existing
    output (lines 94-100), otherwise transcribed (lines 105-116). *)
Definition page_piece (pdf_path : pystr) (total : Z) (processed : list Z)
    (existing : gmap Z pystr) (p : Z) : result piece :=
  match in_pages p processed, existing !! p with
  | true, Some frag => Ok (Reused p frag)
  | _, _ =>
      match process_page_content (PdfPage pdf_path p) (p + 1) total with
      | Ok c => Ok (Fresh p c)
      | Raise e => Raise e
      end
  end.

(** The pieces of the pages, in order, up to the first exception. *)
Fixpoint loop_spec (pdf_path : pystr) (total : Z) (processed : list Z)
    (existing : gmap Z pystr) (pages : list Z) : list piece * option py_exc :=
  match pages with
  | [] => ([], None)
  | p :: ps =>
      match page_piece pdf_path total processed existing p with
      | Raise e => ([], Some e)
      | Ok x => let '(xs, err) := loop_spec pdf_path total processed existing ps in
                (x :: xs, err)
      end
  end.

(** The processed list [_process_pdf] starts from (lines 63 and 75). *)
Definition run_processed (progress : option Progress.ProgressRecord) : list Z :=
  match progress with Some r => Progress.processed_pages r | None => [] end.

(** The fragments of the existing output (lines 82-84). *)
Definition run_existing (fs0 : fs) (output_html : pystr) : gmap Z pystr :=
  match fs0 !! output_html with
  | Some f => extract_existing_content (read_text f)
  | None => ∅
  end.

(** The pieces of a call of [_process_pdf], once the progress is loaded. *)
Definition run_spec (pdf_path : pystr) (total : Z) (fs0 : fs) (d b : pystr) (start : Z)
    (progress : option Progress.ProgressRecord) : list piece * option py_exc :=
  loop_spec pdf_path total (run_processed progress) (run_existing fs0 (output_html_path d b))
    (range (resolve_start total start progress) total).

End Spec.

(** ** Lemmas on the specification *)

Lemma in_pages_snoc q p l : q <> p -> in_pages q (l ++ [p]) = in_pages q l.
Proof.
  intros Hq. unfold in_pages. rewrite existsb_app. cbn.
  destruct (Z.eqb_spec q p); [done|]. by rewrite orb_false_r.
Qed.

Lemma add_pages_app P l1 l2 : add_pages P (l1 ++ l2) = add_pages (add_pages P l1) l2.
Proof. unfold add_pages. by rewrite foldl_app. Qed.

Lemma fresh_pages_cons x xs :
  fresh_pages (x :: xs) = (if is_fresh x then [piece_page x] else []) ++ fresh_pages xs.
Proof. unfold fresh_pages. cbn. by destruct (is_fresh x). Qed.

Lemma last_fresh_prefix_none xs : last_fresh_prefix xs = None -> fresh_pages xs = [].
Proof.
  induction xs as [|x xs IH]; cbn [last_fresh_prefix]; [done|].
  rewrite fresh_pages_cons. destruct (last_fresh_prefix xs); [done|].
  rewrite IH by done. by destruct (is_fresh x).
Qed.

Lemma last_fresh_cons x xs :
  last_fresh (x :: xs)
  = match last_fresh xs with
    | Some q => Some q
    | None => if is_fresh x then Some (piece_page x) else None
    end.
Proof.
  unfold last_fresh. rewrite fresh_pages_cons.
  destruct (last (fresh_pages xs)) eqn:E.
  - rewrite last_app. by rewrite E.
  - apply last_None in E. rewrite E. by destruct (is_fresh x).
Qed.

Lemma lookup_write_opt_ne k k' f m : k <> k' -> write_opt k f m !! k' = m !! k'.
Proof. intros Hk. destruct f; cbn; [by rewrite lookup_insert_ne|done]. Qed.

Lemma lookup_write_opt_some k f m : f <> None -> write_opt k f m !! k = f.
Proof. intros Hf. destruct f; [|done]. cbn. by rewrite lookup_insert_eq. Qed.

Lemma html_file_some P T c : T <> 0 -> html_file P T c <> None.
Proof.
  intros HT. unfold html_file, html_document, Progress.percentage.
  by destruct (Z.eqb_spec T 0).
Qed.

Lemma progress_file_some T P q : T <> 0 -> progress_file T P q <> None.
Proof.
  intros HT. unfold progress_file, Progress.progress_data, Progress.percentage.
  by destruct (Z.eqb_spec T 0).
Qed.

#[export] Hint Resolve html_file_some progress_file_some : ocr.

Lemma last_fresh_prefix_prefix xs ys : last_fresh_prefix xs = Some ys -> ys `prefix_of` xs.
Proof.
  revert ys; induction xs as [|x xs IH]; intros ys; cbn [last_fresh_prefix]; [done|].
  destruct (last_fresh_prefix xs) as [l|].
  - intros [= <-]. apply prefix_cons. by apply IH.
  - destruct (is_fresh x); [intros [= <-]; apply prefix_cons, prefix_nil|done].
Qed.

Lemma last_range_0 total : 0 < total -> last (range 0 total) = Some (total - 1).
Proof.
  intros Ht. unfold range. replace (total - 0) with ((total - 1) + 1) by lia.
  rewrite seqZ_app by lia. rewrite (seqZ_cons (0 + (total - 1)) 1) by lia.
  rewrite (seqZ_nil _ (Z.pred 1)) by lia.
  by rewrite last_app.
Qed.

(** A relation between a prefix of a list and a list carries over to the
    prefixes of the second list. *)
Lemma Forall2_take_prefix {A B} (R : A -> B -> Prop) (l : list A) (xs ys : list B) :
  Forall2 R (take (length xs) l) xs -> ys `prefix_of` xs -> Forall2 R (take (length ys) l) ys.
Proof.
  intros H [zs ->]. revert l H. induction ys as [|y ys IH]; intros l H; [constructor|].
  destruct l as [|a l]; cbn in H; inversion H; subst. cbn. constructor; auto.
Qed.

Lemma last_fresh_prefix_all_fresh (f : Z -> pystr) pages :
  pages <> [] ->
  last_fresh_prefix (map (fun p => Fresh p (f p)) pages) = Some (map (fun p => Fresh p (f p)) pages).
Proof.
  induction pages as [|p ps IH]; intros Hne; [done|]. cbn [map last_fresh_prefix].
  destruct ps as [|q ps]; [done|]. by rewrite IH.
Qed.

Lemma concat_fresh_pages (g : Z -> pystr) T pages :
  concat (map piece_text (map (fun p => Fresh p (page_fragment (g p) (p + 1) T)) pages))
  = render_pages (map (fun p => (g p, p + 1)) pages) T.
Proof. unfold render_pages. by rewrite !map_map. Qed.

(** The extraction of the fragments of [pages], looked up at [k]. *)
Lemma extract_pages_lookup (g : Z -> pystr) pages (m0 : gmap Z pystr) k :
  foldl (fun (m : gmap Z pystr) '(c, n) => <[n - 1 := recovered_fragment c]> m) m0
    (map (fun p => (g p, p + 1)) pages) !! k
  = if bool_decide (k ∈ pages) then Some (recovered_fragment (g k)) else m0 !! k.
Proof.
  revert m0; induction pages as [|p ps IH]; intros m0; cbn [map foldl].
  { by rewrite bool_decide_false by set_solver. }
  rewrite IH. replace (p + 1 - 1) with p by lia.
  destruct (decide (k ∈ ps)) as [Hk|Hk].
  - rewrite !bool_decide_true by set_solver. done.
  - rewrite (bool_decide_false (k ∈ ps)) by done. rewrite lookup_insert.
    destruct (decide (p = k)) as [->|Hpk].
    + by rewrite bool_decide_true by set_solver.
    + rewrite bool_decide_false by set_solver. done.
Qed.

Section Refinement.
Context `{Recognizer}.

(** Writing the progress file and the output cannot raise once the page
    count is non-zero: the percentage is then defined. *)
Lemma update_progress_file_ok o m pf q :
  total_pages o <> 0 ->
  update_progress_file o m pf (Some q)
  = Ok (write_opt pf (progress_file (total_pages o) (processed_pages o) q) m).
Proof.
  intros HT. unfold update_progress_file, progress_file, Progress.progress_data, Progress.percentage.
  by destruct (Z.eqb_spec (total_pages o) 0).
Qed.

Lemma save_html_file_ok o m path c :
  total_pages o <> 0 ->
  save_html_file o m path c
  = Ok (write_opt path (html_file (processed_pages o) (total_pages o) c) m).
Proof.
  intros HT. unfold save_html_file, html_file, html_document, Progress.percentage.
  by destruct (Z.eqb_spec (total_pages o) 0).
Qed.

Lemma page_piece_snoc pdf_path T P existing p q :
  q <> p ->
  page_piece pdf_path T (P ++ [p]) existing q = page_piece pdf_path T P existing q.
Proof. intros Hq. unfold page_piece. by rewrite in_pages_snoc. Qed.

Lemma loop_spec_add pdf_path T P existing p ps :
  Forall (fun q => q <> p) ps ->
  loop_spec pdf_path T (add_pages P [p]) existing ps = loop_spec pdf_path T P existing ps.
Proof.
  intros Hps. cbn [add_pages foldl]. destruct (in_pages p P); [done|].
  induction Hps as [|q ps Hq Hps IH]; [done|]. cbn [loop_spec].
  by rewrite page_piece_snoc, IH.
Qed.

Lemma page_piece_page pdf_path T P existing p x :
  page_piece pdf_path T P existing p = Ok x -> piece_page x = p.
Proof. unfold page_piece. repeat case_match; intros; by simplify_eq. Qed.

(** The pieces are those the code computes for a prefix of the pages, in
    order: each is [page_piece] of its page. *)
Lemma loop_spec_pieces pdf_path T P existing pages :
  let xs := (loop_spec pdf_path T P existing pages).1 in
  Forall2 (fun p x => page_piece pdf_path T P existing p = Ok x) (take (length xs) pages) xs.
Proof.
  induction pages as [|p ps IH]; cbn [loop_spec]; [constructor|].
  destruct (page_piece pdf_path T P existing p) as [x|e] eqn:Hx; [|constructor].
  destruct (loop_spec pdf_path T P existing ps) as [xs err]. cbn in *. by constructor.
Qed.

Variables (pdf_path output_html progress_path : pystr) (existing : gmap Z pystr).

(** One iteration of the loop against [page_piece]: the page's piece is
    appended to the accumulator and, for a fresh page, the processed list
    grows and the progress file and the output are rewritten; an exception
    of the service stops the loop with the state unchanged. *)
Lemma pdf_page_spec p st :
  total_pages (obj st) <> 0 ->
  let T := total_pages (obj st) in
  let P := processed_pages (obj st) in
  match page_piece pdf_path T P existing p with
  | Raise e => exists st',
      pdf_page pdf_path output_html progress_path existing p st = Fail st' e
      /\ files st' = files st /\ all_content st' = all_content st
      /\ total_pages (obj st') = T /\ processed_pages (obj st') = P
  | Ok x => exists st',
      pdf_page pdf_path output_html progress_path existing p st = Continue st'
      /\ total_pages (obj st') = T
      /\ all_content st' = all_content st ++ piece_text x
      /\ processed_pages (obj st') = add_pages P (if is_fresh x then [p] else [])
      /\ files st' = if is_fresh x
                     then write_opt output_html
                            (html_file (add_pages P [p]) T (all_content st ++ piece_text x))
                            (write_opt progress_path (progress_file T (add_pages P [p]) p) (files st))
                     else files st
  end.
Proof.
  intros HT T P. unfold page_piece, pdf_page. cbn [set_current_page processed_pages total_pages].
  fold P T. cbn [add_pages foldl].
  destruct (in_pages p P) eqn:Hin; destruct (existing !! p) as [frag|];
    try (eexists; split; [reflexivity|]; cbn; by rewrite ?app_nil_r);
    destruct (process_page_content _ _ _) as [c|e];
    try (eexists; split; [reflexivity|]; by cbn);
    rewrite update_progress_file_ok by done; rewrite save_html_file_ok by done;
    (eexists; split; [reflexivity|]); cbn; rewrite ?Hin; done.
Qed.

(** The loop writes no file other than the output and the progress file. *)
Lemma update_progress_file_other o m pf l m' k :
  k <> pf -> update_progress_file o m pf l = Ok m' -> m' !! k = m !! k.
Proof.
  intros Hk. unfold update_progress_file. destruct (Progress.progress_data _ _ _); [|done].
  intros [= <-]. by rewrite lookup_insert_ne.
Qed.

Lemma save_html_file_other o m path c m' k :
  k <> path -> save_html_file o m path c = Ok m' -> m' !! k = m !! k.
Proof.
  intros Hk. unfold save_html_file. destruct (html_document _ _ _); [|done].
  intros [= <-]. by rewrite lookup_insert_ne.
Qed.

Lemma pdf_loop_files_other pages st k :
  k <> output_html -> k <> progress_path ->
  files (step_state (pdf_loop pdf_path output_html progress_path existing pages st)) !! k
  = files st !! k.
Proof.
  intros Ho Hp. revert st; induction pages as [|p ps IH]; intros st; [done|].
  cbn [pdf_loop]. unfold pdf_page.
  repeat case_match; simplify_eq; cbn [step_state files]; rewrite ?IH; cbn [files]; try done;
    repeat match goal with
    | H : update_progress_file _ _ _ _ = Ok _ |- _ => apply (update_progress_file_other _ _ _ _ _ k Hp) in H
    | H : save_html_file _ _ _ _ = Ok _ |- _ => apply (save_html_file_other _ _ _ _ _ k Ho) in H
    end; congruence.
Qed.

(** Without a processed list every page is sent to the service: when no
    page raises, the fresh pages are all the pages. *)
Lemma loop_spec_all_fresh T pages xs :
  loop_spec pdf_path T [] existing pages = (xs, None) -> fresh_pages xs = pages.
Proof.
  revert xs; induction pages as [|p ps IH]; intros xs; cbn [loop_spec]; [by intros [= <-]|].
  unfold page_piece at 1. cbn [in_pages existsb].
  destruct (process_page_content _ _ _) as [c|e]; [|done].
  destruct (loop_spec pdf_path T [] existing ps) as [xs' err] eqn:E.
  intros [= <- ->]. rewrite fresh_pages_cons. cbn. f_equal. by apply IH.
Qed.

(** A service that answers every page: the specification sends every page
    and meets no exception. *)
Lemma loop_spec_answered (text_of : Z -> pystr) T pages :
  (forall p, p ∈ pages -> generate_content prompt (PdfPage pdf_path p) = Ok (RespText (text_of p))) ->
  loop_spec pdf_path T [] existing pages
  = (map (fun p => Fresh p (page_fragment (clean_str (text_of p)) (p + 1) T)) pages, None).
Proof.
  induction pages as [|p ps IH]; intros Hans; [done|]. cbn [loop_spec].
  unfold page_piece at 1. cbn [in_pages existsb]. unfold process_page_content.
  rewrite Hans by set_solver. cbn [clean_text]. rewrite IH by (intros; apply Hans; set_solver).
  done.
Qed.

Hypothesis Hpaths : output_html <> progress_path.

(** The loop refines [loop_spec]: on a strictly increasing list of pages
    and a non-zero page count, the accumulator is the concatenation of the
    pieces, the processed list is extended by the fresh pages, the output
    holds the document of the pieces up to the last fresh one and the
    progress file the record written for the last fresh page, and the loop
    fails exactly when the specification meets an exception. *)
Lemma pdf_loop_refines pages st :
  (pages <> [] -> total_pages (obj st) <> 0) ->
  StronglySorted Z.lt pages ->
  let T := total_pages (obj st) in
  let P := processed_pages (obj st) in
  let '(xs, err) := loop_spec pdf_path T P existing pages in
  let r := pdf_loop pdf_path output_html progress_path existing pages st in
  total_pages (obj (step_state r)) = T
  /\ all_content (step_state r) = all_content st ++ concat (map piece_text xs)
  /\ processed_pages (obj (step_state r)) = add_pages P (fresh_pages xs)
  /\ files (step_state r) !! output_html
     = match last_fresh_prefix xs with
       | None => files st !! output_html
       | Some ys => html_file (add_pages P (fresh_pages xs)) T
                      (all_content st ++ concat (map piece_text ys))
       end
  /\ files (step_state r) !! progress_path
     = match last_fresh xs with
       | None => files st !! progress_path
       | Some q => progress_file T (add_pages P (fresh_pages xs)) q
       end
  /\ match r with Continue _ => err = None | Fail _ e => err = Some e end.
Proof.
  revert st. induction pages as [|p ps IH]; intros st HT Hsort; cbv zeta.
  { cbn. rewrite app_nil_r. by repeat split. }
  apply StronglySorted_inv in Hsort as [Hsort Hlt].
  pose proof (pdf_page_spec p st (HT ltac:(done))) as Hp. cbv zeta in Hp.
  set (T := total_pages (obj st)) in *. set (P := processed_pages (obj st)) in *.
  cbn [loop_spec pdf_loop].
  destruct (page_piece pdf_path T P existing p) as [x|e] eqn:Hx.
  2:{ destruct Hp as (st' & -> & Hf & Ha & Ht & Hpr). cbn. rewrite Hf, Ha, Ht, Hpr, app_nil_r. by repeat split. }
  destruct Hp as (st' & -> & Ht & Ha & Hpr & Hf).
  apply page_piece_page in Hx as Hpage.
  specialize (IH st' ltac:(rewrite Ht; auto) Hsort). cbn zeta in IH. rewrite Ht, Hpr in IH.
  replace (loop_spec pdf_path T (add_pages P (if is_fresh x then [p] else [])) existing ps)
    with (loop_spec pdf_path T P existing ps) in IH
    by (destruct (is_fresh x); [symmetry; apply loop_spec_add; eapply Forall_impl; [exact Hlt|]; intros; lia|done]).
  destruct (loop_spec pdf_path T P existing ps) as [xs err].
  destruct IH as (IHt & IHa & IHp & IHo & IHj & IHe).
  rewrite <- add_pages_app in IHp, IHo, IHj.
  rewrite fresh_pages_cons, Hpage. cbn [last_fresh_prefix map concat].
  rewrite last_fresh_cons, Hpage.
  repeat split; [done| by rewrite IHa, Ha, app_assoc | done | | | done].
  - rewrite IHo. destruct (last_fresh_prefix xs) as [ys|] eqn:Hl.
    + cbn [map concat]. by rewrite Ha, app_assoc.
    + rewrite (last_fresh_prefix_none xs Hl), app_nil_r, Hf.
      destruct (is_fresh x); [|done]. cbn [map concat]. rewrite app_nil_r.
      apply lookup_write_opt_some, html_file_some, HT. done.
  - rewrite IHj. destruct (last_fresh xs) eqn:Hl; [done|].
    unfold last_fresh in Hl. apply last_None in Hl. rewrite Hl, app_nil_r, Hf.
    destruct (is_fresh x); [|done].
    rewrite lookup_write_opt_ne by done.
    apply lookup_write_opt_some, progress_file_some, HT. done.
Qed.

End Refinement.

Section Run.
Context `{Recognizer}.
Variables (o0 : GeminiOCR) (fs0 : fs) (pdf_path d b : pystr) (start total : Z)
  (prog : option Progress.ProgressRecord).
Hypothesis Hpdf : fs0 !! pdf_path = Some (PdfFile total).
Hypothesis Htotal : 0 < total.
Hypothesis Hload : load_progress fs0 (progress_file_path d b) = Ok prog.

(** [_process_pdf] once the PDF is open and the progress loaded. *)
Lemma process_pdf_loop :
  let cur := resolve_start total start prog in
  let st0 := {| obj := set_processed_pages (set_current_page (set_total_pages o0 total) cur)
                         (run_processed prog);
                files := fs0; all_content := []; last_processed := None; trace := [] |} in
  let out := output_html_path d b in
  process_pdf o0 fs0 pdf_path d b start
  = match pdf_loop pdf_path out (progress_file_path d b) (run_existing fs0 out)
            (range cur total) st0 with
    | Continue st =>
        {| returned := Some out; final_obj := obj st; final_files := files st;
           final_trace := trace st; ended := Completed |}
    | Fail st e =>
        if bool_decide (all_content st = []) then
          {| returned := None; final_obj := obj st; final_files := files st;
             final_trace := trace st; ended := Interrupted (current_page (obj st))
                                                 (current_page (obj st) + 1) e |}
        else
          match save_html_file (obj st) (files st) out (all_content st) with
          | Ok fs1 =>
              {| returned := Some out; final_obj := obj st; final_files := fs1;
                 final_trace := trace st ++ [Write out];
                 ended := Interrupted (current_page (obj st)) (current_page (obj st) + 1) e |}
          | Raise e' =>
              {| returned := None; final_obj := obj st; final_files := files st;
                 final_trace := trace st; ended := Aborted e' |}
          end
    end.
Proof. intros. unfold process_pdf. by rewrite Hpdf, Hload. Qed.

(** The statement of [process_pdf_output_file], proved once for the
    theorems below. *)
Lemma process_pdf_refines :
  let '(xs, err) := run_spec pdf_path total fs0 d b start prog in
  let run := process_pdf o0 fs0 pdf_path d b start in
  let processed := add_pages (run_processed prog) (fresh_pages xs) in
  let out := output_html_path d b in
  (ended run = Completed <-> err = None)
  /\ (ended run = Completed ->
      final_files run !! out
      = match last_fresh_prefix xs with
        | None => fs0 !! out
        | Some ys => html_file processed total (concat (map piece_text ys))
        end)
  /\ (ended run <> Completed -> concat (map piece_text xs) <> [] ->
      final_files run !! out = html_file processed total (concat (map piece_text xs)))
  /\ (ended run = Completed -> processed_pages (final_obj run) = processed).
Proof.
  rewrite process_pdf_loop. unfold run_spec. cbv zeta.
  pose proof (pdf_loop_refines pdf_path (output_html_path d b) (progress_file_path d b)
    (run_existing fs0 (output_html_path d b)) (output_paths_distinct d b)
    (range (resolve_start total start prog) total)
    {| obj := set_processed_pages (set_current_page (set_total_pages o0 total)
                (resolve_start total start prog)) (run_processed prog);
       files := fs0; all_content := []; last_processed := None; trace := [] |}) as R.
  cbn [obj files all_content total_pages processed_pages set_processed_pages
       set_current_page set_total_pages] in R.
  specialize (R (fun _ => ltac:(lia)) (seqZ_StronglySorted _ _)).
  destruct (loop_spec _ _ _ _ _) as [xs err].
  destruct (pdf_loop _ _ _ _ _ _) as [st|st e];
    destruct R as (Ht & Ha & Hp & Ho & Hj & He); cbn [step_state app] in *.
  - subst err. split; [done|]. split; [by intros _|]. split; [by intros []|]. by intros _.
  - subst err. case_bool_decide as Hc; cbn [ended final_files final_obj].
    { split; [done|]. split; [done|]. split; [|done]. intros _ Hne. by rewrite Ha in Hc. }
    rewrite save_html_file_ok by lia. cbn [ended final_files final_obj].
    split; [done|]. split; [done|]. split; [|done]. intros _ _.
    rewrite lookup_write_opt_some by (apply html_file_some; lia).
    by rewrite Hp, Ht, Ha.
Qed.

(** ** Theorems *)

(** C3: Refinement of a whole call of [_process_pdf] (a PDF with pages,
    its progress file loaded): the run completes exactly when the
    page-by-page specification meets no exception; after a completed run
    the output file holds the document of the pieces up to the last page
    sent to the service (it is untouched when no page was sent), so pages
    reused after that page are missing from it; after an interrupted run
    that accumulated content, the output holds the document of all the
    pieces. *)
Theorem process_pdf_output_file :
  let '(xs, err) := run_spec pdf_path total fs0 d b start prog in
  let run := process_pdf o0 fs0 pdf_path d b start in
  let processed := add_pages (run_processed prog) (fresh_pages xs) in
  let out := output_html_path d b in
  (ended run = Completed <-> err = None)
  /\ (ended run = Completed ->
      final_files run !! out
      = match last_fresh_prefix xs with
        | None => fs0 !! out
        | Some ys => html_file processed total (concat (map piece_text ys))
        end)
  /\ (ended run <> Completed -> concat (map piece_text xs) <> [] ->
      final_files run !! out = html_file processed total (concat (map piece_text xs))).
Proof.
  pose proof process_pdf_refines as R. destruct (run_spec _ _ _ _ _ _ _).
  destruct R as (? & ? & ? & _). by split_and!.
Qed.

(** C4: A completed run writes only pages of its own range: the output
    file is either untouched, or the document, rendered with the final
    processed list, of the pieces the code computes for the first pages of
    [[start, total)] ([start] the resolved start page), each piece being
    [page_piece] of its own page (its reused fragment or its fresh
    transcription).  A resumed run starts after the last page of the
    progress file, so the pages of the earlier runs are never in the
    output it leaves, although the processed list, and so the index, still
    holds them. *)
Theorem completed_output_only_from_start :
  let run := process_pdf o0 fs0 pdf_path d b start in
  let out := output_html_path d b in
  let cur := resolve_start total start prog in
  ended run = Completed ->
  final_files run !! out = fs0 !! out
  \/ exists ys,
       Forall2 (fun p x => page_piece pdf_path total (run_processed prog) (run_existing fs0 out) p
                           = Ok x)
         (take (length ys) (range cur total)) ys
       /\ final_files run !! out
          = html_file (processed_pages (final_obj run)) total (concat (map piece_text ys)).
Proof.
  intros run out cur Hc. pose proof process_pdf_refines as R.
  pose proof (loop_spec_pieces pdf_path total (run_processed prog)
                (run_existing fs0 out) (range cur total)) as Hpc.
  unfold run_spec in R. fold out cur run in R.
  destruct (loop_spec _ _ _ _ _) as [xs err]. cbn [fst] in Hpc.
  destruct R as (_ & Ho & _ & Hp). rewrite (Ho Hc), (Hp Hc).
  destruct (last_fresh_prefix xs) as [ys|] eqn:Hl; [right|by left].
  exists ys. split; [|done].
  apply (Forall2_take_prefix _ _ xs); [done|]. by apply last_fresh_prefix_prefix.
Qed.

(** C5: Liveness and completeness of a first run: with no progress file
    and a service that answers every page of the range (with a text whose
    cleaning holds no footer marker), the run completes and its output
    file holds exactly the pages of [[start, total)], [start] the clamped
    start page: the extraction gives each such page its fragment and no
    other page. *)
Theorem first_run_with_answering_service (text_of : Z -> pystr) :
  prog = None ->
  (forall p, resolve_start total start prog <= p < total ->
     generate_content prompt (PdfPage pdf_path p) = Ok (RespText (text_of p))
     /\ occurs footer_marker (clean_str (text_of p)) = false) ->
  let run := process_pdf o0 fs0 pdf_path d b start in
  ended run = Completed
  /\ exists doc, final_files run !! output_html_path d b = Some (TextFile doc)
     /\ forall p, extract_existing_content doc !! p
                 = if bool_decide (resolve_start total start prog <= p < total)
                   then Some (recovered_fragment (clean_str (text_of p))) else None.
Proof.
  intros Hprog Hans run. pose proof process_pdf_refines as R.
  unfold run_spec in R. fold run in R. subst prog.
  set (cur := resolve_start total start None) in *.
  assert (Hcur : 0 <= cur < total) by (unfold cur, resolve_start; lia).
  assert (Hin : forall p, p ∈ range cur total <-> cur <= p < total)
    by (intros p; unfold range; rewrite elem_of_seqZ; lia).
  cbn [run_processed] in R.
  rewrite (loop_spec_answered _ _ text_of) in R by (intros p Hp; apply Hans, Hin, Hp).
  destruct R as (Hc & Ho & _). assert (Hend : ended run = Completed) by by apply Hc.
  split; [done|]. rewrite (Ho Hend), last_fresh_prefix_all_fresh, concat_fresh_pages.
  2:{ unfold range. rewrite seqZ_cons by lia. done. }
  unfold html_file. destruct (html_document _ _ _) as [doc|] eqn:Hd.
  2:{ unfold html_document, Progress.percentage in Hd. destruct (Z.eqb_spec total 0); [lia|done]. }
  exists doc. split; [done|]. intros p.
  assert (HF : Forall (fun '(c, n) => 0 <= n /\ occurs footer_marker c = false)
                 (map (fun p => (clean_str (text_of p), p + 1)) (range cur total))).
  { apply Forall_forall. intros [c n] (q & [= -> ->] & Hq)%list_elem_of_fmap.
    apply Hin in Hq. split; [lia | apply Hans, Hq]. }
  rewrite (extract_html_document _ _ _ doc HF Hd).
  rewrite extract_pages_lookup, lookup_empty.
  by rewrite (bool_decide_ext _ _ (Hin p)).
Qed.

End Run.

(** C8: Idempotence (spec, section 8): once a run that found no progress
    file has completed, running again with no start page sends no page to
    the service, completes, and leaves every file as it was, whatever the
    two services answer. *)
Theorem rerun_after_fresh_completion_noop (R1 R2 : Recognizer) o0 fs0 file_path total :
  is_pdf_path file_path = true ->
  fs0 !! file_path = Some (PdfFile total) -> 0 < total ->
  fs0 !! progress_file_path (output_dir file_path) (file_base file_path) = None ->
  let run1 := @process_document R1 o0 fs0 file_path 0 in
  let run2 := @process_document R2 (final_obj run1) (final_files run1) file_path 0 in
  ended run1 = Completed ->
  ended run2 = Completed /\ final_trace run2 = [] /\ final_files run2 = final_files run1.
Proof.
  intros Hpdf Hfile Ht Hnone. cbv zeta. unfold process_document. rewrite Hpdf.
  set (d := output_dir file_path) in *. set (b := file_base file_path) in *.
  destruct (pdf_path_not_outputs file_path d b Hpdf) as [Hno Hnp].
  assert (Hload : load_progress fs0 (progress_file_path d b) = Ok None)
    by (unfold load_progress; by rewrite Hnone).
  rewrite (@process_pdf_loop R1 o0 fs0 file_path d b 0 total None Hfile Hload).
  replace (resolve_start total 0 None) with 0 by (unfold resolve_start; lia).
  match goal with |- context [@pdf_loop _ ?x1 ?x2 ?x3 ?x4 ?pg ?st] =>
    pose proof (@pdf_loop_refines R1 x1 x2 x3 x4 (output_paths_distinct d b) pg st) as R;
    pose proof (@pdf_loop_files_other R1 x1 x2 x3 x4 pg st file_path Hno Hnp) as Hframe
  end.
  cbn [obj files all_content total_pages processed_pages set_processed_pages
       set_current_page set_total_pages run_processed] in R, Hframe.
  specialize (R (fun _ => ltac:(lia)) (seqZ_StronglySorted _ _)).
  destruct (loop_spec _ _ _ _ _) as [xs err] eqn:Hspec.
  destruct (@pdf_loop R1 _ _ _ _ _ _) as [st|st e];
    cbn [step_state] in R, Hframe; destruct R as (_ & _ & _ & _ & Hj & He).
  2:{ intros Hc. exfalso. case_bool_decide; [done|].
      destruct (save_html_file _ _ _ _); discriminate. }
  intros _. cbn [final_obj final_files]. subst err.
  apply loop_spec_all_fresh in Hspec.
  unfold last_fresh in Hj. rewrite Hspec, last_range_0 in Hj by done.
  unfold progress_file, Progress.progress_data in Hj.
  destruct (Progress.percentage _ _) as [pct|] eqn:Hpct;
    [|unfold Progress.percentage in Hpct; destruct (Z.eqb_spec total 0); [lia|done]].
  set (r := {| Progress.total_pages := total; Progress.last_page := Some (total - 1) |}) in Hj.
  rewrite (@process_pdf_loop R2 (obj st) (files st) file_path d b 0 total (Some r))
    by first [by rewrite Hframe | unfold load_progress; by rewrite Hj].
  replace (resolve_start total 0 (Some r)) with total
    by (unfold resolve_start, r; cbn [Progress.last_page];
        replace (Z.max 0 (Z.min 0 (total - 1))) with 0 by lia; cbn; lia).
  unfold range. rewrite Z.sub_diag. done.
Qed.

Lemma rerun_after_fresh_completion_noop_witness :
  (is_pdf_path demo_pdf = true /\ demo_fs !! demo_pdf = Some (PdfFile 3) /\ 0 < 3
   /\ demo_fs !! progress_file_path (output_dir demo_pdf) (file_base demo_pdf) = None) /\
  let run1 := @process_document stub_recognizer init_ocr demo_fs demo_pdf 0 in
  let run2 := @process_document (failing_recognizer 0) (final_obj run1) (final_files run1)
                demo_pdf 0 in
  ended run1 = Completed /\
  (ended run2 = Completed /\ final_trace run2 = [] /\ final_files run2 = final_files run1).
Proof.
  split; [split; [reflexivity | split; [reflexivity | split; [lia | reflexivity]]]|].
  intros run1 run2.
  assert (Hc : ended run1 = Completed) by (vm_compute; reflexivity).
  split; [exact Hc|].
  exact (rerun_after_fresh_completion_noop stub_recognizer (failing_recognizer 0) init_ocr
           demo_fs demo_pdf 3 eq_refl eq_refl ltac:(lia) eq_refl Hc).
Defined.

Lemma first_run_with_answering_service_witness :
  let d := output_dir demo_pdf in
  let b := file_base demo_pdf in
  ((demo_fs !! demo_pdf = Some (PdfFile 3) /\ 0 < 3
    /\ load_progress demo_fs (progress_file_path d b) = Ok None) /\ (@None Progress.ProgressRecord) = None
   /\ (forall p, resolve_start 3 1 None <= p < 3 ->
         @generate_content stub_recognizer prompt (PdfPage demo_pdf p) = Ok (RespText (page_text p))
         /\ occurs footer_marker (clean_str (page_text p)) = false)) /\
  let run := @process_pdf stub_recognizer init_ocr demo_fs demo_pdf d b 1 in
  ended run = Completed
  /\ exists doc, final_files run !! output_html_path d b = Some (TextFile doc)
     /\ forall p, extract_existing_content doc !! p
                 = if bool_decide (resolve_start 3 1 None <= p < 3)
                   then Some (recovered_fragment (clean_str (page_text p))) else None.
Proof.
  intros d b.
  assert (Hans : forall p, resolve_start 3 1 None <= p < 3 ->
    @generate_content stub_recognizer prompt (PdfPage demo_pdf p) = Ok (RespText (page_text p))
    /\ occurs footer_marker (clean_str (page_text p)) = false).
  { intros p Hp. split; [reflexivity|].
    assert (p = 1 \/ p = 2) as [-> | ->] by (change (resolve_start 3 1 None) with 1 in Hp; lia); vm_compute; reflexivity. }
  split; [split; [split; [reflexivity | split; [lia | reflexivity]] | split; [reflexivity | exact Hans]]|].
  exact (@first_run_with_answering_service stub_recognizer init_ocr demo_fs demo_pdf d b 1 3 None
           eq_refl ltac:(lia) eq_refl page_text eq_refl Hans).
Defined.

Lemma process_pdf_output_file_witness :
  let d := output_dir demo_pdf in
  let b := file_base demo_pdf in
  (demo_fs !! demo_pdf = Some (PdfFile 3) /\ 0 < 3
   /\ load_progress demo_fs (progress_file_path d b) = Ok None) /\
  let '(xs, err) := @run_spec stub_recognizer demo_pdf 3 demo_fs d b 0 None in
  let run := @process_pdf stub_recognizer init_ocr demo_fs demo_pdf d b 0 in
  let processed := add_pages (run_processed None) (fresh_pages xs) in
  let out := output_html_path d b in
  (ended run = Completed <-> err = None)
  /\ (ended run = Completed ->
      final_files run !! out
      = match last_fresh_prefix xs with
        | None => demo_fs !! out
        | Some ys => html_file processed 3 (concat (map piece_text ys))
        end)
  /\ (ended run <> Completed -> concat (map piece_text xs) <> [] ->
      final_files run !! out = html_file processed 3 (concat (map piece_text xs))).
Proof.
  intros d b. split; [split; [reflexivity | split; [lia | reflexivity]]|].
  apply (@process_pdf_output_file stub_recognizer); [reflexivity | lia | reflexivity].
Defined.

Lemma completed_output_only_from_start_witness :
  let d := output_dir demo_pdf in
  let b := file_base demo_pdf in
  (demo_fs !! demo_pdf = Some (PdfFile 3) /\ 0 < 3
   /\ load_progress demo_fs (progress_file_path d b) = Ok None) /\
  (let run := @process_pdf stub_recognizer init_ocr demo_fs demo_pdf d b 1 in
   let out := output_html_path d b in
   let cur := resolve_start 3 1 None in
   ended run = Completed ->
   final_files run !! out = demo_fs !! out
   \/ exists ys,
        Forall2 (fun p x => @page_piece stub_recognizer demo_pdf 3 (run_processed None)
                              (run_existing demo_fs out) p = Ok x)
          (take (length ys) (range cur 3)) ys
        /\ final_files run !! out
           = html_file (processed_pages (final_obj run)) 3 (concat (map piece_text ys))).
Proof.
  intros d b. split; [split; [reflexivity | split; [lia | reflexivity]]|].
  apply (@completed_output_only_from_start stub_recognizer); [reflexivity | lia | reflexivity].
Defined.

End LoopSpec.
