(* ===== verification/Script.v ===== *)
(** * The module-level script of src/main.py (lines 638-645).

    The script builds an object with a placeholder key and calls
    [process_document] on the placeholder path
    [caminho_arquivo.pdf ou png]; the lines after it are comments.  The
    key only configures the recognition library ([__init__], lines
    13-17), so the object is [init_ocr].

    Theorem: whatever the files and the service, the call returns [None],
    changes no file and ends in an exception: the extension of the path is
    [pdf ou png], so it is opened as an image, and an image either does
    not exist or fails on the page count of a fresh object. *)

From Stdlib Require Import ZArith String Lia.
From stdpp Require Import base list gmap.
From S2P Require Import Prelude Normalizer Progress Render Paths Pipeline.

Open Scope Z_scope.

Module Script.
Import Normalizer Render Paths Pipeline.

(** [api_key = "suachave"] (line 638). *)
Definition api_key : pystr := lit "suachave".

(** The path of the call of line 642. *)
Definition script_path : pystr := lit "caminho_arquivo.pdf ou png".

(** [ocr = GeminiOCR(api_key)]; [output = ocr.process_document(...)]. *)
Definition main_script `{Recognizer} (fs0 : fs) : outcome :=
  process_document init_ocr fs0 script_path 0.

(** ** Theorems *)

(** C16: The script never produces a transcript: whatever the files and
    the service, its call returns [None], leaves the files as they were
    and ends in an exception caught by [process_document]. *)
Theorem main_script_fails `{Recognizer} fs0 :
  let out := main_script fs0 in
  returned out = None /\ final_files out = fs0 /\ exists e, ended out = Aborted e.
Proof.
  unfold main_script, process_document.
  replace (is_pdf_path script_path) with false by (vm_compute; reflexivity).
  destruct (fs0 !! script_path) as [[]|]; cbn; eauto.
  apply process_technical_fresh_aborts.
Qed.

End Script.
