(* ===== verification/Console.v ===== *)
(** * Console: what [src/main.py] prints.

    [print] changes no state of the program, so the console is kept
    beside the runs of [Pipeline]: a writer ([logged], a value and the
    lines printed, after [Writer.M] of rupicola) in which [print s] adds
    the line [s].  [pdf_page_log], [pdf_loop_log], [process_pdf_log] and
    [process_document_log] are [_process_pdf]'s loop body, loop, the whole
    method and [process_document] with their [print] calls (lines 38, 71-79,
    98, 102, 131-139, 143-156, 168, 189) at the places the source makes
    them; the loop body reuses [Pipeline.pdf_page] for the state, since the
    prints of one iteration depend only on its branch and whether it
    completed.

    [str(e)] of an exception is [exc_str], a section variable: the text of
    the abstracted exceptions (the service's, [OSError]'s file name) is not
    modelled, and no theorem depends on it.

    Erasing the console gives back [process_pdf] and [process_document]
    ([process_document_log_val]).  Theorems: the lines announcing a page sent to the service
    are exactly the recognition calls of the trace, in order, numbered
    from 1; an interrupted run prints the page it stopped at and a resume
    command whose [start_page] is the hint of its report, the same number,
    which is 1-based in the first line and 0-based in the command. *)

From Stdlib Require Import ZArith String Lia.
From stdpp Require Import base list gmap.
From S2P Require Import Prelude Normalizer Progress Render Merger Paths Pipeline Script.

Open Scope Z_scope.

Module Console.
Import Normalizer Render Merger Paths Pipeline Script.

(** ** The writer *)

Record logged (A : Type) := Logged { val : A; out : list pystr }.
Arguments Logged {A} val out.
Arguments val {A} l.
Arguments out {A} l.

Global Instance logged_ret : MRet logged := fun A a => Logged a [].
Global Instance logged_bind : MBind logged :=
  fun A B k m => let r := k (val m) in Logged (val r) (out m ++ out r).

(** [print(s)]: the line [s]. *)
Definition print (s : pystr) : logged unit := Logged tt [s].

(** ** The messages *)

(** [str(n)] of a page number shown to the user, [page_num + 1]. *)
Definition page_str (p : Z) : pystr := str_of_Z (p + 1).

Section Messages.
Variable exc_str : py_exc -> pystr.

(** Line 38. *)
Definition msg_document_error (e : py_exc) : pystr :=
  lit "Erro no processamento: " ++ exc_str e.
(** Lines 71-73, printed after [current_page] is set to [last_page + 1]. *)
Definition msg_continuing (cur : Z) : pystr :=
  lit "Continuando de onde parou: página " ++ page_str cur.
(** Lines 77-79. *)
Definition msg_start (total cur : Z) : pystr :=
  lit "Iniciando processamento do PDF com " ++ str_of_Z total
  ++ lit " páginas a partir da página " ++ page_str cur.
(** Line 98. *)
Definition msg_skipped (p : Z) : pystr :=
  lit "Página " ++ page_str p ++ lit " já processada, pulando...".
(** Line 102. *)
Definition msg_processing (p total : Z) : pystr :=
  lit "Processando página " ++ page_str p ++ lit " de " ++ str_of_Z total ++ lit "...".
(** Lines 131-133. *)
Definition msg_page_saved (p : Z) : pystr :=
  lit "Página " ++ page_str p ++ lit " processada com sucesso! Progresso salvo.".
(** Lines 136-138. *)
Definition msg_complete (n total : Z) : pystr :=
  lit "Processamento completo! " ++ str_of_Z n ++ lit "/" ++ str_of_Z total
  ++ lit " páginas processadas.".
(** Line 139. *)
Definition msg_saved_at (output_html : pystr) : pystr :=
  lit "Arquivo HTML salvo em: " ++ output_html.
(** Line 168. *)
Definition msg_pdf_error (e : py_exc) : pystr :=
  lit "Erro ao processar PDF: " ++ exc_str e.
(** Line 189: [f.read()] of a file that is not UTF-8 text (a PDF or an
    image under the output name) raises [UnicodeDecodeError]. *)
Definition msg_extract_warning (decode_error : pystr) : pystr :=
  lit "Aviso: Não foi possível extrair conteúdo existente: " ++ decode_error.

(** Lines 143-156, the [except] of the loop. *)
Definition error_block (pdf_path : pystr) (st : run_state) (e : py_exc) : list pystr :=
  let o := obj st in
  [ [10] ++ lit "=== ERRO DURANTE O PROCESSAMENTO ===";
    lit "Erro: " ++ exc_str e;
    lit "Processamento interrompido na página " ++ page_str (current_page o) ++ lit ".";
    lit "Páginas processadas: " ++ str_of_Z (Z.of_nat (length (processed_pages o)))
      ++ lit "/" ++ str_of_Z (total_pages o);
    lit "Última página processada: "
      ++ match last_processed st with Some p => page_str p | None => lit "Nenhuma" end;
    lit "Para continuar o processamento use:";
    lit "ocr.process_document('" ++ pdf_path ++ lit "', start_page="
      ++ str_of_Z (current_page o + 1) ++ lit ")";
    lit "===================================" ++ [10] ].

End Messages.

(** The lines of line 102, which announce a page sent to the service. *)
Definition processing_prefix : pystr := lit "Processando página ".
Definition announced (console : list pystr) : list pystr :=
  List.filter (starts_with processing_prefix) console.

(** ** The runs with their console *)

Section WithRecognizer.
Context `{Recognizer}.
Variable exc_str : py_exc -> pystr.
(** [str(e)] of the [UnicodeDecodeError] of line 175. *)
Variable decode_error : pystr.

(** One iteration of the loop (lines 91-133): the skip message, or the
    message before the service call and, when the page was saved, the
    success message. *)
Definition pdf_page_log (pdf_path output_html progress_file : pystr)
    (existing : gmap Z pystr) (page_num : Z) (st : run_state) : logged step_result :=
  let o := set_current_page (obj st) page_num in
  let r := pdf_page pdf_path output_html progress_file existing page_num st in
  match in_pages page_num (processed_pages o), existing !! page_num with
  | true, Some _ => print (msg_skipped page_num) ;; mret r
  | _, _ =>
      print (msg_processing page_num (total_pages o)) ;;
      match r with
      | Continue _ => print (msg_page_saved page_num) ;; mret r
      | Fail _ _ => mret r
      end
  end.

Fixpoint pdf_loop_log (pdf_path output_html progress_file : pystr)
    (existing : gmap Z pystr) (pages : list Z) (st : run_state) : logged step_result :=
  match pages with
  | [] => mret (Continue st)
  | p :: ps =>
      r ← pdf_page_log pdf_path output_html progress_file existing p st;
      match r with
      | Continue st' => pdf_loop_log pdf_path output_html progress_file existing ps st'
      | Fail st' e => mret (Fail st' e)
      end
  end.

(** Lines 82-84 with [_extract_existing_content] (171-190). *)
Definition existing_log (fs0 : fs) (output_html : pystr) : logged (gmap Z pystr) :=
  match fs0 !! output_html with
  | Some (TextFile s) => mret (extract_existing_content s)
  | Some (JsonFile r) => mret (extract_existing_content (read_text (JsonFile r)))
  | Some _ => print (msg_extract_warning decode_error) ;; mret ∅
  | None => mret ∅
  end.

(** Whether lines 65-73 take the progress file's [last_page]. *)
Definition resumes (total start_page : Z) (progress : option Progress.ProgressRecord) : bool :=
  match progress with
  | Some r =>
      match Progress.last_page r with
      | Some _ => Z.max 0 (Z.min start_page (total - 1)) =? 0
      | None => false
      end
  | None => false
  end.

(** [_process_pdf] with its console. *)
Definition process_pdf_log (o0 : GeminiOCR) (fs0 : fs) (pdf_path out_dir base : pystr)
    (start_page : Z) : logged outcome :=
  let abort o e := {| returned := None; final_obj := o; final_files := fs0;
                      final_trace := []; ended := Aborted e |} in
  match fs0 !! pdf_path with
  | Some (PdfFile total) =>
      let o1 := set_total_pages o0 total in
      let output_html := output_html_path out_dir base in
      let progress_file := progress_file_path out_dir base in
      match load_progress fs0 progress_file with
      | Raise e =>
          print (msg_pdf_error exc_str e) ;;
          mret (abort (set_current_page o1 (Z.max 0 (Z.min start_page (total - 1)))) e)
      | Ok progress =>
          let processed := match progress with
                           | Some r => Progress.processed_pages r
                           | None => []
                           end in
          let cur := resolve_start total start_page progress in
          (if resumes total start_page progress then print (msg_continuing cur) else mret ()) ;;
          print (msg_start total cur) ;;
          let o2 := set_processed_pages (set_current_page o1 cur) processed in
          existing ← existing_log fs0 output_html;
          let st0 := {| obj := o2; files := fs0; all_content := [];
                        last_processed := None; trace := [] |} in
          r ← pdf_loop_log pdf_path output_html progress_file existing (range cur total) st0;
          match r with
          | Continue st =>
              print (msg_complete (Z.of_nat (length (processed_pages (obj st)))) total) ;;
              print (msg_saved_at output_html) ;;
              mret {| returned := Some output_html; final_obj := obj st; final_files := files st;
                      final_trace := trace st; ended := Completed |}
          | Fail st e =>
              let hint := current_page (obj st) + 1 in
              Logged () (error_block exc_str pdf_path st e) ;;
              if bool_decide (all_content st = []) then
                mret {| returned := None; final_obj := obj st; final_files := files st;
                        final_trace := trace st;
                        ended := Interrupted (current_page (obj st)) hint e |}
              else
                match save_html_file (obj st) (files st) output_html (all_content st) with
                | Ok fs1 =>
                    mret {| returned := Some output_html; final_obj := obj st; final_files := fs1;
                            final_trace := trace st ++ [Write output_html];
                            ended := Interrupted (current_page (obj st)) hint e |}
                | Raise e' =>
                    print (msg_pdf_error exc_str e') ;;
                    mret {| returned := None; final_obj := obj st; final_files := files st;
                            final_trace := trace st; ended := Aborted e' |}
                end
          end
      end
  | _ => print (msg_pdf_error exc_str OSError) ;; mret (abort o0 OSError)
  end.

(** [process_document] with its console: [_process_technical] prints
    nothing, and an exception it lets through, or the [OSError] of
    [Image.open], is printed by the [except] of lines 37-39. *)
Definition process_document_log (o : GeminiOCR) (fs0 : fs) (file_path : pystr) (start_page : Z)
    : logged outcome :=
  if is_pdf_path file_path then
    process_pdf_log o fs0 file_path (output_dir file_path) (file_base file_path) start_page
  else
    match fs0 !! file_path with
    | Some ImageFile =>
        let run := process_technical o fs0 file_path in
        match ended run with
        | Aborted e => print (msg_document_error exc_str e) ;; mret run
        | _ => mret run
        end
    | _ => print (msg_document_error exc_str OSError) ;;
           mret {| returned := None; final_obj := o; final_files := fs0;
                   final_trace := []; ended := Aborted OSError |}
    end.

(** ** Lemmas *)

Lemma val_bind {A B} (m : logged A) (k : A -> logged B) : val (m ≫= k) = val (k (val m)).
Proof. done. Qed.

Lemma out_bind {A B} (m : logged A) (k : A -> logged B) :
  out (m ≫= k) = out m ++ out (k (val m)).
Proof. done. Qed.

Lemma pdf_page_log_val pdf_path output_html progress_file existing p st :
  val (pdf_page_log pdf_path output_html progress_file existing p st)
  = pdf_page pdf_path output_html progress_file existing p st.
Proof. unfold pdf_page_log. by repeat case_match. Qed.

Lemma pdf_loop_log_val pdf_path output_html progress_file existing pages st :
  val (pdf_loop_log pdf_path output_html progress_file existing pages st)
  = pdf_loop pdf_path output_html progress_file existing pages st.
Proof.
  revert st. induction pages as [|p ps IH]; intros st; [done|].
  cbn [pdf_loop_log pdf_loop]. rewrite val_bind, pdf_page_log_val. by case_match.
Qed.

Lemma existing_log_val fs0 output_html :
  val (existing_log fs0 output_html)
  = match fs0 !! output_html with
    | Some f => extract_existing_content (read_text f)
    | None => ∅
    end.
Proof. unfold existing_log. by repeat case_match. Qed.

Lemma pdf_page_total pdf_path output_html progress_file existing p st :
  total_pages (obj (step_state (pdf_page pdf_path output_html progress_file existing p st)))
  = total_pages (obj st).
Proof. unfold pdf_page. by repeat case_match. Qed.

Ltac announced_simpl :=
  unfold announced, processing_prefix, msg_processing, msg_skipped, msg_page_saved;
  cbn [List.filter starts_with app Z.eqb Pos.eqb andb].

Lemma pdf_page_log_announced pdf_path output_html progress_file existing p st :
  let msg q := msg_processing q (total_pages (obj st)) in
  map msg (recognized (trace (step_state
             (pdf_page pdf_path output_html progress_file existing p st))))
  = map msg (recognized (trace st))
    ++ announced (out (pdf_page_log pdf_path output_html progress_file existing p st)).
Proof.
  intros msg. unfold pdf_page_log, pdf_page.
  repeat case_match; cbn [step_state trace mbind logged_bind mret logged_ret print out val];
    rewrite ?recognized_app, ?map_app; announced_simpl; cbn; rewrite ?app_nil_r; done.
Qed.

Lemma announced_app l1 l2 : announced (l1 ++ l2) = announced l1 ++ announced l2.
Proof.
  induction l1 as [|x l1 IH]; [done|]. unfold announced in *. cbn [List.filter app].
  by case_match; rewrite IH.
Qed.

Lemma pdf_loop_log_announced pdf_path output_html progress_file existing pages st :
  let msg q := msg_processing q (total_pages (obj st)) in
  let r := pdf_loop pdf_path output_html progress_file existing pages st in
  total_pages (obj (step_state r)) = total_pages (obj st)
  /\ map msg (recognized (trace (step_state r)))
     = map msg (recognized (trace st))
       ++ announced (out (pdf_loop_log pdf_path output_html progress_file existing pages st)).
Proof.
  cbv zeta. revert st. induction pages as [|p ps IH]; intros st; cbn [pdf_loop pdf_loop_log].
  - split; [done|]. by rewrite app_nil_r.
  - rewrite out_bind, pdf_page_log_val, announced_app.
    pose proof (pdf_page_log_announced pdf_path output_html progress_file existing p st) as Hp.
    pose proof (pdf_page_total pdf_path output_html progress_file existing p st) as Ht.
    destruct (pdf_page _ _ _ _ p st) as [st'|st' e]; cbn [step_state] in *.
    + destruct (IH st') as [Ht' Hl]. rewrite Ht in Ht', Hl. split; [done|].
      by rewrite Hl, Hp, app_assoc.
    + split; [done|]. by rewrite Hp, app_nil_r.
Qed.

(** ** Theorems *)

(** The console changes nothing: the value of [process_pdf_log] is
    [process_pdf]. *)
Lemma process_pdf_log_val o0 fs0 pdf_path d b start :
  val (process_pdf_log o0 fs0 pdf_path d b start) = process_pdf o0 fs0 pdf_path d b start.
Proof.
  unfold process_pdf_log, process_pdf.
  destruct (fs0 !! pdf_path) as [[]|]; try done.
  destruct (load_progress _ _); [|done].
  cbv zeta. repeat (rewrite val_bind; cbv beta). rewrite existing_log_val, pdf_loop_log_val.
  destruct (pdf_loop _ _ _ _ _ _); cbn; [done|]. by repeat case_match.
Qed.

(** The console changes nothing: the value of [process_document_log] is
    [process_document]. *)
Lemma process_document_log_val o fs0 path start :
  val (process_document_log o fs0 path start) = process_document o fs0 path start.
Proof.
  unfold process_document_log, process_document. case_match; [apply process_pdf_log_val|].
  by repeat case_match.
Qed.

(** C10: The console announces exactly the pages sent to the service:
    the lines [Processando página N de T...] printed by a call of
    [_process_pdf] are, in order, one per recognition call of its trace,
    with [N] the 0-based page plus one and [T] the page count; no other
    line starts like them. *)
Theorem announced_pages_sent o0 fs0 pdf_path d b start :
  let run := process_pdf o0 fs0 pdf_path d b start in
  announced (out (process_pdf_log o0 fs0 pdf_path d b start))
  = map (fun p => msg_processing p (total_pages (final_obj run))) (recognized (final_trace run)).
Proof.
  unfold process_pdf_log, process_pdf.
  destruct (fs0 !! pdf_path) as [[]|]; try done.
  destruct (load_progress _ _); [|done].
  cbv zeta. repeat (rewrite out_bind; cbv beta). rewrite !announced_app.
  repeat (rewrite val_bind; cbv beta). rewrite existing_log_val, pdf_loop_log_val.
  match goal with
  | |- context [pdf_loop ?a ?b ?c ?e ?f ?g] =>
      destruct (pdf_loop_log_announced a b c e f g) as [Ht Hl];
      destruct (pdf_loop a b c e f g) eqn:?
  end; cbn [step_state recognized concat map trace obj total_pages set_processed_pages
          set_current_page set_total_pages app] in Ht, Hl;
  rewrite <- Hl; clear Hl.
  all: repeat case_match; cbn [final_obj final_trace]; rewrite ?recognized_app, Ht.
  all: unfold existing_log, msg_continuing, msg_start, msg_complete, msg_saved_at,
         msg_pdf_error, msg_extract_warning, error_block; repeat case_match.
  all: announced_simpl; cbn [out val mbind logged_bind mret logged_ret print app List.filter
                             starts_with Z.eqb Pos.eqb andb recognized concat map recognized_page].
  all: by rewrite ?app_nil_r.
Qed.

(** C2: The console of an interrupted run: when [_process_pdf] stops at
    page [c] with the resume hint [hint], it prints
    [Processamento interrompido na página N.] and the command
    [ocr.process_document('<path>', start_page=N)] with the same [N], the
    text of [hint = c + 1]: the message counts pages from 1, the command
    from 0, so the printed command starts after the page the message
    names as interrupted. *)
Theorem interrupted_console_hint o0 fs0 pdf_path d b start c hint e :
  ended (process_pdf o0 fs0 pdf_path d b start) = Interrupted c hint e ->
  let console := out (process_pdf_log o0 fs0 pdf_path d b start) in
  hint = c + 1
  /\ lit "Processamento interrompido na página " ++ str_of_Z hint ++ lit "." ∈ console
  /\ lit "ocr.process_document('" ++ pdf_path ++ lit "', start_page=" ++ str_of_Z hint ++ lit ")"
     ∈ console.
Proof.
  intros Hend. unfold process_pdf_log. unfold process_pdf in Hend.
  destruct (fs0 !! pdf_path) as [[]|]; try discriminate.
  destruct (load_progress _ _); [|discriminate].
  cbv zeta in *. repeat (rewrite out_bind; cbv beta). repeat (rewrite val_bind; cbv beta).
  rewrite existing_log_val, pdf_loop_log_val.
  destruct (pdf_loop _ _ _ _ _ _) as [st|st e']; [discriminate|].
  assert (c = current_page (obj st) /\ hint = c + 1) as [-> ->]
    by (revert Hend; repeat case_match; cbn; intros; simplify_eq; auto).
  rewrite out_bind. unfold error_block, page_str. cbn [out].
  split; [done|]. rewrite !elem_of_app.
  split; do 4 right; left; apply list_elem_of_In; cbn [In]; auto 10.
Qed.

(** C17: The module-level script prints exactly one line, the message of
    the [except] of [process_document] for the exception its run ends
    with, whatever the files and the service. *)
Theorem main_script_console fs0 :
  exists e, ended (main_script fs0) = Aborted e
  /\ out (process_document_log init_ocr fs0 script_path 0) = [msg_document_error exc_str e].
Proof.
  unfold main_script, process_document_log, process_document.
  replace (is_pdf_path script_path) with false by (vm_compute; reflexivity).
  destruct (fs0 !! script_path) as [[]|]; cbn; eauto.
  destruct (process_technical_fresh_aborts fs0 script_path) as (_ & _ & e & ->). cbn. eauto.
Qed.

End WithRecognizer.

(** ** Scenarios *)

(** [str(e)] for the scenarios: any text. *)
Definition demo_exc_str (e : py_exc) : pystr := lit "erro".

Lemma interrupted_console_hint_witness :
  let d := output_dir demo_pdf in
  let b := file_base demo_pdf in
  ended (@process_pdf (failing_recognizer 1) init_ocr demo_fs demo_pdf d b 0)
  = Interrupted 1 2 ServiceError
  /\ let console := out (@process_pdf_log (failing_recognizer 1) demo_exc_str []
                           init_ocr demo_fs demo_pdf d b 0) in
     2 = 1 + 1
     /\ lit "Processamento interrompido na página " ++ str_of_Z 2 ++ lit "." ∈ console
     /\ lit "ocr.process_document('" ++ demo_pdf ++ lit "', start_page=" ++ str_of_Z 2 ++ lit ")"
        ∈ console.
Proof.
  intros d b.
  assert (Hend : ended (@process_pdf (failing_recognizer 1) init_ocr demo_fs demo_pdf d b 0)
                 = Interrupted 1 2 ServiceError) by (vm_compute; reflexivity).
  split; [exact Hend|].
  exact (@interrupted_console_hint (failing_recognizer 1) demo_exc_str [] init_ocr demo_fs
           demo_pdf d b 0 1 2 ServiceError Hend).
Defined.

End Console.
